(** * charge-my-car: solar output estimator and appliance slot scheduler

    A shallow embedding of [solar_calculator.py] and [scheduler.py].

    Conventions of the embedding.
    - A [datetime.datetime] is the number of microseconds elapsed since
      0001-01-01T00:00:00 (naive, proleptic Gregorian), an integer;
      [datetime.timedelta(hours=1)] is [us_per_hour].
    - A Python exception is a value [Raise e] of the [result] type; the
      [for] loops are monadic folds that stop at the first exception.
    - The code is embedded with two readings of its floats.  In the first
      one they are exact rationals ([Q], identities up to [==]; reals
      ([R]) for the irradiance estimate and the category thresholds) and
      [used_slots] is a finite map [gmap Z Q]: it serves the properties
      that depend on the order of the loops, on the comparisons and on the
      exceptions of the code.
    - In the second one, the module [F64], they are the binary64 floats
      the interpreter computes with, rounded at every operation, and the
      functions of the C mathematical library are a parameter: it serves
      the properties on the values of the energies and of the solar
      output, where rounding decides. *)

From Stdlib Require Import Reals Lra.
From Stdlib Require Import Floats.
From Stdlib Require Import ZArith QArith Qminmax Lqa Lia.
From Stdlib Require Import Sorting.Sorted Sorting.Permutation.
From stdpp Require Import gmap list strings pretty.

#[global] Set Warnings "-inexact-float".

(* ===================================================================== *)
(** * Timestamps *)
(* ===================================================================== *)

Abbreviation datetime := Z (only parsing).

Definition us_per_minute : Z := 60000000.
Definition us_per_hour : Z := 3600000000.
Definition us_per_day : Z := 86400000000.

(** [t + datetime.timedelta(hours=n)] *)
Definition add_hours (t : datetime) (n : Z) : datetime := (t + n * us_per_hour)%Z.

(** [t.hour] and [t.minute] *)
Definition dt_hour (t : datetime) : Z := ((t / us_per_hour) mod 24)%Z.
Definition dt_minute (t : datetime) : Z := ((t / us_per_minute) mod 60)%Z.

(** [t.timetuple().tm_yday]: the day of the year, 1-based, by the
    400/100/4/1-year cycle decomposition of the proleptic ordinal. *)
Definition tm_yday (t : datetime) : Z :=
  (let n := t / us_per_day in
   let n := n mod 146097 in
   let n100 := n / 36524 in
   let n := n mod 36524 in
   let n := n mod 1461 in
   let n1 := n / 365 in
   let n := n mod 365 in
   if (n1 =? 4) || (n100 =? 4) then 366 else n + 1)%Z.

(** Build a timestamp from a proleptic ordinal day and a time of day. *)
Definition mk_datetime (ordinal hour minute : Z) : datetime :=
  ((ordinal - 1) * us_per_day + hour * us_per_hour + minute * us_per_minute)%Z.

(* ===================================================================== *)
(** * Exceptions and loops *)
(* ===================================================================== *)

Inductive exn : Set :=
  IndexError | ZeroDivisionError | ValueError | OverflowError.

Inductive result (A : Type) : Type :=
| Ok (a : A)
| Raise (e : exn).
Arguments Ok {A} a.
Arguments Raise {A} e.

#[global] Instance result_ret : MRet result := @Ok.
#[global] Instance result_bind : MBind result := fun A B f m =>
  match m with
  | Ok a => f a
  | Raise e => Raise e
  end.

(** [for x in xs: s = body(x, s)], stopping at the first exception. *)
Fixpoint for_each {A S : Type} (xs : list A) (body : A -> S -> result S) (s : S)
  : result S :=
  match xs with
  | [] => Ok s
  | x :: xs' =>
      match body x s with
      | Ok s' => for_each xs' body s'
      | Raise e => Raise e
      end
  end.

(** [range(n)]: empty when [n <= 0]. *)
Definition py_range (n : Z) : list nat := seq 0 (Z.to_nat n).

(** [int(x)] on a float: truncation towards zero. *)
Definition py_int (x : Q) : Z := Z.quot (Qnum x) (Z.pos (Qden x)).

(** [sum(...)] over floats, left to right from 0. *)
Definition py_sum (xs : list Q) : Q := fold_left Qplus xs 0%Q.

(* ===================================================================== *)
(** * scheduler.py: data model *)
(* ===================================================================== *)

Inductive Priority : Set := LOW | MEDIUM | HIGH.

Definition priority_value (p : Priority) : Z :=
  match p with
  | LOW => 1
  | MEDIUM => 2
  | HIGH => 3
  end.

Record Appliance : Type := mkAppliance {
  name : string;
  power_rating : Q;
  duration : Q;
  flexibility : Z;
  priority : Priority
}.

Record ScheduleItem : Type := mkScheduleItem {
  appliance : Appliance;
  start_time : datetime;
  end_time : datetime;
  solar_coverage : Q;
  grid_usage : Q;
  cost_savings : Q
}.

Record ApplianceScheduler : Type := mkScheduler {
  appliances : list Appliance;
  base_load : Q;
  electricity_rate : Q
}.

(** [ApplianceScheduler.__init__]: the rate is always 0.12 $/kWh. *)
Definition new_scheduler (apps : list Appliance) (load : Q) : ApplianceScheduler :=
  {| appliances := apps; base_load := load; electricity_rate := 12 # 100 |}.

(** The default [base_load=2.0] of the constructor. *)
Definition default_scheduler (apps : list Appliance) : ApplianceScheduler :=
  new_scheduler apps 2.

Abbreviation ProductionSchedule := (list (Z * Q)) (only parsing).

(* ===================================================================== *)
(** * scheduler.py: the sort of [optimize_schedule] *)
(* ===================================================================== *)

(** [key=lambda a: (a.priority.value, -a.flexibility)] *)
Definition sort_key (a : Appliance) : Z * Z :=
  (priority_value (priority a), - flexibility a)%Z.

(** Tuple comparison [k1 < k2], lexicographic. *)
Definition key_ltb (k1 k2 : Z * Z) : bool :=
  (k1.1 <? k2.1)%Z || ((k1.1 =? k2.1)%Z && (k1.2 <? k2.2)%Z).

(** [sorted(xs, key=sort_key, reverse=True)]: descending in the key and
    stable (elements with equal keys keep their input order).  A
    stable sort has a unique result, so a stable insertion sort stands for
    the library's merge sort. *)
Fixpoint insert_desc (a : Appliance) (l : list Appliance) : list Appliance :=
  match l with
  | [] => [a]
  | b :: l' =>
      if key_ltb (sort_key a) (sort_key b) then b :: insert_desc a l'
      else a :: b :: l'
  end.

Definition sorted_appliances (apps : list Appliance) : list Appliance :=
  foldr insert_desc [] apps.

(* ===================================================================== *)
(** * scheduler.py: slot availability, score, item, bookkeeping *)
(* ===================================================================== *)

Section Scheduler.
Local Open Scope Q_scope.

(** The hard-coded slot capacity of [_is_slot_available], in kW. *)
Definition slot_capacity : Q := 10.

(** [_is_slot_available]: [n] iterations of the [for _ in range(duration)]
    loop remain.  An hour that is not a key of [used_slots] is skipped. *)
Fixpoint is_slot_available_loop (n : nat) (current_time : datetime)
    (used_slots : gmap Z Q) (power_needed : Q) : bool :=
  match n with
  | O => true
  | S n' =>
      match used_slots !! current_time with
      | Some used =>
          if Qlt_le_dec slot_capacity (used + power_needed) then false
          else is_slot_available_loop n' (add_hours current_time 1)
                 used_slots power_needed
      | None =>
          is_slot_available_loop n' (add_hours current_time 1)
            used_slots power_needed
      end
  end.

Definition _is_slot_available (start_time : datetime) (duration : Z)
    (used_slots : gmap Z Q) (power_needed : Q) : bool :=
  is_slot_available_loop (Z.to_nat duration) start_time used_slots power_needed.

(** The [for i, (timestamp, production) in enumerate(...)] loop with its
    [if timestamp == start_time: ...; break]: only the first index whose
    timestamp equals [start_time] is acted on. *)
Fixpoint first_index_from (ps : ProductionSchedule) (start_time : datetime)
    (i : nat) : option nat :=
  match ps with
  | [] => None
  | (timestamp, _) :: ps' =>
      if (timestamp =? start_time)%Z then Some i
      else first_index_from ps' start_time (S i)
  end.

Definition first_index (ps : ProductionSchedule) (start_time : datetime)
  : option nat :=
  first_index_from ps start_time 0.

(** [used_slots.get(current_time, 0)] *)
Definition used_power_at (used_slots : gmap Z Q) (t : datetime) : Q :=
  default 0 (used_slots !! t).

(** [max(0, slot_production - self.base_load - used_power)] *)
Definition available_solar (s : ApplianceScheduler) (slot_production : Q)
    (used_power : Q) : Q :=
  Qmax 0 (slot_production - base_load s - used_power).

(** The bonus test [10 <= current_time.hour <= 16 and flexibility > 7]. *)
Definition peak_bonus (a : Appliance) (current_time : datetime) : bool :=
  (10 <=? dt_hour current_time)%Z && (dt_hour current_time <=? 16)%Z
  && (7 <? flexibility a)%Z.

(** One iteration [j] of the inner loop of [_calculate_slot_score]; the
    state is [(score, current_time)].  The float division raises
    [ZeroDivisionError] on a zero [power_rating]. *)
Definition score_step (s : ApplianceScheduler) (a : Appliance)
    (ps : ProductionSchedule) (used_slots : gmap Z Q) (i : nat)
    (j : nat) (st : Q * Z) : result (Q * Z) :=
  let '(score, current_time) := st in
  match ps !! (i + j)%nat with
  | Some (_, slot_production) =>
      let used_power := used_power_at used_slots current_time in
      let avail := available_solar s slot_production used_power in
      if Qeq_dec (power_rating a) 0 then Raise ZeroDivisionError
      else
        let coverage := Qmin 1 (avail / power_rating a) in
        let score := score + coverage * 100 in
        let score := if peak_bonus a current_time then score + 20 else score in
        Ok (score, add_hours current_time 1)
  | None => Ok st
  end.

Definition _calculate_slot_score (s : ApplianceScheduler) (a : Appliance)
    (start_time : datetime) (duration : Z) (ps : ProductionSchedule)
    (used_slots : gmap Z Q) : result Q :=
  match first_index ps start_time with
  | Some i =>
      st ← for_each (py_range duration) (score_step s a ps used_slots i)
             (0, start_time);
      Ok st.1
  | None => Ok 0
  end.

(** One iteration [j] of the inner loop of [_create_schedule_item]; the
    state is [(solar_energy, grid_energy, current_time)]. *)
Definition energy_step (s : ApplianceScheduler) (a : Appliance)
    (ps : ProductionSchedule) (used_slots : gmap Z Q) (i : nat)
    (j : nat) (st : Q * Q * Z) : Q * Q * Z :=
  let '(solar_energy, grid_energy, current_time) := st in
  match ps !! (i + j)%nat with
  | Some (_, slot_production) =>
      let used_power := used_power_at used_slots current_time in
      let avail := available_solar s slot_production used_power in
      let solar_used := Qmin (power_rating a) avail in
      let grid_used := power_rating a - solar_used in
      (solar_energy + solar_used, grid_energy + grid_used,
       add_hours current_time 1)
  | None => st
  end.

(** The two accumulators [(solar_energy, grid_energy)] at the end of the
    loops of [_create_schedule_item]. *)
Definition slot_energy (s : ApplianceScheduler) (a : Appliance)
    (start_time : datetime) (duration : Z) (ps : ProductionSchedule)
    (used_slots : gmap Z Q) : Q * Q :=
  match first_index ps start_time with
  | Some i =>
      (fold_left (fun st j => energy_step s a ps used_slots i j st)
         (py_range duration) (0, 0, start_time)).1
  | None => (0, 0)
  end.

Definition _create_schedule_item (s : ApplianceScheduler) (a : Appliance)
    (start_time : datetime) (duration_slots : Z) (ps : ProductionSchedule)
    (used_slots : gmap Z Q) : ScheduleItem :=
  let end_time := add_hours start_time duration_slots in
  let total_energy := power_rating a * duration a in
  let '(solar_energy, grid_energy) :=
    slot_energy s a start_time duration_slots ps used_slots in
  let solar_coverage :=
    if Qlt_le_dec 0 total_energy then solar_energy / total_energy else 0 in
  let cost_savings := solar_energy * electricity_rate s in
  {| appliance := a;
     start_time := start_time;
     end_time := end_time;
     solar_coverage := solar_coverage;
     grid_usage := grid_energy;
     cost_savings := cost_savings |}.

(** One iteration of the scan over start indices in
    [_find_best_time_slot]; the state is [(best_slot, best_score)].
    [production_schedule[i]] raises [IndexError] past the end. *)
Definition best_step (s : ApplianceScheduler) (a : Appliance)
    (ps : ProductionSchedule) (used_slots : gmap Z Q) (duration_slots : Z)
    (i : nat) (st : option ScheduleItem * Q)
  : result (option ScheduleItem * Q) :=
  match ps !! i with
  | None => Raise IndexError
  | Some (start_time, _) =>
      if _is_slot_available start_time duration_slots used_slots
           (power_rating a)
      then
        score ← _calculate_slot_score s a start_time duration_slots ps
                  used_slots;
        if Qlt_le_dec st.2 score
        then Ok (Some (_create_schedule_item s a start_time duration_slots
                         ps used_slots), score)
        else Ok st
      else Ok st
  end.

Definition _find_best_time_slot (s : ApplianceScheduler) (a : Appliance)
    (ps : ProductionSchedule) (used_slots : gmap Z Q)
  : result (option ScheduleItem) :=
  let duration_slots := py_int (duration a) in
  st ← for_each (py_range (Z.of_nat (length ps) - duration_slots + 1))
         (best_step s a ps used_slots duration_slots) (None, -1);
  Ok st.1.

(** [_mark_slots_used]: the [while current_time < end_time] loop, with
    [n] an upper bound on the iterations still to run. *)
Fixpoint mark_loop (n : nat) (current_time end_time : datetime) (power : Q)
    (used_slots : gmap Z Q) : gmap Z Q :=
  match n with
  | O => used_slots
  | S n' =>
      if (current_time <? end_time)%Z then
        let used_slots :=
          match used_slots !! current_time with
          | None => <[current_time := 0]> used_slots
          | Some _ => used_slots
          end in
        let used_slots :=
          <[current_time := used_power_at used_slots current_time + power]>
            used_slots in
        mark_loop n' (add_hours current_time 1) end_time power used_slots
      else used_slots
  end.

(** Number of hourly steps from [t1] until [t2] is reached or passed. *)
Definition hours_until (t1 t2 : datetime) : nat :=
  Z.to_nat ((t2 - t1 + us_per_hour - 1) / us_per_hour).

Definition _mark_slots_used (item : ScheduleItem) (used_slots : gmap Z Q)
  : gmap Z Q :=
  mark_loop (hours_until (start_time item) (end_time item))
    (start_time item) (end_time item) (power_rating (appliance item))
    used_slots.

(** One iteration of the loop of [optimize_schedule]; the state is
    [(schedule, used_slots)].  A [ScheduleItem] is always truthy, so
    [if best_slot:] only tests for [None]. *)
Definition schedule_step (s : ApplianceScheduler) (ps : ProductionSchedule)
    (a : Appliance) (st : list ScheduleItem * gmap Z Q)
  : result (list ScheduleItem * gmap Z Q) :=
  best_slot ← _find_best_time_slot s a ps st.2;
  match best_slot with
  | Some item => Ok (st.1 ++ [item], _mark_slots_used item st.2)
  | None => Ok st
  end.

(** The loop of [optimize_schedule], returning the schedule together with
    the final [used_slots]. *)
Definition optimize_loop (s : ApplianceScheduler) (ps : ProductionSchedule)
  : result (list ScheduleItem * gmap Z Q) :=
  for_each (sorted_appliances (appliances s)) (schedule_step s ps) ([], ∅).

Definition optimize_schedule (s : ApplianceScheduler) (ps : ProductionSchedule)
  : result (list ScheduleItem) :=
  st ← optimize_loop s ps;
  Ok st.1.

(** The dictionary returned by [get_schedule_summary]. *)
Record Summary : Type := mkSummary {
  total_energy : Q;
  solar_energy : Q;
  grid_energy : Q;
  solar_percentage : Q;
  summary_cost_savings : Q;
  scheduled_appliances : nat
}.

Definition get_schedule_summary (schedule : list ScheduleItem) : Summary :=
  let total_energy :=
    py_sum (map (fun item => power_rating (appliance item)
                             * duration (appliance item)) schedule) in
  let total_solar_energy :=
    py_sum (map (fun item => solar_coverage item
                             * power_rating (appliance item)
                             * duration (appliance item)) schedule) in
  let total_grid_energy := py_sum (map grid_usage schedule) in
  let total_savings := py_sum (map cost_savings schedule) in
  {| total_energy := total_energy;
     solar_energy := total_solar_energy;
     grid_energy := total_grid_energy;
     solar_percentage :=
       if Qlt_le_dec 0 total_energy
       then total_solar_energy / total_energy * 100 else 0;
     summary_cost_savings := total_savings;
     scheduled_appliances := length schedule |}.

End Scheduler.

(* ===================================================================== *)
(** * solar_calculator.py: the window search *)
(* ===================================================================== *)

Section Windows.
Local Open Scope Q_scope.

(** One iteration of the scan of [get_optimal_time_windows]; the state is
    [(optimal_windows, current_window_start, current_window_duration)]. *)
Definition window_step (min_power duration_hours : Q) (point : Z * Q)
    (st : list (Z * Z) * option Z * Z) : list (Z * Z) * option Z * Z :=
  let '(optimal_windows, current_window_start, current_window_duration) := st in
  let '(timestamp, output) := point in
  if Qlt_le_dec output min_power then (optimal_windows, None, 0%Z)
  else
    let '(window_start, window_duration) :=
      match current_window_start with
      | None => (timestamp, 1%Z)
      | Some t => (t, (current_window_duration + 1)%Z)
      end in
    if Qlt_le_dec (inject_Z window_duration) duration_hours
    then (optimal_windows, Some window_start, window_duration)
    else (optimal_windows ++ [(window_start, timestamp)], None, 0%Z).

Definition window_scan (min_power duration_hours : Q)
    (ps : ProductionSchedule) (st : list (Z * Z) * option Z * Z)
  : list (Z * Z) * option Z * Z :=
  fold_left (fun st point => window_step min_power duration_hours point st)
    ps st.

Definition get_optimal_time_windows (ps : ProductionSchedule)
    (min_power duration_hours : Q) : list (Z * Z) :=
  (window_scan min_power duration_hours ps ([], None, 0%Z)).1.1.

End Windows.

(* ===================================================================== *)
(** * solar_calculator.py: the configuration *)
(* ===================================================================== *)

Section Solar.
Local Open Scope R_scope.

(** The [location] dictionary, with its two keys. *)
Record Location : Type := mkLocation { lat : R; lon : R }.

Record SolarConfig : Type := mkSolarConfig {
  panel_wattage : R;
  panel_count : Z;
  efficiency : R;
  tilt_angle : R;
  azimuth_angle : R;
  location : Location
}.

Record SolarCalculator : Type := mkSolarCalculator {
  config : SolarConfig;
  latitude : R
}.

(** [math.radians] *)
Definition radians (x : R) : R := x * PI / 180.

(** [SolarCalculator.__init__] *)
Definition new_calculator (c : SolarConfig) : SolarCalculator :=
  {| config := c; latitude := radians (lat (location c)) |}.

End Solar.

(* ===================================================================== *)
(** * scheduler.py: deferral advice *)
(* ===================================================================== *)

Section Deferrals.
Local Open Scope Q_scope.

(** One iteration [j] of the inner loop of
    [_calculate_potential_coverage]; the state is [solar_energy].  The
    booked power of other appliances is not looked at. *)
Definition potential_step (s : ApplianceScheduler) (a : Appliance)
    (ps : ProductionSchedule) (i : nat) (j : nat) (solar_energy : Q) : Q :=
  match ps !! (i + j)%nat with
  | Some (_, slot_production) =>
      let avail := Qmax 0 (slot_production - base_load s) in
      let solar_used := Qmin (power_rating a) avail in
      solar_energy + solar_used
  | None => solar_energy
  end.

Definition _calculate_potential_coverage (s : ApplianceScheduler)
    (a : Appliance) (start_time : datetime) (duration_slots : Z)
    (ps : ProductionSchedule) : Q :=
  let total_energy := power_rating a * duration a in
  let solar_energy :=
    match first_index ps start_time with
    | Some i =>
        fold_left (fun e j => potential_step s a ps i j e)
          (py_range duration_slots) 0
    | None => 0
    end in
  if Qlt_le_dec 0 total_energy then solar_energy / total_energy else 0.

(** One iteration of the scan of [_find_better_slots]; the state is
    [(best_time, best_coverage)].  The slot the item already has is
    skipped by its timestamp. *)
Definition better_step (s : ApplianceScheduler) (item : ScheduleItem)
    (ps : ProductionSchedule) (duration_slots : Z) (i : nat)
    (st : option Z * Q) : result (option Z * Q) :=
  let item_start_time := start_time item in
  match ps !! i with
  | None => Raise IndexError
  | Some (start_time, _) =>
      if (start_time =? item_start_time)%Z then Ok st
      else
        let coverage :=
          _calculate_potential_coverage s (appliance item) start_time
            duration_slots ps in
        if Qlt_le_dec st.2 coverage then Ok (Some start_time, coverage)
        else Ok st
  end.

(** [_find_better_slots]: a [datetime] is always truthy, so
    [if best_time] only tests for [None]. *)
Definition _find_better_slots (s : ApplianceScheduler) (item : ScheduleItem)
    (ps : ProductionSchedule) : result (option (Z * Q)) :=
  let duration_slots := py_int (duration (appliance item)) in
  st ← for_each (py_range (Z.of_nat (length ps) - duration_slots + 1))
         (better_step s item ps duration_slots)
         (None, solar_coverage item);
  Ok (match st.1 with
      | Some best_time => Some (best_time, st.2)
      | None => None
      end).

(** [t.strftime('%H:%M')]: two digits each, zero padded. *)
Definition two_digits (n : Z) : string :=
  if (n <? 10)%Z then "0" +:+ pretty n else pretty n.

Definition strftime_HM (t : datetime) : string :=
  two_digits (dt_hour t) +:+ ":" +:+ two_digits (dt_minute t).

(** The f-string of [recommend_deferrals].  The percentage is taken on
    the exact product here; the float product of the code can fall just
    below an integer that the exact one reaches. *)
Definition recommendation (a : Appliance) (better : Z * Q) : string :=
  "Consider running " +:+ name a +:+ " at " +:+ strftime_HM better.1
  +:+ " for " +:+ pretty (py_int (better.2 * 100)) +:+ "% solar coverage".

(** One iteration of the loop of [recommend_deferrals] over the items of
    low solar coverage; the state is [recommendations]. *)
Definition deferral_step (s : ApplianceScheduler) (ps : ProductionSchedule)
    (item : ScheduleItem) (recommendations : list string)
  : result (list string) :=
  if (5 <? flexibility (appliance item))%Z then
    better_slots ← _find_better_slots s item ps;
    match better_slots with
    | Some better =>
        Ok (recommendations ++ [recommendation (appliance item) better])
    | None => Ok recommendations
    end
  else Ok recommendations.

(** [item.solar_coverage < 0.5] *)
Definition low_solar (item : ScheduleItem) : bool :=
  if Qlt_le_dec (solar_coverage item) 0.5 then true else false.

Definition recommend_deferrals (s : ApplianceScheduler)
    (schedule : list ScheduleItem) (ps : ProductionSchedule)
  : result (list string) :=
  let low_solar_items := List.filter low_solar schedule in
  for_each low_solar_items (deferral_step s ps) [].

End Deferrals.

(* ===================================================================== *)
(** * solar_calculator.py: categories and excess energy *)
(* ===================================================================== *)

Section Categories.
Local Open Scope R_scope.

(** The body of the loop of [get_production_categories] for one output. *)
Definition production_category (self : SolarCalculator) (output : R) : string :=
  let system_capacity :=
    (IZR (panel_count (config self)) * panel_wattage (config self)) / 1000 in
  if Rle_dec (system_capacity * 0.7) output then "green"
  else if Rle_dec (system_capacity * 0.3) output then "yellow"
  else "red".

Definition get_production_categories (self : SolarCalculator)
    (production_schedule : list (Z * R)) : list (Z * string) :=
  map (fun point => (point.1, production_category self point.2))
    production_schedule.

End Categories.

Section Battery.
Local Open Scope Q_scope.

(** [estimate_battery_charging]; the constructor default of [base_load]
    is 2.0. *)
Definition estimate_battery_charging (ps : ProductionSchedule) (base_load : Q)
  : ProductionSchedule :=
  map (fun point => (point.1, Qmax 0 (point.2 - base_load))) ps.

End Battery.

(* ===================================================================== *)
(** * weather.py: the irradiance estimate *)
(* ===================================================================== *)

Section Weather.
Local Open Scope R_scope.

(** [WeatherAPI._estimate_solar_irradiance] *)
Definition _estimate_solar_irradiance (cloud_cover : R) (t : datetime) : R :=
  let max_irradiance := 1000 in
  let hour := dt_hour t in
  let sun_elevation :=
    if ((hour <? 6) || (18 <? hour))%Z then 0
    else Rabs (sin (PI * IZR (hour - 6) / 12)) in
  let cloud_factor := 1 - (cloud_cover / 100) * 0.8 in
  let irradiance := max_irradiance * sun_elevation * cloud_factor in
  Rmax 0 irradiance.

End Weather.

(* ===================================================================== *)
(** * visualizer.py: consumption and energy statistics *)
(* ===================================================================== *)

Section Visualizer.
Local Open Scope Q_scope.

(** [_get_appliance_load_at_time] *)
Definition _get_appliance_load_at_time (t : datetime)
    (appliance_schedule : list ScheduleItem) : Q :=
  fold_left
    (fun total_load item =>
       if (start_time item <=? t)%Z && (t <? end_time item)%Z
       then total_load + power_rating (appliance item)
       else total_load)
    appliance_schedule 0.

(** [_calculate_hourly_consumption] *)
Definition _calculate_hourly_consumption (timestamps : list Z)
    (appliance_schedule : list ScheduleItem) (base_load : Q) : list Q :=
  map (fun t => base_load + _get_appliance_load_at_time t appliance_schedule)
    timestamps.

(** The dictionary returned by [_calculate_energy_statistics]. *)
Record EnergyStatistics : Type := mkEnergyStatistics {
  total_production : Q;
  total_solar_used : Q;
  total_grid_used : Q;
  total_consumption : Q;
  solar_efficiency : Q
}.

(** One iteration of the loop of [_calculate_energy_statistics]; the
    state is [(total_solar_used, total_grid_used)]. *)
Definition statistics_step (appliance_schedule : list ScheduleItem)
    (base_load : Q) (st : Q * Q) (point : Z * Q) : Q * Q :=
  let appliance_load :=
    _get_appliance_load_at_time point.1 appliance_schedule in
  let consumption := base_load + appliance_load in
  let solar_used := Qmin point.2 consumption in
  let grid_used := Qmax 0 (consumption - point.2) in
  (st.1 + solar_used, st.2 + grid_used).

Definition _calculate_energy_statistics (ps : ProductionSchedule)
    (appliance_schedule : list ScheduleItem) (base_load : Q)
  : EnergyStatistics :=
  let total_production := py_sum (map snd ps) in
  let st := fold_left (statistics_step appliance_schedule base_load) ps (0, 0) in
  {| total_production := total_production;
     total_solar_used := st.1;
     total_grid_used := st.2;
     total_consumption := st.1 + st.2;
     solar_efficiency :=
       if Qlt_le_dec 0 (st.1 + st.2) then st.1 / (st.1 + st.2) * 100 else 0 |}.

End Visualizer.

(* ===================================================================== *)
(** * The arithmetic of the code: binary64 *)
(* ===================================================================== *)

(** The same scheduler and the solar output formula with the numbers the
    code computes with: IEEE 754 binary64 floats, rounded to nearest even
    at every operation.  Properties that only depend on the order and on
    the comparisons of the code are stated on the model above; equalities
    and bounds between computed energies are stated on this one. *)
Module F64.
Local Open Scope float_scope.

(** [float(n)] for an integer [n], and [int(x)] for a float [x]:
    truncation towards zero, [OverflowError] on an infinity,
    [ValueError] on a NaN. *)
Definition of_int (n : Z) : float :=
  SF2Prim (binary_normalize prec emax n 0 false).

Definition py_int (x : float) : result Z :=
  match Prim2SF x with
  | S754_zero _ => Ok 0%Z
  | S754_finite negative m e =>
      let magnitude :=
        if (0 <=? e)%Z then (Z.pos m * 2 ^ e)%Z
        else (Z.pos m / 2 ^ (- e))%Z in
      Ok (if negative then (- magnitude)%Z else magnitude)
  | S754_infinity _ => Raise OverflowError
  | S754_nan => Raise ValueError
  end.

(** [max(0, x)], [min(1.0, x)] and [min(a, b)] as the built-ins compute
    them: the first argument is kept unless the second one is strictly
    better. *)
Definition py_max (a b : float) : float := if a <? b then b else a.
Definition py_min (a b : float) : float := if b <? a then b else a.

Record Appliance : Type := mkAppliance {
  name : string;
  power_rating : float;
  duration : float;
  flexibility : Z;
  priority : Priority
}.

Record ScheduleItem : Type := mkScheduleItem {
  appliance : Appliance;
  start_time : datetime;
  end_time : datetime;
  solar_coverage : float;
  grid_usage : float;
  cost_savings : float
}.

Record ApplianceScheduler : Type := mkScheduler {
  appliances : list Appliance;
  base_load : float;
  electricity_rate : float
}.

(** [ApplianceScheduler.__init__] and its default [base_load=2.0]. *)
Definition new_scheduler (apps : list Appliance) (load : float)
  : ApplianceScheduler :=
  {| appliances := apps; base_load := load; electricity_rate := 0.12 |}.

Definition default_scheduler (apps : list Appliance) : ApplianceScheduler :=
  new_scheduler apps 2.

(** [sorted(self.appliances, key=..., reverse=True)], as above. *)
Definition sort_key (a : Appliance) : Z * Z :=
  (priority_value (priority a), - flexibility a)%Z.

Fixpoint insert_desc (a : Appliance) (l : list Appliance) : list Appliance :=
  match l with
  | [] => [a]
  | b :: l' =>
      if key_ltb (sort_key a) (sort_key b) then b :: insert_desc a l'
      else a :: b :: l'
  end.

Definition sorted_appliances (apps : list Appliance) : list Appliance :=
  foldr insert_desc [] apps.

(** [_is_slot_available] *)
Fixpoint is_slot_available_loop (n : nat) (current_time : datetime)
    (used_slots : gmap Z float) (power_needed : float) : bool :=
  match n with
  | O => true
  | S n' =>
      match used_slots !! current_time with
      | Some used =>
          if 10 <? used + power_needed then false
          else is_slot_available_loop n' (add_hours current_time 1)
                 used_slots power_needed
      | None =>
          is_slot_available_loop n' (add_hours current_time 1)
            used_slots power_needed
      end
  end.

Definition _is_slot_available (start_time : datetime) (duration : Z)
    (used_slots : gmap Z float) (power_needed : float) : bool :=
  is_slot_available_loop (Z.to_nat duration) start_time used_slots power_needed.

(** First index whose timestamp equals [start_time]. *)
Fixpoint first_index_from (ps : list (Z * float)) (start_time : datetime)
    (i : nat) : option nat :=
  match ps with
  | [] => None
  | (timestamp, _) :: ps' =>
      if (timestamp =? start_time)%Z then Some i
      else first_index_from ps' start_time (S i)
  end.

Definition first_index (ps : list (Z * float)) (start_time : datetime)
  : option nat :=
  first_index_from ps start_time 0.

(** [used_slots.get(current_time, 0)] *)
Definition used_power_at (used_slots : gmap Z float) (t : datetime) : float :=
  default 0 (used_slots !! t).

(** [max(0, slot_production - self.base_load - used_power)] *)
Definition available_solar (s : ApplianceScheduler) (slot_production : float)
    (used_power : float) : float :=
  py_max 0 (slot_production - base_load s - used_power).

Definition peak_bonus (a : Appliance) (current_time : datetime) : bool :=
  (10 <=? dt_hour current_time)%Z && (dt_hour current_time <=? 16)%Z
  && (7 <? flexibility a)%Z.

(** One iteration of the inner loop of [_calculate_slot_score]; a float
    division raises [ZeroDivisionError] when the divisor equals zero. *)
Definition score_step (s : ApplianceScheduler) (a : Appliance)
    (ps : list (Z * float)) (used_slots : gmap Z float) (i : nat)
    (j : nat) (st : float * Z) : result (float * Z) :=
  let '(score, current_time) := st in
  match ps !! (i + j)%nat with
  | Some (_, slot_production) =>
      let used_power := used_power_at used_slots current_time in
      let avail := available_solar s slot_production used_power in
      if power_rating a =? 0 then Raise ZeroDivisionError
      else
        let coverage := py_min 1 (avail / power_rating a) in
        let score := score + coverage * 100 in
        let score := if peak_bonus a current_time then score + 20 else score in
        Ok (score, add_hours current_time 1)
  | None => Ok st
  end.

Definition _calculate_slot_score (s : ApplianceScheduler) (a : Appliance)
    (start_time : datetime) (duration : Z) (ps : list (Z * float))
    (used_slots : gmap Z float) : result float :=
  match first_index ps start_time with
  | Some i =>
      st ← for_each (py_range duration) (score_step s a ps used_slots i)
             (0, start_time);
      Ok st.1
  | None => Ok 0
  end.

(** The solar power used in one slot: [min(power_rating, available)]. *)
Definition solar_used_in_slot (s : ApplianceScheduler) (a : Appliance)
    (used_slots : gmap Z float) (slot_production : float)
    (current_time : datetime) : float :=
  py_min (power_rating a)
    (available_solar s slot_production (used_power_at used_slots current_time)).

(** One iteration of the inner loop of [_create_schedule_item]; the
    state is [(solar_energy, grid_energy, current_time)]. *)
Definition energy_step (s : ApplianceScheduler) (a : Appliance)
    (ps : list (Z * float)) (used_slots : gmap Z float) (i : nat)
    (j : nat) (st : float * float * Z) : float * float * Z :=
  let '(solar_energy, grid_energy, current_time) := st in
  match ps !! (i + j)%nat with
  | Some (_, slot_production) =>
      let solar_used :=
        solar_used_in_slot s a used_slots slot_production current_time in
      let grid_used := power_rating a - solar_used in
      (solar_energy + solar_used, grid_energy + grid_used,
       add_hours current_time 1)
  | None => st
  end.

Definition slot_energy (s : ApplianceScheduler) (a : Appliance)
    (start_time : datetime) (duration : Z) (ps : list (Z * float))
    (used_slots : gmap Z float) : float * float :=
  match first_index ps start_time with
  | Some i =>
      (fold_left (fun st j => energy_step s a ps used_slots i j st)
         (py_range duration) (0, 0, start_time)).1
  | None => (0, 0)
  end.

Definition _create_schedule_item (s : ApplianceScheduler) (a : Appliance)
    (start_time : datetime) (duration_slots : Z) (ps : list (Z * float))
    (used_slots : gmap Z float) : ScheduleItem :=
  let end_time := add_hours start_time duration_slots in
  let total_energy := power_rating a * duration a in
  let '(solar_energy, grid_energy) :=
    slot_energy s a start_time duration_slots ps used_slots in
  let solar_coverage :=
    if 0 <? total_energy then solar_energy / total_energy else 0 in
  let cost_savings := solar_energy * electricity_rate s in
  {| appliance := a;
     start_time := start_time;
     end_time := end_time;
     solar_coverage := solar_coverage;
     grid_usage := grid_energy;
     cost_savings := cost_savings |}.

Definition best_step (s : ApplianceScheduler) (a : Appliance)
    (ps : list (Z * float)) (used_slots : gmap Z float) (duration_slots : Z)
    (i : nat) (st : option ScheduleItem * float)
  : result (option ScheduleItem * float) :=
  match ps !! i with
  | None => Raise IndexError
  | Some (start_time, _) =>
      if _is_slot_available start_time duration_slots used_slots
           (power_rating a)
      then
        score ← _calculate_slot_score s a start_time duration_slots ps
                  used_slots;
        if st.2 <? score
        then Ok (Some (_create_schedule_item s a start_time duration_slots
                         ps used_slots), score)
        else Ok st
      else Ok st
  end.

Definition _find_best_time_slot (s : ApplianceScheduler) (a : Appliance)
    (ps : list (Z * float)) (used_slots : gmap Z float)
  : result (option ScheduleItem) :=
  duration_slots ← py_int (duration a);
  st ← for_each (py_range (Z.of_nat (length ps) - duration_slots + 1))
         (best_step s a ps used_slots duration_slots) (None, -1);
  Ok st.1.

Fixpoint mark_loop (n : nat) (current_time end_time : datetime)
    (power : float) (used_slots : gmap Z float) : gmap Z float :=
  match n with
  | O => used_slots
  | S n' =>
      if (current_time <? end_time)%Z then
        let used_slots :=
          match used_slots !! current_time with
          | None => <[current_time := 0]> used_slots
          | Some _ => used_slots
          end in
        let used_slots :=
          <[current_time := used_power_at used_slots current_time + power]>
            used_slots in
        mark_loop n' (add_hours current_time 1) end_time power used_slots
      else used_slots
  end.

Definition _mark_slots_used (item : ScheduleItem) (used_slots : gmap Z float)
  : gmap Z float :=
  mark_loop (hours_until (start_time item) (end_time item))
    (start_time item) (end_time item) (power_rating (appliance item))
    used_slots.

Definition schedule_step (s : ApplianceScheduler) (ps : list (Z * float))
    (a : Appliance) (st : list ScheduleItem * gmap Z float)
  : result (list ScheduleItem * gmap Z float) :=
  best_slot ← _find_best_time_slot s a ps st.2;
  match best_slot with
  | Some item => Ok (st.1 ++ [item], _mark_slots_used item st.2)
  | None => Ok st
  end.

Definition optimize_loop (s : ApplianceScheduler) (ps : list (Z * float))
  : result (list ScheduleItem * gmap Z float) :=
  for_each (sorted_appliances (appliances s)) (schedule_step s ps) ([], ∅).

Definition optimize_schedule (s : ApplianceScheduler) (ps : list (Z * float))
  : result (list ScheduleItem) :=
  st ← optimize_loop s ps;
  Ok st.1.

(** ** solar_calculator.py *)

(** The functions of the C mathematical library that [math] wraps. *)
Record Libm : Type := mkLibm {
  libm_sin : float -> float;
  libm_cos : float -> float;
  libm_tan : float -> float;
  libm_asin : float -> float;
  libm_atan2 : float -> float -> float
}.

Record WeatherData : Type := mkWeatherData {
  timestamp : datetime;
  temperature : float;
  cloud_cover : float;
  solar_irradiance : float;
  wind_speed : float;
  humidity : float
}.

Record Location : Type := mkLocation { lat : float; lon : float }.

Record SolarConfig : Type := mkSolarConfig {
  panel_wattage : float;
  panel_count : Z;
  efficiency : float;
  tilt_angle : float;
  azimuth_angle : float;
  location : Location
}.

Record SolarCalculator : Type := mkSolarCalculator {
  config : SolarConfig;
  latitude : float
}.

(** [math.radians(x)] is [x * (pi / 180)]. *)
Definition radians (x : float) : float := x * 0x1.1df46a2529d39p-6.

Definition new_calculator (c : SolarConfig) : SolarCalculator :=
  {| config := c; latitude := radians (lat (location c)) |}.

(** [math.sin], [math.cos], [math.tan]: [ValueError] on an infinity. *)
Definition math_sin (m : Libm) (x : float) : result float :=
  if is_infinity x then Raise ValueError else Ok (libm_sin m x).
Definition math_cos (m : Libm) (x : float) : result float :=
  if is_infinity x then Raise ValueError else Ok (libm_cos m x).
Definition math_tan (m : Libm) (x : float) : result float :=
  if is_infinity x then Raise ValueError else Ok (libm_tan m x).

(** [math.asin]: [ValueError] outside of [-1, 1]. *)
Definition math_asin (m : Libm) (x : float) : result float :=
  if (x <? -1) || (1 <? x) then Raise ValueError else Ok (libm_asin m x).

Definition _calculate_angle_factor (m : Libm) (self : SolarCalculator)
    (t : datetime) : result float :=
  let day_of_year := tm_yday t in
  x ← math_sin m
        (radians (of_int (360 * (284 + day_of_year)) / of_int 365));
  let declination := 23.45 * x in
  let declination := radians declination in
  let hour := of_int (dt_hour t) + of_int (dt_minute t) / 60 in
  let hour_angle := radians (15 * (hour - 12)) in
  sin_decl ← math_sin m declination;
  sin_lat ← math_sin m (latitude self);
  cos_decl ← math_cos m declination;
  cos_lat ← math_cos m (latitude self);
  cos_hour ← math_cos m hour_angle;
  elevation ← math_asin m (sin_decl * sin_lat + cos_decl * cos_lat * cos_hour);
  sin_hour ← math_sin m hour_angle;
  cos_hour' ← math_cos m hour_angle;
  sin_lat' ← math_sin m (latitude self);
  tan_decl ← math_tan m declination;
  cos_lat' ← math_cos m (latitude self);
  let azimuth :=
    libm_atan2 m sin_hour (cos_hour' * sin_lat' - tan_decl * cos_lat') in
  let panel_tilt := radians (tilt_angle (config self)) in
  let panel_azimuth := radians (azimuth_angle (config self) - 180) in
  sin_el ← math_sin m elevation;
  cos_tilt ← math_cos m panel_tilt;
  cos_el ← math_cos m elevation;
  sin_tilt ← math_sin m panel_tilt;
  cos_diff ← math_cos m (azimuth - panel_azimuth);
  let cos_incidence := sin_el * cos_tilt + cos_el * sin_tilt * cos_diff in
  Ok (py_max 0 cos_incidence).

Definition calculate_solar_output (m : Libm) (self : SolarCalculator)
    (w : WeatherData) : result float :=
  let panel_area := of_int (panel_count (config self)) * 2 in
  let base_output :=
    (panel_area * efficiency (config self) * solar_irradiance w) / 1000 in
  let temp_coefficient := -0.004 in
  let temp_factor := 1 + temp_coefficient * (temperature w - 25) in
  angle_factor ← _calculate_angle_factor m self (timestamp w);
  let output := base_output * temp_factor * angle_factor in
  Ok (py_max 0 output).

(** [calculate_daily_production]: the first exception ends the loop. *)
Definition calculate_daily_production (m : Libm) (self : SolarCalculator)
    (weather_forecast : list WeatherData) : result (list (Z * float)) :=
  for_each weather_forecast
    (fun weather production_schedule =>
       output ← calculate_solar_output m self weather;
       Ok (production_schedule ++ [(timestamp weather, output)]))
    [].

(** ** Vocabulary of the properties *)

(** [item] is what [_create_schedule_item] builds for [a] at a start
    index of the scan, on the booked power [used_slots], for
    [int(duration)] whole slots that fit in the schedule. *)
Definition placed_at (s : ApplianceScheduler) (ps : list (Z * float))
    (used_slots : gmap Z float) (a : Appliance) (item : ScheduleItem) : Prop :=
  exists (d : Z) (i : nat) (t : datetime) (o : float),
    py_int (duration a) = Ok d
    /\ (1 <= d)%Z
    /\ ps !! i = Some (t, o)
    /\ (Z.of_nat i + d <= Z.of_nat (length ps))%Z
    /\ item = _create_schedule_item s a t d ps used_slots.

Definition placed (s : ApplianceScheduler) (ps : list (Z * float))
    (item : ScheduleItem) : Prop :=
  exists used_slots, placed_at s ps used_slots (appliance item) item.

(** The solar power that slot [j] of a window starting at index [i] and
    time [t] contributes to [solar_energy]. *)
Definition slot_share (s : ApplianceScheduler) (a : Appliance)
    (ps : list (Z * float)) (used_slots : gmap Z float) (i : nat)
    (t : datetime) (j : nat) : float :=
  match ps !! (i + j)%nat with
  | Some (_, slot_production) =>
      solar_used_in_slot s a used_slots slot_production
        (add_hours t (Z.of_nat j))
  | None => 0
  end.

End F64.

(* ===================================================================== *)
(** * Vocabulary of the properties *)
(* ===================================================================== *)

Section WindowVocabulary.
Local Open Scope Z_scope.

(** Windows are well formed and strictly ordered in time. *)
Definition window_ok (w : Z * Z) : Prop := w.1 <= w.2.
Definition window_before (w1 w2 : Z * Z) : Prop := w1.2 < w2.1.

(** What the scan state knows about the points still to come:
    every emitted window ends before them, and an open window started
    after every emitted window and before them. *)
Definition scan_inv (st : list (Z * Z) * option Z * Z)
    (rest : ProductionSchedule) : Prop :=
  Forall window_ok st.1.1
  /\ StronglySorted window_before st.1.1
  /\ Forall (fun w => Forall (fun p => w.2 < p.1) rest) st.1.1
  /\ (forall s, st.1.2 = Some s ->
        Forall (fun w => w.2 < s) st.1.1 /\ Forall (fun p => s < p.1) rest).

End WindowVocabulary.

Section SchedulerVocabulary.
Local Open Scope Q_scope.

(** [item] is what [_create_schedule_item] builds for [a] at a start
    index of the scan, with the [used_slots] of that moment. *)
Definition placed_at (s : ApplianceScheduler) (ps : ProductionSchedule)
    (used : gmap Z Q) (a : Appliance) (item : ScheduleItem) : Prop :=
  exists (i : nat) (t : datetime) (o : Q),
    ps !! i = Some (t, o)
    /\ (1 <= py_int (duration a))%Z
    /\ (Z.of_nat i + py_int (duration a) <= Z.of_nat (length ps))%Z
    /\ ~ power_rating a == 0
    /\ _is_slot_available t (py_int (duration a)) used (power_rating a) = true
    /\ item = _create_schedule_item s a t (py_int (duration a)) ps used.

Definition placed (s : ApplianceScheduler) (ps : ProductionSchedule)
    (item : ScheduleItem) : Prop :=
  exists used, placed_at s ps used (appliance item) item.

(** [a] is attempted before [b]: higher priority first, and within a
    priority tier the lower flexibility first. *)
Definition attempted_before (a b : Appliance) : Prop :=
  (priority_value (priority b) < priority_value (priority a))%Z
  \/ (priority a = priority b /\ (flexibility a <= flexibility b)%Z).

(** [item] covers the instant [t]: [start_time <= t < end_time]. *)
Definition covers (item : ScheduleItem) (t : datetime) : bool :=
  (start_time item <=? t)%Z && (t <? end_time item)%Z.

(** Sum of [power_rating] over the items that cover [t]. *)
Definition load_at (items : list ScheduleItem) (t : datetime) : Q :=
  py_sum (map (fun item => power_rating (appliance item))
            (List.filter (fun item => covers item t) items)).

(** No hour is booked above the slot capacity. *)
Definition within_capacity (used_slots : gmap Z Q) : Prop :=
  forall (t : datetime) (u : Q), used_slots !! t = Some u -> (u <= slot_capacity)%Q.

End SchedulerVocabulary.

Section OrderVocabulary.
Local Open Scope Z_scope.

(** [a] has the sort key [k]. *)
Definition has_key (k : Z * Z) (a : Appliance) : bool :=
  ((sort_key a).1 =? k.1) && ((sort_key a).2 =? k.2).

End OrderVocabulary.

Section BestSlotVocabulary.
Local Open Scope Q_scope.

(** The window starting at index [i], at timestamp [t], lies inside the
    schedule, is available for [a] and has the score [sc]. *)
Definition candidate (s : ApplianceScheduler) (a : Appliance)
    (ps : ProductionSchedule) (used : gmap Z Q) (i : nat) (t : datetime)
    (sc : Q) : Prop :=
  (Z.of_nat i + py_int (duration a) <= Z.of_nat (length ps))%Z
  /\ (exists o, ps !! i = Some (t, o))
  /\ _is_slot_available t (py_int (duration a)) used (power_rating a) = true
  /\ _calculate_slot_score s a t (py_int (duration a)) ps used = Ok sc.

End BestSlotVocabulary.

Section AlignmentVocabulary.
Local Open Scope Z_scope.

(** Offset of an instant within its hour. *)
Definition hour_phase (t : datetime) : Z := t mod us_per_hour.

(** [t] is one of the [n] hourly instants [t0], [t0 + 1h], ... *)
Definition in_hours (t0 : datetime) (n : Z) (t : datetime) : bool :=
  (t0 <=? t) && (t <? add_hours t0 n) && ((t - t0) mod us_per_hour =? 0).

End AlignmentVocabulary.

Section DeferralVocabulary.
Local Open Scope Q_scope.

(** Index [j] holds an alternative start [t] for [item], different from
    the start it has, with potential coverage [c]. *)
Definition alternative (s : ApplianceScheduler) (item : ScheduleItem)
    (ps : ProductionSchedule) (j : nat) (t : datetime) (c : Q) : Prop :=
  (Z.of_nat j + py_int (duration (appliance item)) <= Z.of_nat (length ps))%Z
  /\ (exists o, ps !! j = Some (t, o))
  /\ t <> start_time item
  /\ c = _calculate_potential_coverage s (appliance item) t
           (py_int (duration (appliance item))) ps.

End DeferralVocabulary.

Section SolarVocabulary.

(** Order of the categories: red below yellow below green. *)
Definition category_rank (category : string) : nat :=
  if String.eqb category "green" then 2
  else if String.eqb category "yellow" then 1
  else 0.

(** [point] reaches the power threshold of the window search. *)
Definition qualifying (min_power : Q) (point : Z * Q) : bool :=
  if Qlt_le_dec point.2 min_power then false else true.

End SolarVocabulary.

(* ===================================================================== *)
(** * Concrete inputs used by the examples *)
(* ===================================================================== *)

(** 2024-03-01 at 10:00, 11:00 and 12:00. *)
Definition t10 : datetime := mk_datetime 738946 10 0.
Definition t11 : datetime := add_hours t10 1.
Definition t12 : datetime := add_hours t10 2.

Definition demo_config : SolarConfig :=
  {| panel_wattage := 300; panel_count := 20; efficiency := 0.18;
     tilt_angle := 30; azimuth_angle := 180;
     location := {| lat := 40.71; lon := -74 |} |}.

Definition one_sunny_hour : ProductionSchedule := [(t10, 10%Q)].

Definition dishwasher : Appliance := mkAppliance "Dishwasher" 1.5 1.5 8 MEDIUM.

(** The items that [_create_schedule_item] builds for these appliances
    at 10:00 with nothing booked, evaluated. *)
Definition dishwasher_item : ScheduleItem :=
  Eval vm_compute in
    _create_schedule_item (default_scheduler [dishwasher]) dishwasher t10 1
      one_sunny_hour ∅.

Definition oven : Appliance := mkAppliance "Oven" 15 1 5 MEDIUM.

Definition oven_item : ScheduleItem :=
  Eval vm_compute in
    _create_schedule_item (default_scheduler [oven]) oven t10 1
      one_sunny_hour ∅.

Definition ev_charger : Appliance := mkAppliance "EV Charging" 6 1 5 HIGH.
Definition heater : Appliance := mkAppliance "Heater" 6 1 5 LOW.

Definition ev_charger_item : ScheduleItem :=
  Eval vm_compute in
    _create_schedule_item (default_scheduler [heater; ev_charger]) ev_charger
      t10 1 one_sunny_hour ∅.

Definition kettle : Appliance := mkAppliance "Kettle" 2 0.5 5 MEDIUM.
Definition standby : Appliance := mkAppliance "Standby" 0 1 5 MEDIUM.

Definition cloudy_then_sunny : ProductionSchedule := [(t10, 3%Q); (t11, 13%Q)].

(** The dishwasher run at 10:00 of [cloudy_then_sunny]. *)
Definition dishwasher_early_item : ScheduleItem :=
  Eval vm_compute in
    _create_schedule_item (default_scheduler [dishwasher]) dishwasher t10 1
      cloudy_then_sunny ∅.

Definition big_charger : Appliance := mkAppliance "EV Charging" 9 1 6 HIGH.

(** The charger run at 11:00 of [cloudy_then_sunny]. *)
Definition big_charger_item : ScheduleItem :=
  Eval vm_compute in
    _create_schedule_item (default_scheduler [big_charger]) big_charger t11 1
      cloudy_then_sunny ∅.

(** Inputs of the binary64 model: a 0.3 kW pump for 6 h on six sunny
    hours, a 3 kW dryer for 1.5 h on one hour with 4.2 kW of production,
    and the midnight and noon samples of 2024-10-19 at latitude
    11.403095. *)
Definition pool_pump : F64.Appliance :=
  F64.mkAppliance "Pool Pump" 0.3 6 5 MEDIUM.

Definition six_sunny_hours : list (Z * float) :=
  map (fun j => (add_hours t10 (Z.of_nat j), 10%float)) (seq 0 6).

Definition pool_pump_item : F64.ScheduleItem :=
  {| F64.appliance := pool_pump; F64.start_time := t10;
     F64.end_time := add_hours t10 6;
     F64.solar_coverage := 1.0000000000000002%float;
     F64.grid_usage := 0%float;
     F64.cost_savings := 0.216%float |}.

Definition dryer : F64.Appliance := F64.mkAppliance "Dryer" 3 1.5 4 LOW.

Definition one_dim_hour : list (Z * float) := [(t10, 4.2%float)].

Definition dryer_item : F64.ScheduleItem :=
  {| F64.appliance := dryer; F64.start_time := t10;
     F64.end_time := t11;
     F64.solar_coverage := 0.48888888888888893%float;
     F64.grid_usage := 0.7999999999999998%float;
     F64.cost_savings := 0.264%float |}.

Definition tropical_config : F64.SolarConfig :=
  {| F64.panel_wattage := 300; F64.panel_count := 20;
     F64.efficiency := 0.18; F64.tilt_angle := 30;
     F64.azimuth_angle := 180;
     F64.location := {| F64.lat := 11.403095; F64.lon := 76.5 |} |}%float.

Definition tropical_midnight : F64.WeatherData :=
  {| F64.timestamp := mk_datetime 739178 0 0; F64.temperature := 25;
     F64.cloud_cover := 0; F64.solar_irradiance := 0;
     F64.wind_speed := 3; F64.humidity := 50 |}%float.

Definition tropical_noon : F64.WeatherData :=
  {| F64.timestamp := mk_datetime 739178 12 0; F64.temperature := 30;
     F64.cloud_cover := 20; F64.solar_irradiance := 800;
     F64.wind_speed := 3; F64.humidity := 50 |}%float.

(** The values of the C library at the arguments that these two samples
    reach; the last entry of each function is its value at 0, which the
    noon sample reaches.  The table is only meant at these arguments. *)
Definition libm_sample : F64.Libm :=
  {| F64.libm_sin := fun x =>
       if x =? 9.932597047240058 then -0.48627270710868997
       else if x =? -0.19902155234828625 then -0.19771029200744986
       else if x =? 0.1990215526677028 then 0.19771029232056125
       else if x =? 1.1727532217789078 then 0.9218212807448473
       else if x =? 0.5235987755982988 then 0.49999999999999994
       else 0;
     F64.libm_cos := fun x =>
       if x =? -0.19902155234828625 then 0.9802604962122716
       else if x =? 0.1990215526677028 then 0.9802604961491197
       else if x =? -3.141592653589793 then -1
       else if x =? 0.5235987755982988 then 0.8660254037844387
       else if x =? 1.1727532217789078 then 0.3876151781934365
       else 1;
     F64.libm_tan := fun x =>
       if x =? -0.19902155234828625 then -0.20169158378961796 else 0;
     F64.libm_asin := fun x =>
       if x =? 0.9218212807448473 then 1.1727532217789078 else 0;
     F64.libm_atan2 := fun y x => 0 |}%float.

(* ===================================================================== *)
(** * Generic facts about loops and lists *)
(* ===================================================================== *)

Lemma py_range_elem (n : Z) (i : nat) :
  i ∈ py_range n ↔ (Z.of_nat i < n)%Z.
Proof.
  unfold py_range. rewrite list_elem_of_In, in_seq. lia.
Qed.

(** Invariant rule for a [for] loop that ends without exception. *)
Lemma for_each_invariant {A S : Type} (P : S -> Prop) (xs : list A)
    (body : A -> S -> result S) (s s' : S) :
  P s ->
  (forall x t t', x ∈ xs -> P t -> body x t = Ok t' -> P t') ->
  for_each xs body s = Ok s' ->
  P s'.
Proof.
  revert s. induction xs as [|x xs IH]; intros s Hs Hstep Hrun; simpl in Hrun.
  - congruence.
  - destruct (body x s) as [t|e] eqn:Hb; [|discriminate].
    apply (IH t); [| |exact Hrun].
    + apply (Hstep x s t); [left|exact Hs|exact Hb].
    + intros y u u' Hy. apply Hstep. by right.
Qed.

(** A loop whose body raises at some element, whatever the state, raises. *)
Lemma for_each_raises {A S : Type} (xs : list A) (body : A -> S -> result S)
    (x : A) (s : S) :
  x ∈ xs ->
  (forall t, exists e, body x t = Raise e) ->
  exists e, for_each xs body s = Raise e.
Proof.
  intros Hx Hbody. revert s.
  induction xs as [|y xs IH]; intros s; [by apply elem_of_nil in Hx|].
  simpl. destruct (body y s) as [t|e] eqn:Hb; [|eauto].
  apply elem_of_cons in Hx as [->|Hx]; [|by apply IH].
  destruct (Hbody s) as [e He]. congruence.
Qed.

Lemma StronglySorted_snoc {A : Type} (R : A -> A -> Prop) (l : list A) (y : A) :
  StronglySorted R l -> Forall (fun x => R x y) l -> StronglySorted R (l ++ [y]).
Proof.
  induction 1 as [|x l Hl IH Hx]; intros Hy; simpl.
  - constructor; constructor.
  - inversion Hy; subst. constructor; [by apply IH|].
    apply Forall_app; split; [exact Hx|]. by constructor.
Qed.

(* ===================================================================== *)
(** * The solar output model *)
(* ===================================================================== *)

Section SolarOutput.
Local Open Scope float_scope.

(** At latitude 11.403095, at midnight of 2024-10-19, the argument of
    [math.asin] in [_calculate_angle_factor] is -1.0000000000000002. *)
Lemma angle_factor_raises (m : F64.Libm) (self : F64.SolarCalculator) :
  F64.latitude self = F64.radians 11.403095 ->
  F64.libm_sin m 9.932597047240058 = -0.48627270710868997 ->
  F64.libm_sin m (-0.19902155234828625) = -0.19771029200744986 ->
  F64.libm_sin m 0.1990215526677028 = 0.19771029232056125 ->
  F64.libm_cos m (-0.19902155234828625) = 0.9802604962122716 ->
  F64.libm_cos m 0.1990215526677028 = 0.9802604961491197 ->
  F64.libm_cos m (-3.141592653589793) = -1 ->
  F64._calculate_angle_factor m self (mk_datetime 739178 0 0)
  = Raise ValueError.
Proof.
  intros Hlat H1 H2 H3 H4 H5 H6.
  unfold F64._calculate_angle_factor. rewrite Hlat.
  vm_compute in H1, H2, H3, H4, H5, H6. vm_compute.
  rewrite H1. vm_compute. rewrite H2, H3, H4, H5, H6. reflexivity.
Qed.

End SolarOutput.

(** C8 (code bug).  A weather sample with zero irradiance does not always
    yield output 0: [_calculate_angle_factor] is evaluated whatever the
    irradiance, and for a system at latitude 11.403095 and a sample at
    2024-10-19 00:00 the sum
    [sin(decl) * sin(lat) + cos(decl) * cos(lat) * cos(hour_angle)]
    rounds to -1.0000000000000002, on which [math.asin] raises
    [ValueError].  The six values of [sin] and [cos] that lead there are
    those of the C library; the other fields of the configuration and of
    the sample do not matter. *)
Theorem night_time_raises (m : F64.Libm) (c : F64.SolarConfig)
    (w : F64.WeatherData) :
  F64.lat (F64.location c) = 11.403095%float ->
  F64.timestamp w = mk_datetime 739178 0 0 ->
  F64.solar_irradiance w = 0%float ->
  F64.libm_sin m 9.932597047240058 = (-0.48627270710868997)%float ->
  F64.libm_sin m (-0.19902155234828625) = (-0.19771029200744986)%float ->
  F64.libm_sin m 0.1990215526677028 = 0.19771029232056125%float ->
  F64.libm_cos m (-0.19902155234828625) = 0.9802604962122716%float ->
  F64.libm_cos m 0.1990215526677028 = 0.9802604961491197%float ->
  F64.libm_cos m (-3.141592653589793) = (-1)%float ->
  F64.calculate_solar_output m (F64.new_calculator c) w = Raise ValueError
  /\ F64.calculate_daily_production m (F64.new_calculator c) [w]
     = Raise ValueError.
Proof.
  intros Hlat Ht _ H1 H2 H3 H4 H5 H6.
  assert (Hout : F64.calculate_solar_output m (F64.new_calculator c) w
                 = Raise ValueError).
  { unfold F64.calculate_solar_output. rewrite Ht.
    rewrite (angle_factor_raises m (F64.new_calculator c)); try done.
    unfold F64.new_calculator. simpl. by rewrite Hlat. }
  split; [exact Hout|].
  unfold F64.calculate_daily_production. simpl. by rewrite Hout.
Qed.

Lemma night_time_raises_witness :
  F64.solar_irradiance tropical_midnight = 0%float
  /\ F64.calculate_solar_output libm_sample
       (F64.new_calculator tropical_config) tropical_midnight
     = Raise ValueError
  /\ F64.calculate_daily_production libm_sample
       (F64.new_calculator tropical_config) [tropical_midnight]
     = Raise ValueError.
Proof.
  split; [reflexivity|].
  apply (night_time_raises libm_sample tropical_config tropical_midnight);
    vm_compute; reflexivity.
Defined.

(* ===================================================================== *)
(** * The window search *)
(* ===================================================================== *)

Section WindowFacts.
Local Open Scope Z_scope.

Lemma window_scan_inv (min_power duration_hours : Q) (ps : ProductionSchedule) :
  forall st,
    StronglySorted Z.lt (map fst ps) ->
    scan_inv st ps ->
    scan_inv (window_scan min_power duration_hours ps st) [].
Proof.
  induction ps as [|[t o] ps IH]; intros st Hsorted Hinv; [exact Hinv|].
  unfold window_scan. simpl. apply IH.
  { simpl in Hsorted. by inversion Hsorted. }
  assert (Hlater : Forall (fun p => t < p.1) ps).
  { simpl in Hsorted. inversion Hsorted as [|? ? _ Hall]; subst.
    exact (proj1 (List.Forall_map fst (Z.lt t) ps) Hall). }
  destruct st as [[ws cur] dur].
  destruct Hinv as (Hok & Hsort & Hend & Hcur). simpl in *.
  assert (Hend' : Forall (fun w => Forall (fun p => w.2 < p.1) ps) ws).
  { eapply Forall_impl; [exact Hend|]. intros w Hw. by inversion Hw. }
  assert (Hwt : Forall (fun w => w.2 < t) ws).
  { eapply Forall_impl; [exact Hend|]. intros w Hw. by inversion Hw. }
  unfold window_step.
  destruct (Qlt_le_dec o min_power) as [_|_].
  { unfold scan_inv; simpl. split_and!; auto. intros ? [=]. }
  assert (Hstart : exists s n,
    (match cur with Some t' => (t', dur + 1) | None => (t, 1) end) = (s, n)
    /\ s <= t /\ Forall (fun w => w.2 < s) ws
    /\ Forall (fun p => s < p.1) ps).
  { destruct cur as [s|].
    - destruct (Hcur s eq_refl) as [Hws Hsp].
      exists s, (dur + 1). inversion Hsp as [|? ? Hst Hsp']; subst. simpl in Hst.
      split_and!; auto; lia.
    - exists t, 1. split_and!; auto; lia. }
  destruct Hstart as (s & n & -> & Hst & Hws & Hsp).
  destruct (Qlt_le_dec (inject_Z n) duration_hours) as [_|_];
    unfold scan_inv; simpl; split_and!; auto.
  - intros ? [= <-]; auto.
  - apply Forall_app; split; [exact Hok|]. by repeat constructor.
  - apply StronglySorted_snoc; [exact Hsort|exact Hws].
  - apply Forall_app; split; [exact Hend'|]. by repeat constructor.
  - intros ? [=].
Qed.

Lemma inject_Z_le (x y : Z) : x <= y -> (inject_Z x <= inject_Z y)%Q.
Proof. intros H. by rewrite <- Zle_Qle. Qed.

(** An open window of [k] points that meets a run of qualifying points is
    emitted at the point where its length reaches [duration_hours], and
    the scan state is reset. *)
Lemma window_scan_open_run (min_power duration_hours : Q) :
  forall (run : ProductionSchedule) (ws : list (Z * Z)) (s k : Z) (p : Z * Q),
    Forall (fun q => (min_power <= q.2)%Q) (run ++ [p]) ->
    (inject_Z (k + Z.of_nat (length run)) < duration_hours)%Q ->
    (duration_hours <= inject_Z (k + Z.of_nat (length run) + 1))%Q ->
    window_scan min_power duration_hours (run ++ [p]) (ws, Some s, k)
    = (ws ++ [(s, p.1)], None, 0).
Proof.
  induction run as [|[t o] run IH]; intros ws s k [tp op] Hq Hlt Hle.
  - apply Forall_inv in Hq. simpl in *.
    unfold window_scan. simpl.
    destruct (Qlt_le_dec op min_power); [lra|].
    replace (k + Z.of_nat 0 + 1) with (k + 1) in Hle by lia.
    destruct (Qlt_le_dec (inject_Z (k + 1)) duration_hours); [lra|done].
  - inversion Hq as [|? ? Ho Hq']; subst. simpl in Ho.
    unfold window_scan. simpl.
    destruct (Qlt_le_dec o min_power); [lra|].
    pose proof (inject_Z_le (k + 1) (k + Z.of_nat (length ((t, o) :: run)))
                  ltac:(simpl; lia)) as Hmono.
    destruct (Qlt_le_dec (inject_Z (k + 1)) duration_hours); [|lra].
    apply (IH ws s (k + 1) (tp, op) Hq').
    + by replace (k + 1 + Z.of_nat (length run))
        with (k + Z.of_nat (length ((t, o) :: run))) by (simpl; lia).
    + by replace (k + 1 + Z.of_nat (length run) + 1)
        with (k + Z.of_nat (length ((t, o) :: run)) + 1) by (simpl; lia).
Qed.

(** A run of qualifying points met with no window open yields one
    window, from the first point of the run to the point where the length
    reaches [duration_hours]. *)
Lemma window_scan_run (min_power duration_hours : Q) (run : ProductionSchedule)
    (ws : list (Z * Z)) (p : Z * Q) :
  Forall (fun q => (min_power <= q.2)%Q) (run ++ [p]) ->
  (run = [] \/ (inject_Z (Z.of_nat (length run)) < duration_hours)%Q) ->
  (duration_hours <= inject_Z (Z.of_nat (length run) + 1))%Q ->
  window_scan min_power duration_hours (run ++ [p]) (ws, None, 0)
  = (ws ++ [((hd p run).1, p.1)], None, 0).
Proof.
  intros Hq Hlt Hle. destruct run as [|[t o] run].
  - destruct p as [tp op]. apply Forall_inv in Hq. simpl in *.
    unfold window_scan. simpl.
    destruct (Qlt_le_dec op min_power); [lra|].
    change (inject_Z (Z.of_nat 0 + 1)) with (inject_Z 1) in Hle.
    destruct (Qlt_le_dec (inject_Z 1) duration_hours); [lra|done].
  - destruct Hlt as [|Hlt]; [done|].
    inversion Hq as [|? ? Ho Hq']; subst. simpl in Ho.
    unfold window_scan. cbn [app fold_left window_step hd fst].
    destruct (Qlt_le_dec o min_power); [lra|].
    pose proof (inject_Z_le 1 (Z.of_nat (length ((t, o) :: run)))
                  ltac:(simpl; lia)) as Hmono.
    destruct (Qlt_le_dec (inject_Z 1) duration_hours); [|lra].
    apply (window_scan_open_run min_power duration_hours run ws t 1 p Hq').
    + by replace (1 + Z.of_nat (length run))
        with (Z.of_nat (length ((t, o) :: run))) by (simpl; lia).
    + by replace (1 + Z.of_nat (length run) + 1)
        with (Z.of_nat (length ((t, o) :: run)) + 1) by (simpl; lia).
Qed.

(** A point below [min_power] closes whatever window is open. *)
Lemma window_step_reset (min_power duration_hours : Q) (t : datetime) (o : Q)
    (st : list (Z * Z) * option Z * Z) :
  (o < min_power)%Q ->
  window_step min_power duration_hours (t, o) st = (st.1.1, None, 0).
Proof.
  intros Ho. destruct st as [[ws cur] dur]. unfold window_step.
  destruct (Qlt_le_dec o min_power); [done|lra].
Qed.

End WindowFacts.

(** C4. The window search is one scan from left to right.  A point below
    [min_power] closes the open window; a run of qualifying points met with
    no window open is emitted as one window, from its first point to the
    point where its length reaches [duration_hours], and the scan starts
    afresh.  So on any schedule with ascending timestamps the emitted
    windows are well formed and pairwise disjoint, each one ending before
    the next one starts; and on the production [2,6,6,6,2] with
    [min_power = 5] and [duration_hours = 2] the result is exactly one
    window, from the first to the second qualifying point. *)
Theorem optimal_windows_scan :
  (forall (min_power duration_hours : Q) (t : datetime) (o : Q)
          (st : list (Z * Z) * option Z * Z),
     (o < min_power)%Q ->
     window_step min_power duration_hours (t, o) st = (st.1.1, None, 0%Z))
  /\ (forall (min_power duration_hours : Q) (run : ProductionSchedule)
             (ws : list (Z * Z)) (p : Z * Q),
        Forall (fun q => (min_power <= q.2)%Q) (run ++ [p]) ->
        (run = [] \/ (inject_Z (Z.of_nat (length run)) < duration_hours)%Q) ->
        (duration_hours <= inject_Z (Z.of_nat (length run) + 1))%Q ->
        window_scan min_power duration_hours (run ++ [p]) (ws, None, 0%Z)
        = (ws ++ [((hd p run).1, p.1)], None, 0%Z))
  /\ (forall (ps : ProductionSchedule) (min_power duration_hours : Q),
        StronglySorted Z.lt (map fst ps) ->
        Forall window_ok (get_optimal_time_windows ps min_power duration_hours)
        /\ StronglySorted window_before
             (get_optimal_time_windows ps min_power duration_hours))
  /\ (forall ta tb tc td te : datetime,
        get_optimal_time_windows
          [(ta, 2); (tb, 6); (tc, 6); (td, 6); (te, 2)]%Q 5 2 = [(tb, tc)]).
Proof.
  split_and!.
  - apply window_step_reset.
  - apply window_scan_run.
  - intros ps min_power duration_hours Hsorted.
    destruct (window_scan_inv min_power duration_hours ps ([], None, 0%Z))
      as (Hok & Hsort & _); [exact Hsorted| |by split].
    unfold scan_inv; simpl. split_and!; try by constructor.
  - intros. reflexivity.
Qed.

Lemma optimal_windows_scan_witness :
  StronglySorted Z.lt (map fst [(t10, 6); (t11, 6); (t12, 6)]%Q)
  /\ get_optimal_time_windows [(t10, 6); (t11, 6); (t12, 6)]%Q 5 1
     = [(t10, t10); (t11, t11); (t12, t12)]
  /\ Forall window_ok (get_optimal_time_windows [(t10, 6); (t11, 6); (t12, 6)]%Q 5 1)
  /\ StronglySorted window_before
       (get_optimal_time_windows [(t10, 6); (t11, 6); (t12, 6)]%Q 5 1)
  /\ window_scan 5 2 ([(t10, 6)] ++ [(t11, 6)])%Q ([], None, 0%Z)
     = ([] ++ [((hd (t11, 6%Q) [(t10, 6%Q)]).1, (t11, 6%Q).1)], None, 0%Z)
  /\ window_step 5 2 (t12, 2%Q) ([], Some t11, 1%Z) = ([], None, 0%Z).
Proof.
  pose proof optimal_windows_scan as (Hreset & Hrun & Hdisjoint & _).
  assert (H : StronglySorted Z.lt (map fst [(t10, 6); (t11, 6); (t12, 6)]%Q)).
  { repeat constructor; vm_compute; reflexivity. }
  split; [exact H|]. split; [reflexivity|].
  split; [exact (proj1 (Hdisjoint _ 5%Q 1%Q H))|].
  split; [exact (proj2 (Hdisjoint _ 5%Q 1%Q H))|].
  split.
  - apply Hrun.
    + repeat constructor; vm_compute; discriminate.
    + right. vm_compute. reflexivity.
    + vm_compute. discriminate.
  - apply Hreset. vm_compute. reflexivity.
Defined.

(* ===================================================================== *)
(** * The scheduler: arithmetic and lookup lemmas *)
(* ===================================================================== *)

Section SchedulerFacts.
Local Open Scope Q_scope.

Lemma available_solar_nonneg (s : ApplianceScheduler) (p u : Q) :
  0 <= available_solar s p u.
Proof. unfold available_solar. apply Q.le_max_l. Qed.

Lemma first_index_from_found (ps : ProductionSchedule) (t : datetime) :
  forall (k j : nat) (o : Q),
    ps !! j = Some (t, o) ->
    exists i, first_index_from ps t k = Some i /\ (k <= i <= k + j)%nat.
Proof.
  induction ps as [|[t' o'] ps IH]; intros k j o Hj; [done|].
  simpl. destruct (Z.eqb_spec t' t) as [->|Hne].
  - exists k. split; [done|lia].
  - destruct j as [|j]; simpl in Hj; [congruence|].
    destruct (IH (S k) j o Hj) as (i & Hi & Hb). exists i. split; [done|lia].
Qed.

Lemma first_index_found (ps : ProductionSchedule) (t : datetime) (j : nat) (o : Q) :
  ps !! j = Some (t, o) ->
  exists i, first_index ps t = Some i /\ (i <= j)%nat.
Proof.
  intros Hj. destruct (first_index_from_found ps t 0 j o Hj) as (i & Hi & Hb).
  exists i. split; [exact Hi|lia].
Qed.

End SchedulerFacts.

(* ===================================================================== *)
(** * The scheduler: where returned items come from *)
(* ===================================================================== *)

Section Placement.
Local Open Scope Q_scope.

(** A score is only returned for a non-zero power rating: with at least
    one slot in range the division is reached. *)
Lemma score_ok_power (s : ApplianceScheduler) (a : Appliance)
    (ps : ProductionSchedule) (used : gmap Z Q) (i : nat) (t : datetime)
    (o sc : Q) (d : Z) :
  ps !! i = Some (t, o) ->
  (1 <= d)%Z ->
  _calculate_slot_score s a t d ps used = Ok sc ->
  ~ power_rating a == 0.
Proof.
  intros Hi Hd Hsc Hzero.
  destruct (first_index_found ps t i o Hi) as (i' & Hfirst & Hle).
  unfold _calculate_slot_score, py_range in Hsc. rewrite Hfirst in Hsc.
  destruct (Z.to_nat d) as [|n] eqn:Hn; [lia|].
  destruct (lookup_lt_is_Some_2 ps (i' + 0)) as [[t' o'] Hlk].
  { apply lookup_lt_Some in Hi. lia. }
  cbn [seq for_each] in Hsc. unfold score_step at 1 in Hsc.
  rewrite Hlk in Hsc. destruct (Qeq_dec (power_rating a) 0); [|contradiction].
  discriminate Hsc.
Qed.

(** A start index of the scan past the end of the schedule raises. *)
Lemma best_step_out_of_range (s : ApplianceScheduler) (a : Appliance)
    (ps : ProductionSchedule) (used : gmap Z Q) (d : Z) (st : option ScheduleItem * Q) :
  best_step s a ps used d (length ps) st = Raise IndexError.
Proof.
  unfold best_step. by rewrite (lookup_ge_None_2 ps (length ps)).
Qed.

(** The scan only completes for at least one whole slot. *)
Lemma find_best_ok_duration (s : ApplianceScheduler) (a : Appliance)
    (ps : ProductionSchedule) (used : gmap Z Q) (r : option ScheduleItem) :
  _find_best_time_slot s a ps used = Ok r ->
  (1 <= py_int (duration a))%Z.
Proof.
  unfold _find_best_time_slot. intros Hrun.
  destruct (Z.lt_ge_cases (py_int (duration a)) 1) as [Hlt|]; [|lia].
  destruct (for_each_raises
              (py_range (Z.of_nat (length ps) - py_int (duration a) + 1))
              (best_step s a ps used (py_int (duration a)))
              (length ps) (None, -1)) as [e He].
  - apply py_range_elem. lia.
  - intros t. exists IndexError. apply best_step_out_of_range.
  - rewrite He in Hrun. discriminate Hrun.
Qed.

Lemma find_best_placed (s : ApplianceScheduler) (a : Appliance)
    (ps : ProductionSchedule) (used : gmap Z Q) (item : ScheduleItem) :
  _find_best_time_slot s a ps used = Ok (Some item) ->
  placed_at s ps used a item.
Proof.
  intros Hrun. pose proof (find_best_ok_duration _ _ _ _ _ Hrun) as Hd.
  unfold _find_best_time_slot in Hrun.
  destruct (for_each _ _ _) as [st|e] eqn:Hloop; [|discriminate Hrun].
  simpl in Hrun. injection Hrun as Hst.
  revert item Hst.
  eapply (for_each_invariant
            (fun st => forall item, st.1 = Some item -> placed_at s ps used a item));
    [ | |exact Hloop].
  { intros ? [=]. }
  clear st Hloop. intros i st st' Hi Hinv Hstep item Hitem.
  apply py_range_elem in Hi. unfold best_step in Hstep.
  destruct (ps !! i) as [[t o]|] eqn:Hlk; [|discriminate Hstep].
  destruct (_is_slot_available t _ used _) eqn:Hav.
  - destruct (_calculate_slot_score s a t _ ps used) as [sc|e] eqn:Hsc;
      [|discriminate Hstep].
    simpl in Hstep. destruct (Qlt_le_dec st.2 sc).
    + injection Hstep as <-. simpl in Hitem. injection Hitem as <-.
      exists i, t, o. split_and!; auto; [lia|].
      by eapply score_ok_power.
    + injection Hstep as <-. by apply Hinv.
  - injection Hstep as <-. by apply Hinv.
Qed.

End Placement.

Section ScheduleLoop.
Local Open Scope Q_scope.

Lemma create_item_fields (s : ApplianceScheduler) (a : Appliance)
    (t : datetime) (d : Z) (ps : ProductionSchedule) (used : gmap Z Q) :
  let item := _create_schedule_item s a t d ps used in
  let e := slot_energy s a t d ps used in
  appliance item = a
  /\ start_time item = t
  /\ end_time item = add_hours t d
  /\ solar_coverage item
     = (if Qlt_le_dec 0 (power_rating a * duration a)
        then e.1 / (power_rating a * duration a) else 0)
  /\ grid_usage item = e.2
  /\ cost_savings item = e.1 * electricity_rate s.
Proof.
  unfold _create_schedule_item. destruct (slot_energy s a t d ps used).
  simpl. by split_and!.
Qed.

Lemma placed_at_appliance s ps used a item :
  placed_at s ps used a item -> appliance item = a.
Proof.
  intros (i & t & o & _ & _ & _ & _ & _ & ->).
  apply create_item_fields.
Qed.

(** One round of the loop of [optimize_schedule] either leaves the state
    alone or appends one item for the appliance and books its slots. *)
Lemma schedule_step_spec (s : ApplianceScheduler) (ps : ProductionSchedule)
    (a : Appliance) (st st' : list ScheduleItem * gmap Z Q) :
  schedule_step s ps a st = Ok st' ->
  st' = st
  \/ exists item,
       placed_at s ps st.2 a item
       /\ st' = (st.1 ++ [item], _mark_slots_used item st.2).
Proof.
  unfold schedule_step. intros Hstep.
  destruct (_find_best_time_slot s a ps st.2) as [[item|]|e] eqn:Hbest;
    simpl in Hstep; [| |discriminate Hstep].
  - right. exists item. injection Hstep as <-.
    split; [by apply find_best_placed|done].
  - left. by injection Hstep as <-.
Qed.

Lemma optimize_loop_spec (s : ApplianceScheduler) (ps : ProductionSchedule)
    (xs : list Appliance) :
  forall st st',
    for_each xs (schedule_step s ps) st = Ok st' ->
    Forall (placed s ps) st.1 ->
    Forall (placed s ps) st'.1
    /\ exists l, map appliance st'.1 = map appliance st.1 ++ l
                 /\ sublist l xs.
Proof.
  induction xs as [|a xs IH]; intros st st' Hrun Hst; simpl in Hrun.
  - injection Hrun as <-. split; [done|]. exists []. by rewrite app_nil_r.
  - destruct (schedule_step s ps a st) as [st1|e] eqn:Hstep; [|discriminate].
    apply schedule_step_spec in Hstep as [->|(item & Hitem & ->)].
    + destruct (IH _ _ Hrun Hst) as (Hall & l & Hl & Hsub).
      split; [done|]. exists l. split; [done|]. by apply sublist_cons.
    + pose proof (placed_at_appliance _ _ _ _ _ Hitem) as Happ.
      destruct (IH _ _ Hrun) as (Hall & l & Hl & Hsub).
      { simpl. apply Forall_app; split; [done|]. constructor; [|done].
        exists st.2. by rewrite Happ. }
      split; [done|]. exists (a :: l). simpl in Hl.
      rewrite Hl, map_app. simpl. rewrite Happ, <- app_assoc. simpl.
      split; [done|]. by apply sublist_skip.
Qed.

(** Every returned item was built by [_create_schedule_item] at a start
    index of the scan, for an appliance of at least one whole slot and of
    non-zero power. *)
Lemma optimize_schedule_placed (s : ApplianceScheduler)
    (ps : ProductionSchedule) (items : list ScheduleItem) :
  optimize_schedule s ps = Ok items -> Forall (placed s ps) items.
Proof.
  unfold optimize_schedule, optimize_loop. intros Hrun.
  destruct (for_each _ _ _) as [st|e] eqn:Hloop; [|discriminate Hrun].
  simpl in Hrun. injection Hrun as <-.
  by destruct (optimize_loop_spec _ _ _ _ _ Hloop) as [Hall _].
Qed.

Lemma optimize_schedule_order (s : ApplianceScheduler)
    (ps : ProductionSchedule) (items : list ScheduleItem) :
  optimize_schedule s ps = Ok items ->
  sublist (map appliance items) (sorted_appliances (appliances s)).
Proof.
  unfold optimize_schedule, optimize_loop. intros Hrun.
  destruct (for_each _ _ _) as [st|e] eqn:Hloop; [|discriminate Hrun].
  simpl in Hrun. injection Hrun as <-.
  destruct (optimize_loop_spec _ _ _ _ _ Hloop) as (_ & l & Hl & Hsub); [done|].
  simpl in Hl. by rewrite Hl.
Qed.

End ScheduleLoop.

(* ===================================================================== *)
(** * The scheduler: metrics of a returned item *)
(* ===================================================================== *)

(** C2 (counterexample).  The dishwasher of the default configuration
    (1.5 kW for 1.5 h) on one sunny hour is placed on a single slot and
    fully covered by solar: it is returned with [grid_usage = 0], whereas
    [total_energy - solar_energy_used] is 2.25 - 1.5 = 0.75. *)
Lemma item_metrics_counterexample :
  optimize_schedule (default_scheduler [dishwasher]) one_sunny_hour
    = Ok [dishwasher_item]
  /\ (solar_coverage dishwasher_item == 2 # 3)%Q
  /\ (grid_usage dishwasher_item == 0)%Q
  /\ (cost_savings dishwasher_item == 0.18)%Q
  /\ ~ (exists solar_energy_used : Q,
          let total_energy := power_rating dishwasher * duration dishwasher in
          solar_coverage dishwasher_item == solar_energy_used / total_energy
          /\ grid_usage dishwasher_item == total_energy - solar_energy_used
          /\ cost_savings dishwasher_item == solar_energy_used * 0.12)%Q.
Proof.
  split; [vm_compute; reflexivity|].
  do 3 (split; [vm_compute; reflexivity|]).
  intros (e & _ & Hgrid & Hsav).
  unfold dishwasher_item, dishwasher in Hgrid, Hsav. simpl in Hgrid, Hsav.
  lra.
Qed.

(* ===================================================================== *)
(** * The scheduler in binary64: where returned items come from *)
(* ===================================================================== *)

Section Binary64Placement.
Local Open Scope float_scope.

Lemma f64_best_step_out_of_range (s : F64.ApplianceScheduler)
    (a : F64.Appliance) (ps : list (Z * float)) (used : gmap Z float) (d : Z)
    (st : option F64.ScheduleItem * float) :
  F64.best_step s a ps used d (length ps) st = Raise IndexError.
Proof.
  unfold F64.best_step. by rewrite (lookup_ge_None_2 ps (length ps)).
Qed.

(** The scan only completes for at least one whole slot. *)
Lemma f64_find_best_ok_duration (s : F64.ApplianceScheduler)
    (a : F64.Appliance) (ps : list (Z * float)) (used : gmap Z float)
    (r : option F64.ScheduleItem) :
  F64._find_best_time_slot s a ps used = Ok r ->
  exists d, F64.py_int (F64.duration a) = Ok d /\ (1 <= d)%Z.
Proof.
  unfold F64._find_best_time_slot. intros Hrun.
  destruct (F64.py_int (F64.duration a)) as [d|e]; [|discriminate Hrun].
  exists d. split; [done|]. simpl in Hrun.
  destruct (Z.lt_ge_cases d 1) as [Hlt|]; [|lia].
  destruct (for_each_raises
              (py_range (Z.of_nat (length ps) - d + 1))
              (F64.best_step s a ps used d)
              (length ps) (None, (-1)%float)) as [e He].
  - apply py_range_elem. lia.
  - intros t. exists IndexError. apply f64_best_step_out_of_range.
  - rewrite He in Hrun. discriminate Hrun.
Qed.

Lemma f64_find_best_placed (s : F64.ApplianceScheduler) (a : F64.Appliance)
    (ps : list (Z * float)) (used : gmap Z float) (item : F64.ScheduleItem) :
  F64._find_best_time_slot s a ps used = Ok (Some item) ->
  F64.placed_at s ps used a item.
Proof.
  intros Hrun.
  destruct (f64_find_best_ok_duration _ _ _ _ _ Hrun) as (d & Hint & Hd).
  unfold F64._find_best_time_slot in Hrun. rewrite Hint in Hrun. simpl in Hrun.
  destruct (for_each _ _ _) as [st|e] eqn:Hloop; [|discriminate Hrun].
  simpl in Hrun. injection Hrun as Hst.
  revert item Hst.
  eapply (for_each_invariant
            (fun st => forall item,
               st.1 = Some item -> F64.placed_at s ps used a item));
    [ | |exact Hloop].
  { intros ? [=]. }
  clear st Hloop. intros i st st' Hi Hinv Hstep item Hitem.
  apply py_range_elem in Hi. unfold F64.best_step in Hstep.
  destruct (ps !! i) as [[t o]|] eqn:Hlk; [|discriminate Hstep].
  destruct (F64._is_slot_available t _ used _) eqn:Hav.
  - destruct (F64._calculate_slot_score s a t _ ps used) as [sc|e] eqn:Hsc;
      [|discriminate Hstep].
    simpl in Hstep. destruct (st.2 <? sc).
    + injection Hstep as <-. simpl in Hitem. injection Hitem as <-.
      exists d, i, t, o. split_and!; auto. lia.
    + injection Hstep as <-. by apply Hinv.
  - injection Hstep as <-. by apply Hinv.
Qed.

Lemma f64_create_item_fields (s : F64.ApplianceScheduler) (a : F64.Appliance)
    (t : datetime) (d : Z) (ps : list (Z * float)) (used : gmap Z float) :
  let item := F64._create_schedule_item s a t d ps used in
  let e := F64.slot_energy s a t d ps used in
  let total_energy := F64.power_rating a * F64.duration a in
  F64.appliance item = a
  /\ F64.start_time item = t
  /\ F64.end_time item = add_hours t d
  /\ F64.solar_coverage item
     = (if 0 <? total_energy then e.1 / total_energy else 0)
  /\ F64.grid_usage item = e.2
  /\ F64.cost_savings item = e.1 * F64.electricity_rate s.
Proof.
  unfold F64._create_schedule_item. destruct (F64.slot_energy s a t d ps used).
  simpl. by split_and!.
Qed.

Lemma f64_optimize_loop_placed (s : F64.ApplianceScheduler)
    (ps : list (Z * float)) (xs : list F64.Appliance) :
  forall st st',
    for_each xs (F64.schedule_step s ps) st = Ok st' ->
    Forall (F64.placed s ps) st.1 ->
    Forall (F64.placed s ps) st'.1.
Proof.
  induction xs as [|a xs IH]; intros st st' Hrun Hst; simpl in Hrun.
  - by injection Hrun as <-.
  - destruct (F64.schedule_step s ps a st) as [st1|e] eqn:Hstep; [|discriminate].
    apply (IH _ _ Hrun). unfold F64.schedule_step in Hstep.
    destruct (F64._find_best_time_slot s a ps st.2) as [[item|]|e] eqn:Hbest;
      simpl in Hstep; [| |discriminate Hstep].
    + injection Hstep as <-. simpl. apply Forall_app; split; [done|].
      constructor; [|done]. exists st.2.
      apply f64_find_best_placed in Hbest.
      assert (Happ : F64.appliance item = a).
      { destruct Hbest as (d & i & t & o & _ & _ & _ & _ & ->).
        apply f64_create_item_fields. }
      by rewrite Happ.
    + by injection Hstep as <-.
Qed.

(** Every returned item was built by [_create_schedule_item] at a start
    index of the scan, for an appliance of at least one whole slot. *)
Lemma f64_optimize_schedule_placed (s : F64.ApplianceScheduler)
    (ps : list (Z * float)) (items : list F64.ScheduleItem) :
  F64.optimize_schedule s ps = Ok items -> Forall (F64.placed s ps) items.
Proof.
  unfold F64.optimize_schedule, F64.optimize_loop. intros Hrun.
  destruct (for_each _ _ _) as [st|e] eqn:Hloop; [|discriminate Hrun].
  simpl in Hrun. injection Hrun as <-.
  by apply (f64_optimize_loop_placed _ _ _ _ _ Hloop).
Qed.

Lemma f64_first_index_from_found (ps : list (Z * float)) (t : datetime) :
  forall (k j : nat) (o : float),
    ps !! j = Some (t, o) ->
    exists i, F64.first_index_from ps t k = Some i /\ (k <= i <= k + j)%nat.
Proof.
  induction ps as [|[t' o'] ps IH]; intros k j o Hj; [done|].
  simpl. destruct (Z.eqb_spec t' t) as [->|Hne].
  - exists k. split; [done|lia].
  - destruct j as [|j]; simpl in Hj; [congruence|].
    destruct (IH (S k) j o Hj) as (i & Hi & Hb). exists i. split; [done|lia].
Qed.

Lemma f64_first_index_found (ps : list (Z * float)) (t : datetime) (j : nat)
    (o : float) :
  ps !! j = Some (t, o) ->
  exists i, F64.first_index ps t = Some i /\ (i <= j)%nat.
Proof.
  intros Hj. destruct (f64_first_index_from_found ps t 0 j o Hj) as (i & Hi & Hb).
  exists i. split; [exact Hi|lia].
Qed.

End Binary64Placement.

(* ===================================================================== *)
(** * The scheduler in binary64: energies of a returned item *)
(* ===================================================================== *)

Section Binary64Energy.
Local Open Scope float_scope.

(** Comparisons of floats, from their specification. *)
Lemma f64_ltb_leb (x y : float) : (x <? y) = true -> (x <=? y) = true.
Proof.
  rewrite ltb_spec, leb_spec. unfold SFltb, SFleb.
  by destruct (SFcompare _ _) as [[]|].
Qed.

Lemma f64_leb_refl (x : float) : (0 <? x) = true -> (x <=? x) = true.
Proof.
  rewrite ltb_spec, leb_spec. unfold SFltb, SFleb.
  change (Prim2SF 0) with (S754_zero false).
  destruct (Prim2SF x) as [[]|[]| |[] m e]; simpl; try done.
  rewrite Z.compare_refl. by rewrite Pos.compare_refl.
Qed.

Lemma f64_py_max_nonneg (x : float) : (0 <=? F64.py_max 0 x) = true.
Proof.
  unfold F64.py_max. destruct (0 <? x) eqn:Hx; [by apply f64_ltb_leb|reflexivity].
Qed.

Lemma f64_py_min_range (p v : float) :
  (0 <? p) = true -> (0 <=? v) = true ->
  (0 <=? F64.py_min p v) = true /\ (F64.py_min p v <=? p) = true.
Proof.
  intros Hp Hv. unfold F64.py_min. destruct (v <? p) eqn:Hlt.
  - split; [done|by apply f64_ltb_leb].
  - split; [by apply f64_ltb_leb|by apply f64_leb_refl].
Qed.

Lemma f64_slot_share_range (s : F64.ApplianceScheduler) (a : F64.Appliance)
    (ps : list (Z * float)) (used : gmap Z float) (i : nat) (t : datetime)
    (j : nat) :
  (0 <? F64.power_rating a) = true ->
  (0 <=? F64.slot_share s a ps used i t j) = true
  /\ (F64.slot_share s a ps used i t j <=? F64.power_rating a) = true.
Proof.
  intros Hp. unfold F64.slot_share. destruct (ps !! (i + j)%nat) as [[t' o]|].
  - unfold F64.solar_used_in_slot, F64.available_solar.
    apply f64_py_min_range; [done|apply f64_py_max_nonneg].
  - split; [reflexivity|by apply f64_ltb_leb].
Qed.

(** The accumulators of [_create_schedule_item] over slots that all lie
    inside the schedule: one share per slot goes to [solar_energy], and
    [power_rating] minus that share to [grid_energy]. *)
Lemma f64_energy_fold (s : F64.ApplianceScheduler) (a : F64.Appliance)
    (ps : list (Z * float)) (used : gmap Z float) (i : nat) (t : datetime) :
  forall (n k : nat) (se ge : float),
    (i + k + n <= length ps)%nat ->
    fold_left (fun st j => F64.energy_step s a ps used i j st) (seq k n)
      (se, ge, add_hours t (Z.of_nat k))
    = (fold_left PrimFloat.add
         (map (F64.slot_share s a ps used i t) (seq k n)) se,
       fold_left (fun g u => g + (F64.power_rating a - u))
         (map (F64.slot_share s a ps used i t) (seq k n)) ge,
       add_hours t (Z.of_nat (k + n))).
Proof.
  induction n as [|n IH]; intros k se ge Hlen.
  - simpl. by rewrite Nat.add_0_r.
  - cbn [seq map fold_left].
    destruct (lookup_lt_is_Some_2 ps (i + k)) as [[t' o] Hlk]; [lia|].
    assert (Hshare : F64.slot_share s a ps used i t k
                     = F64.solar_used_in_slot s a used o
                         (add_hours t (Z.of_nat k))).
    { unfold F64.slot_share. by rewrite Hlk. }
    assert (Hstep : F64.energy_step s a ps used i k
                      (se, ge, add_hours t (Z.of_nat k))
                    = (se + F64.slot_share s a ps used i t k,
                       ge + (F64.power_rating a
                             - F64.slot_share s a ps used i t k),
                       add_hours t (Z.of_nat (S k)))).
    { unfold F64.energy_step. rewrite Hlk, Hshare.
      replace (add_hours (add_hours t (Z.of_nat k)) 1)
        with (add_hours t (Z.of_nat (S k))) by (unfold add_hours; lia).
      reflexivity. }
    rewrite Hstep, IH by lia. do 2 f_equal. lia.
Qed.

Lemma f64_slot_energy_shares (s : F64.ApplianceScheduler) (a : F64.Appliance)
    (ps : list (Z * float)) (used : gmap Z float) (j : nat) (t : datetime)
    (o : float) (d : Z) :
  ps !! j = Some (t, o) ->
  (0 <= d)%Z ->
  (Z.of_nat j + d <= Z.of_nat (length ps))%Z ->
  exists i,
    F64.first_index ps t = Some i
    /\ (Z.of_nat i + d <= Z.of_nat (length ps))%Z
    /\ F64.slot_energy s a t d ps used
       = (fold_left PrimFloat.add
            (map (F64.slot_share s a ps used i t) (py_range d)) 0,
          fold_left (fun g u => g + (F64.power_rating a - u))
            (map (F64.slot_share s a ps used i t) (py_range d)) 0).
Proof.
  intros Hj Hd Hlen.
  destruct (f64_first_index_found ps t j o Hj) as (i & Hfirst & Hle).
  exists i. split; [done|]. split; [lia|].
  unfold F64.slot_energy, py_range. rewrite Hfirst.
  pose proof (f64_energy_fold s a ps used i t (Z.to_nat d) 0 0 0) as Hfold.
  change (Z.of_nat 0) with 0%Z in Hfold.
  replace (add_hours t 0) with t in Hfold by (unfold add_hours; lia).
  rewrite Hfold by lia. reflexivity.
Qed.

(** The facts about a returned item that the metric theorems share. *)
Lemma f64_returned_item (s : F64.ApplianceScheduler) (ps : list (Z * float))
    (items : list F64.ScheduleItem) (item : F64.ScheduleItem) :
  F64.optimize_schedule s ps = Ok items ->
  item ∈ items ->
  exists (used : gmap Z float) (d : Z) (i : nat),
    let a := F64.appliance item in
    let e := F64.slot_energy s a (F64.start_time item) d ps used in
    let total_energy := F64.power_rating a * F64.duration a in
    let shares :=
      map (F64.slot_share s a ps used i (F64.start_time item)) (py_range d) in
    F64.py_int (F64.duration a) = Ok d
    /\ (1 <= d)%Z
    /\ F64.first_index ps (F64.start_time item) = Some i
    /\ (Z.of_nat i + d <= Z.of_nat (length ps))%Z
    /\ F64.end_time item = add_hours (F64.start_time item) d
    /\ e = (fold_left PrimFloat.add shares 0,
            fold_left (fun g u => g + (F64.power_rating a - u)) shares 0)
    /\ F64.solar_coverage item
       = (if 0 <? total_energy then e.1 / total_energy else 0)
    /\ F64.grid_usage item = e.2
    /\ F64.cost_savings item = e.1 * F64.electricity_rate s.
Proof.
  intros Hrun Hin. apply f64_optimize_schedule_placed in Hrun.
  rewrite Forall_forall in Hrun. destruct (Hrun item Hin) as [used Hplaced].
  destruct Hplaced as (d & j & t & o & Hint & Hd & Hlk & Hlen & Hitem).
  set (a := F64.appliance item) in *.
  destruct (f64_create_item_fields s a t d ps used)
    as (_ & Hstart & Hend & Hcov & Hgrid & Hsav).
  rewrite <- Hitem in Hstart, Hend, Hcov, Hgrid, Hsav.
  destruct (f64_slot_energy_shares s a ps used j t o d Hlk)
    as (i & Hi & Hfit & He); [lia|lia|].
  exists used, d, i. cbv zeta. rewrite Hstart. by split_and!.
Qed.

End Binary64Energy.

(** C2 (amended).  For every item returned by [optimize_schedule] of a
    scheduler built by the constructor, in the arithmetic of the code:
    with [solar_energy_used] and [grid_energy] the two accumulators of the
    loop of [_create_schedule_item] over the [int(duration)] slots of the
    item, [solar_coverage] is [solar_energy_used / total_energy] when
    [total_energy = power_rating * duration] is positive and 0 otherwise;
    [grid_usage] is [grid_energy], the sum over these slots of
    [power_rating] minus the solar power used in the slot, and is not
    computed from [total_energy]; [cost_savings] is
    [solar_energy_used * 0.12]. *)
Theorem item_metrics (apps : list F64.Appliance) (load : float)
    (ps : list (Z * float)) (items : list F64.ScheduleItem)
    (item : F64.ScheduleItem) :
  F64.optimize_schedule (F64.new_scheduler apps load) ps = Ok items ->
  item ∈ items ->
  exists (used : gmap Z float) (d : Z),
    let a := F64.appliance item in
    let accumulators :=
      F64.slot_energy (F64.new_scheduler apps load) a (F64.start_time item)
        d ps used in
    let solar_energy_used := accumulators.1 in
    let grid_energy := accumulators.2 in
    let total_energy := (F64.power_rating a * F64.duration a)%float in
    F64.py_int (F64.duration a) = Ok d
    /\ (1 <= d)%Z
    /\ F64.solar_coverage item
       = (if 0 <? total_energy then solar_energy_used / total_energy
          else 0)%float
    /\ F64.grid_usage item = grid_energy
    /\ F64.cost_savings item = (solar_energy_used * 0.12)%float.
Proof.
  intros Hrun Hin.
  destruct (f64_returned_item _ _ _ _ Hrun Hin) as (used & d & i & Hfacts).
  cbv zeta in Hfacts.
  destruct Hfacts as (Hint & Hd & _ & _ & _ & _ & Hcov & Hgrid & Hsav).
  exists used, d. cbv zeta. by split_and!.
Qed.

Lemma item_metrics_witness :
  F64.optimize_schedule (F64.new_scheduler [dryer] 2) one_dim_hour
    = Ok [dryer_item]
  /\ dryer_item ∈ [dryer_item]
  /\ exists (used : gmap Z float) (d : Z),
       let a := F64.appliance dryer_item in
       let accumulators :=
         F64.slot_energy (F64.new_scheduler [dryer] 2) a
           (F64.start_time dryer_item) d one_dim_hour used in
       let solar_energy_used := accumulators.1 in
       let grid_energy := accumulators.2 in
       let total_energy := (F64.power_rating a * F64.duration a)%float in
       F64.py_int (F64.duration a) = Ok d
       /\ (1 <= d)%Z
       /\ F64.solar_coverage dryer_item
          = (if 0 <? total_energy then solar_energy_used / total_energy
             else 0)%float
       /\ F64.grid_usage dryer_item = grid_energy
       /\ F64.cost_savings dryer_item = (solar_energy_used * 0.12)%float.
Proof.
  assert (Hrun : F64.optimize_schedule (F64.new_scheduler [dryer] 2)
                   one_dim_hour = Ok [dryer_item])
    by (vm_compute; reflexivity).
  assert (Hin : dryer_item ∈ [dryer_item]) by apply list_elem_of_here.
  split; [exact Hrun|]. split; [exact Hin|].
  exact (item_metrics [dryer] 2 one_dim_hour [dryer_item] dryer_item Hrun Hin).
Defined.

(** C6 (code bug).  The [solar_coverage] of a returned item can exceed 1:
    for a 0.3 kW appliance running 6 h on six hours with 10 kW of
    production, the six slot shares of 0.3 add up to 1.8, whereas
    [total_energy = 0.3 * 6.0] rounds to 1.7999999999999998, and the
    quotient is 1.0000000000000002; the item is returned with this
    coverage, with a positive power rating and a positive duration. *)
Theorem solar_coverage_above_one :
  F64.optimize_schedule (F64.default_scheduler [pool_pump]) six_sunny_hours
    = Ok [pool_pump_item]
  /\ (0 <? F64.power_rating pool_pump)%float = true
  /\ (0 <? F64.duration pool_pump)%float = true
  /\ (F64.slot_energy (F64.default_scheduler [pool_pump]) pool_pump t10 6
        six_sunny_hours ∅).1 = 1.8%float
  /\ (F64.power_rating pool_pump * F64.duration pool_pump)%float
     = 1.7999999999999998%float
  /\ F64.solar_coverage pool_pump_item = 1.0000000000000002%float
  /\ (F64.solar_coverage pool_pump_item <=? 1)%float = false
  /\ (1 <? F64.solar_coverage pool_pump_item)%float = true.
Proof.
  split_and!; vm_compute; reflexivity.
Qed.

(** C10 (counterexample).  For the same 0.3 kW appliance running 6 h,
    fully covered by solar power, the item has [solar_coverage]
    1.0000000000000002 and [grid_usage] 0: the left-hand side of the
    identity is 1.8000000000000003, and [power_rating * int(duration)] is
    1.7999999999999998. *)
Lemma energy_accounting_counterexample :
  F64.optimize_schedule (F64.default_scheduler [pool_pump]) six_sunny_hours
    = Ok [pool_pump_item]
  /\ F64.py_int (F64.duration pool_pump) = Ok 6%Z
  /\ (F64.solar_coverage pool_pump_item
      * (F64.power_rating pool_pump * F64.duration pool_pump)
      + F64.grid_usage pool_pump_item)%float = 1.8000000000000003%float
  /\ (F64.power_rating pool_pump * F64.of_int 6)%float
     = 1.7999999999999998%float
  /\ (F64.solar_coverage pool_pump_item
      * (F64.power_rating pool_pump * F64.duration pool_pump)
      + F64.grid_usage pool_pump_item
      =? F64.power_rating pool_pump * F64.of_int 6)%float = false.
Proof.
  split_and!; vm_compute; reflexivity.
Qed.

(** C10 (amended).  For every item returned by [optimize_schedule], solar
    and grid energy are accumulated over exactly [int(duration)] slots of
    the schedule, from the start of the item on, not over the fractional
    duration: slot [j] adds its solar share [u_j] to the solar energy and
    [power_rating - u_j] to [grid_usage], both sums running from 0 in the
    order of the slots; [solar_coverage] is the solar sum over
    [power_rating * duration] when that product is positive; and for a
    positive power rating every share lies between 0 and [power_rating]. *)
Theorem energy_accounting (s : F64.ApplianceScheduler)
    (ps : list (Z * float)) (items : list F64.ScheduleItem)
    (item : F64.ScheduleItem) :
  F64.optimize_schedule s ps = Ok items ->
  item ∈ items ->
  exists (used : gmap Z float) (d : Z) (i : nat),
    let a := F64.appliance item in
    let total_energy := (F64.power_rating a * F64.duration a)%float in
    let shares :=
      map (F64.slot_share s a ps used i (F64.start_time item)) (py_range d) in
    let solar_energy := fold_left PrimFloat.add shares 0%float in
    F64.py_int (F64.duration a) = Ok d
    /\ length shares = Z.to_nat d
    /\ (1 <= d)%Z
    /\ F64.first_index ps (F64.start_time item) = Some i
    /\ (Z.of_nat i + d <= Z.of_nat (length ps))%Z
    /\ F64.end_time item = add_hours (F64.start_time item) d
    /\ F64.grid_usage item
       = fold_left (fun g u => g + (F64.power_rating a - u))%float shares
           0%float
    /\ F64.solar_coverage item
       = (if 0 <? total_energy then solar_energy / total_energy else 0)%float
    /\ ((0 <? F64.power_rating a)%float = true ->
        Forall (fun u => (0 <=? u)%float = true
                         /\ (u <=? F64.power_rating a)%float = true) shares).
Proof.
  intros Hrun Hin.
  destruct (f64_returned_item _ _ _ _ Hrun Hin) as (used & d & i & Hfacts).
  cbv zeta in Hfacts.
  destruct Hfacts as (Hint & Hd & Hi & Hfit & Hend & He & Hcov & Hgrid & _).
  exists used, d, i. cbv zeta. rewrite He in Hcov, Hgrid.
  split_and!; try done.
  - unfold py_range. by rewrite length_map, length_seq.
  - intros Hp. apply List.Forall_map, List.Forall_forall. intros j _.
    by apply f64_slot_share_range.
Qed.

Lemma energy_accounting_witness :
  F64.optimize_schedule (F64.default_scheduler [pool_pump]) six_sunny_hours
    = Ok [pool_pump_item]
  /\ pool_pump_item ∈ [pool_pump_item]
  /\ exists (used : gmap Z float) (d : Z) (i : nat),
       let s := F64.default_scheduler [pool_pump] in
       let a := F64.appliance pool_pump_item in
       let total_energy := (F64.power_rating a * F64.duration a)%float in
       let shares :=
         map (F64.slot_share s a six_sunny_hours used i
                (F64.start_time pool_pump_item)) (py_range d) in
       let solar_energy := fold_left PrimFloat.add shares 0%float in
       F64.py_int (F64.duration a) = Ok d
       /\ length shares = Z.to_nat d
       /\ (1 <= d)%Z
       /\ F64.first_index six_sunny_hours (F64.start_time pool_pump_item)
          = Some i
       /\ (Z.of_nat i + d <= Z.of_nat (length six_sunny_hours))%Z
       /\ F64.end_time pool_pump_item
          = add_hours (F64.start_time pool_pump_item) d
       /\ F64.grid_usage pool_pump_item
          = fold_left (fun g u => g + (F64.power_rating a - u))%float shares
              0%float
       /\ F64.solar_coverage pool_pump_item
          = (if 0 <? total_energy then solar_energy / total_energy
             else 0)%float
       /\ ((0 <? F64.power_rating a)%float = true ->
           Forall (fun u => (0 <=? u)%float = true
                            /\ (u <=? F64.power_rating a)%float = true)
             shares).
Proof.
  assert (Hrun : F64.optimize_schedule (F64.default_scheduler [pool_pump])
                   six_sunny_hours = Ok [pool_pump_item])
    by (vm_compute; reflexivity).
  assert (Hin : pool_pump_item ∈ [pool_pump_item]) by apply list_elem_of_here.
  split; [exact Hrun|]. split; [exact Hin|].
  exact (energy_accounting (F64.default_scheduler [pool_pump]) six_sunny_hours
           [pool_pump_item] pool_pump_item Hrun Hin).
Defined.

(* ===================================================================== *)
(** * The scheduler: the first appliance is always placed *)
(* ===================================================================== *)

Section FirstPlacement.
Local Open Scope Q_scope.

(** Progress rule for a [for] loop whose body never raises under an
    invariant. *)
Lemma for_each_progress {A S : Type} (I : S -> Prop) (xs : list A)
    (body : A -> S -> result S) (s : S) :
  I s ->
  (forall x t, x ∈ xs -> I t -> exists t', body x t = Ok t' /\ I t') ->
  exists s', for_each xs body s = Ok s' /\ I s'.
Proof.
  revert s. induction xs as [|x xs IH]; intros s Hs Hbody; simpl.
  - eauto.
  - destruct (Hbody x s) as (t & -> & Ht); [left|exact Hs|].
    apply IH; [exact Ht|]. intros y u Hy. apply Hbody. by right.
Qed.

Lemma py_int_ge_1 (x : Q) : 1 <= x -> (1 <= py_int x)%Z.
Proof.
  destruct x as [n d]. unfold Qle, py_int. simpl. intros Hx.
  rewrite Z.quot_div_nonneg by lia.
  apply Z.div_le_lower_bound; lia.
Qed.

(** With nothing booked, every window is available, whatever the power. *)
Lemma is_slot_available_empty (n : nat) (t : datetime) (p : Q) :
  is_slot_available_loop n t ∅ p = true.
Proof.
  revert t. induction n as [|n IH]; intros t; simpl; [done|].
  rewrite lookup_empty. apply IH.
Qed.

(** For a positive power rating an iteration of the score loop never
    raises and never lowers the score. *)
Lemma score_step_ok (s : ApplianceScheduler) (a : Appliance)
    (ps : ProductionSchedule) (used : gmap Z Q) (i j : nat) (st : Q * Z) :
  0 < power_rating a ->
  exists st', score_step s a ps used i j st = Ok st' /\ st.1 <= st'.1.
Proof.
  intros Hpow. destruct st as [sc ct]. unfold score_step.
  destruct (ps !! (i + j)%nat) as [[t o]|];
    [|exists (sc, ct); split; [done|simpl; lra]].
  destruct (Qeq_dec (power_rating a) 0) as [Hz|_]; [lra|].
  pose proof (available_solar_nonneg s o (used_power_at used ct)) as Hav.
  assert (Hcov : 0 <= Qmin 1 (available_solar s o (used_power_at used ct)
                              / power_rating a)).
  { apply Q.min_glb; [lra|]. apply Qle_shift_div_l; [exact Hpow|lra]. }
  destruct (peak_bonus a ct); eexists; (split; [done|simpl; lra]).
Qed.

Lemma score_loop_ok (s : ApplianceScheduler) (a : Appliance)
    (ps : ProductionSchedule) (used : gmap Z Q) (i : nat) :
  0 < power_rating a ->
  forall (js : list nat) (st : Q * Z),
    exists st', for_each js (score_step s a ps used i) st = Ok st'
                /\ st.1 <= st'.1.
Proof.
  intros Hpow js. induction js as [|j js IH]; intros st; simpl.
  - exists st. split; [done|lra].
  - destruct (score_step_ok s a ps used i j st Hpow) as (st1 & -> & Hle1).
    destruct (IH st1) as (st' & Hrun & Hle). exists st'.
    split; [exact Hrun|lra].
Qed.

Lemma calculate_slot_score_ok (s : ApplianceScheduler) (a : Appliance)
    (t : datetime) (d : Z) (ps : ProductionSchedule) (used : gmap Z Q) :
  0 < power_rating a ->
  exists sc, _calculate_slot_score s a t d ps used = Ok sc /\ 0 <= sc.
Proof.
  intros Hpow. unfold _calculate_slot_score.
  destruct (first_index ps t) as [i|]; [|exists 0; split; [done|lra]].
  destruct (score_loop_ok s a ps used i Hpow (py_range d) (0, t))
    as (st' & -> & Hle).
  exists st'.1. split; [done|simpl in Hle; lra].
Qed.

(** With nothing booked and a positive power rating, a step of the scan
    inside the schedule leaves a best slot behind as soon as the best
    score so far is negative or a best slot is already there. *)
Lemma best_step_empty (s : ApplianceScheduler) (a : Appliance)
    (ps : ProductionSchedule) (d : Z) (i : nat)
    (st : option ScheduleItem * Q) :
  0 < power_rating a ->
  (i < length ps)%nat ->
  is_Some st.1 \/ st.2 < 0 ->
  exists st', best_step s a ps ∅ d i st = Ok st' /\ is_Some st'.1.
Proof.
  intros Hpow Hi Hst. unfold best_step.
  destruct (lookup_lt_is_Some_2 ps i Hi) as [[t o] ->].
  unfold _is_slot_available. rewrite is_slot_available_empty.
  destruct (calculate_slot_score_ok s a t d ps ∅ Hpow) as (sc & -> & Hsc).
  simpl. destruct (Qlt_le_dec st.2 sc) as [_|Hle].
  - eexists. split; [done|]. simpl. eauto.
  - exists st. split; [done|]. destruct Hst as [Hsome|Hneg]; [done|lra].
Qed.

Lemma find_best_empty (s : ApplianceScheduler) (a : Appliance)
    (ps : ProductionSchedule) :
  0 < power_rating a ->
  (1 <= py_int (duration a))%Z ->
  (py_int (duration a) <= Z.of_nat (length ps))%Z ->
  exists item, _find_best_time_slot s a ps ∅ = Ok (Some item).
Proof.
  intros Hpow Hd Hlen. unfold _find_best_time_slot, py_range.
  destruct (Z.to_nat (Z.of_nat (length ps) - py_int (duration a) + 1))
    as [|m] eqn:Hm; [lia|].
  cbn [seq for_each].
  destruct (best_step_empty s a ps (py_int (duration a)) 0 (None, -1) Hpow)
    as (st1 & -> & Hsome1); [lia|right; simpl; lra|].
  destruct (for_each_progress
              (fun st : option ScheduleItem * Q => is_Some st.1)
              (seq 1 m) (best_step s a ps ∅ (py_int (duration a))) st1 Hsome1)
    as (st & -> & [item Hitem]).
  - intros i t Hi Ht. apply list_elem_of_In, in_seq in Hi.
    apply best_step_empty; [exact Hpow|lia|by left].
  - exists item. simpl. by rewrite Hitem.
Qed.

End FirstPlacement.

(** C9. A single appliance with [power_rating > 0] and [duration >= 1] is
    always placed on a schedule of at least [int(duration)] points:
    [optimize_schedule] returns exactly one item, for that appliance,
    however large the power rating is. *)
Theorem first_appliance_always_placed (a : Appliance) (load rate : Q)
    (ps : ProductionSchedule) :
  (0 < power_rating a)%Q ->
  (1 <= duration a)%Q ->
  (py_int (duration a) <= Z.of_nat (length ps))%Z ->
  exists item,
    optimize_schedule (mkScheduler [a] load rate) ps = Ok [item]
    /\ appliance item = a.
Proof.
  intros Hpow Hdur Hlen.
  destruct (find_best_empty (mkScheduler [a] load rate) a ps Hpow
              (py_int_ge_1 _ Hdur) Hlen) as [item Hbest].
  exists item. split.
  - unfold optimize_schedule, optimize_loop, schedule_step. simpl.
    rewrite Hbest. reflexivity.
  - apply find_best_placed in Hbest. by eapply placed_at_appliance.
Qed.

Lemma first_appliance_always_placed_witness :
  (0 < power_rating oven)%Q
  /\ (1 <= duration oven)%Q
  /\ (py_int (duration oven) <= Z.of_nat (length one_sunny_hour))%Z
  /\ (slot_capacity < power_rating oven)%Q
  /\ optimize_schedule (mkScheduler [oven] 2 0.12) one_sunny_hour
     = Ok [oven_item]
  /\ exists item,
       optimize_schedule (mkScheduler [oven] 2 0.12) one_sunny_hour = Ok [item]
       /\ appliance item = oven.
Proof.
  assert (Hpow : (0 < power_rating oven)%Q) by reflexivity.
  assert (Hdur : (1 <= duration oven)%Q) by (vm_compute; discriminate).
  assert (Hlen : (py_int (duration oven) <= Z.of_nat (length one_sunny_hour))%Z)
    by (vm_compute; discriminate).
  split_and!; try assumption; try reflexivity.
  exact (first_appliance_always_placed oven 2 0.12 one_sunny_hour Hpow Hdur Hlen).
Defined.

(* ===================================================================== *)
(** * The scheduler: order of the attempts *)
(* ===================================================================== *)

Section SortFacts.
Local Open Scope Z_scope.

Lemma priority_value_inj (p q : Priority) :
  priority_value p = priority_value q -> p = q.
Proof. by destruct p, q. Qed.

Lemma key_ltb_false (a b : Appliance) :
  key_ltb (sort_key a) (sort_key b) = false <-> attempted_before a b.
Proof.
  unfold key_ltb, sort_key, attempted_before. simpl.
  rewrite orb_false_iff, andb_false_iff, !Z.ltb_ge, Z.eqb_neq.
  split.
  - intros [Hp [Hne|Hf]]; [left; lia|].
    destruct (Z.eq_dec (priority_value (priority a)) (priority_value (priority b)))
      as [Heq|Hne]; [right|left; lia].
    split; [by apply priority_value_inj|lia].
  - intros [Hlt|[-> Hf]]; (split; [lia|]); [left|right]; lia.
Qed.

Lemma key_ltb_true (a b : Appliance) :
  key_ltb (sort_key a) (sort_key b) = true -> attempted_before b a.
Proof.
  unfold key_ltb, sort_key, attempted_before. simpl.
  rewrite orb_true_iff, andb_true_iff, !Z.ltb_lt, Z.eqb_eq.
  intros [Hlt|[Heq Hf]]; [by left|right].
  split; [symmetry; by apply priority_value_inj|lia].
Qed.

Lemma attempted_before_trans (a b c : Appliance) :
  attempted_before a b -> attempted_before b c -> attempted_before a c.
Proof.
  unfold attempted_before.
  intros [H1|[E1 H1]] [H2|[E2 H2]].
  - left. lia.
  - left. by rewrite <- E2.
  - left. by rewrite E1.
  - right. split; [congruence|lia].
Qed.

Lemma insert_desc_perm (a : Appliance) (l : list Appliance) :
  Permutation (insert_desc a l) (a :: l).
Proof.
  induction l as [|b l IH]; simpl; [done|].
  destruct (key_ltb _ _); [|done].
  rewrite IH. apply perm_swap.
Qed.

Lemma insert_desc_sorted (a : Appliance) (l : list Appliance) :
  StronglySorted attempted_before l ->
  StronglySorted attempted_before (insert_desc a l).
Proof.
  induction 1 as [|b l Hl IH Hb]; simpl.
  - by repeat constructor.
  - destruct (key_ltb _ _) eqn:Hk.
    + constructor; [exact IH|].
      rewrite (insert_desc_perm a l). constructor; [|exact Hb].
      by apply key_ltb_true.
    + apply key_ltb_false in Hk. constructor; [by constructor|].
      constructor; [exact Hk|].
      eapply Forall_impl; [exact Hb|]. intros c Hc.
      by eapply attempted_before_trans.
Qed.

Lemma sorted_appliances_perm (apps : list Appliance) :
  Permutation (sorted_appliances apps) apps.
Proof.
  induction apps as [|a apps IH]; simpl; [done|].
  by rewrite insert_desc_perm, IH.
Qed.

Lemma sorted_appliances_sorted (apps : list Appliance) :
  StronglySorted attempted_before (sorted_appliances apps).
Proof.
  induction apps as [|a apps IH]; simpl; [constructor|].
  by apply insert_desc_sorted.
Qed.

Lemma StronglySorted_lookup_lt {A : Type} (R : A -> A -> Prop) (l : list A) :
  StronglySorted R l ->
  forall (i j : nat) (x y : A),
    l !! i = Some x -> l !! j = Some y -> (i < j)%nat -> R x y.
Proof.
  induction 1 as [|z l Hl IH Hz]; intros i j x y Hi Hj Hij; [done|].
  destruct j as [|j]; [lia|]. simpl in Hj.
  destruct i as [|i]; simpl in Hi.
  - injection Hi as ->. rewrite Forall_forall in Hz. apply Hz.
    by eapply list_elem_of_lookup_2.
  - apply (IH i j); [done|done|lia].
Qed.

End SortFacts.

(** C3. The loop of [optimize_schedule] runs over [sorted_appliances], a
    rearrangement of the appliance list in which higher priority comes
    first and, within a priority, lower flexibility comes first; the
    returned items follow that order.  In particular an
    appliance of higher priority is attempted before one of lower
    priority, and when two such appliances of equal flexibility compete
    for the only slot, the one of higher priority gets it, whatever the
    order of the appliance list. *)
Theorem placement_order :
  (forall apps : list Appliance,
     Permutation (sorted_appliances apps) apps
     /\ StronglySorted attempted_before (sorted_appliances apps))
  /\ (forall (s : ApplianceScheduler) (ps : ProductionSchedule)
             (items : list ScheduleItem),
        optimize_schedule s ps = Ok items ->
        sublist (map appliance items) (sorted_appliances (appliances s)))
  /\ (forall (apps : list Appliance) (i j : nat) (a b : Appliance),
        sorted_appliances apps !! i = Some a ->
        sorted_appliances apps !! j = Some b ->
        flexibility a = flexibility b ->
        (priority_value (priority b) < priority_value (priority a))%Z ->
        (i < j)%nat)
  /\ optimize_schedule (default_scheduler [heater; ev_charger]) one_sunny_hour
     = Ok [ev_charger_item]
  /\ optimize_schedule (default_scheduler [ev_charger; heater]) one_sunny_hour
     = Ok [ev_charger_item].
Proof.
  split_and!.
  - intros apps. split;
      [apply sorted_appliances_perm|apply sorted_appliances_sorted].
  - apply optimize_schedule_order.
  - intros apps i j a b Hi Hj _ Hprio.
    destruct (Nat.lt_trichotomy i j) as [Hlt|[->|Hgt]]; [exact Hlt| |].
    + rewrite Hi in Hj. injection Hj as ->. lia.
    + pose proof (StronglySorted_lookup_lt _ _ (sorted_appliances_sorted apps)
                    j i b a Hj Hi Hgt) as [Hlt|[Heq _]]; [lia|].
      rewrite Heq in Hprio. lia.
  - vm_compute. reflexivity.
  - vm_compute. reflexivity.
Qed.

Lemma placement_order_witness :
  optimize_schedule (default_scheduler [heater; ev_charger]) one_sunny_hour
    = Ok [ev_charger_item]
  /\ sorted_appliances [heater; ev_charger] = [ev_charger; heater]
  /\ sublist (map appliance [ev_charger_item])
       (sorted_appliances (appliances (default_scheduler [heater; ev_charger])))
  /\ (0 < 1)%nat.
Proof.
  pose proof placement_order as (_ & Horder & Hfirst & Hrun & _).
  split; [exact Hrun|]. split; [reflexivity|].
  split; [exact (Horder _ _ _ Hrun)|].
  apply (Hfirst [heater; ev_charger] 0%nat 1%nat ev_charger heater);
    [reflexivity|reflexivity|reflexivity|vm_compute; reflexivity].
Defined.

(* ===================================================================== *)
(** * The scheduler: inputs on which it raises, and empty inputs *)
(* ===================================================================== *)

Section Raises.
Local Open Scope Q_scope.

(** An appliance shorter than one whole slot makes the scan of start
    indices run one index past the end of the schedule. *)
Lemma find_best_short_duration_raises (s : ApplianceScheduler) (a : Appliance)
    (ps : ProductionSchedule) (used : gmap Z Q) :
  (py_int (duration a) < 1)%Z ->
  exists e, _find_best_time_slot s a ps used = Raise e.
Proof.
  intros Hd. destruct (_find_best_time_slot s a ps used) as [r|e] eqn:Hrun.
  - apply find_best_ok_duration in Hrun. lia.
  - by exists e.
Qed.

Lemma optimize_schedule_short_duration_raises (s : ApplianceScheduler)
    (ps : ProductionSchedule) (a : Appliance) :
  a ∈ appliances s ->
  (py_int (duration a) < 1)%Z ->
  exists e, optimize_schedule s ps = Raise e.
Proof.
  intros Hin Hd. unfold optimize_schedule, optimize_loop.
  destruct (for_each_raises (sorted_appliances (appliances s))
              (schedule_step s ps) a ([], ∅)) as [e He].
  - by rewrite (sorted_appliances_perm (appliances s)).
  - intros st. unfold schedule_step.
    destruct (find_best_short_duration_raises s a ps st.2 Hd) as [e ->].
    by exists e.
  - exists e. by rewrite He.
Qed.

(** Without appliances the schedule is empty. *)
Lemma optimize_schedule_no_appliances (load rate : Q) (ps : ProductionSchedule) :
  optimize_schedule (mkScheduler [] load rate) ps = Ok [].
Proof. reflexivity. Qed.

(** Without production data no appliance of at least one whole slot is
    placed. *)
Lemma find_best_no_production (s : ApplianceScheduler) (a : Appliance)
    (used : gmap Z Q) :
  (1 <= py_int (duration a))%Z ->
  _find_best_time_slot s a [] used = Ok None.
Proof.
  intros Hd. unfold _find_best_time_slot, py_range.
  replace (Z.to_nat (Z.of_nat (length ([] : ProductionSchedule))
                     - py_int (duration a) + 1)) with 0%nat
    by (simpl; lia).
  reflexivity.
Qed.

Lemma optimize_schedule_no_production (s : ApplianceScheduler) :
  Forall (fun a => (1 <= py_int (duration a))%Z) (appliances s) ->
  optimize_schedule s [] = Ok [].
Proof.
  intros Hall. unfold optimize_schedule, optimize_loop.
  rewrite <- (sorted_appliances_perm (appliances s)) in Hall.
  generalize (∅ : gmap Z Q).
  induction Hall as [|a l Ha _ IH]; intros used; [reflexivity|].
  simpl. unfold schedule_step at 1.
  rewrite (find_best_no_production s a _ Ha). simpl. apply IH.
Qed.

(** The summary of the empty schedule is all zeros. *)
Lemma get_schedule_summary_empty :
  get_schedule_summary []
  = {| total_energy := 0; solar_energy := 0; grid_energy := 0;
       solar_percentage := 0; summary_cost_savings := 0;
       scheduled_appliances := 0 |}.
Proof. reflexivity. Qed.

End Raises.

(** C1 (failing input).  A single 15 kW oven on one production point is
    accepted: the hour is not yet a key of [used_slots], so the capacity
    test is skipped.  The returned item covers 10:00, where the booked
    power and the sum of the power ratings are 15 kW, above the 10 kW
    capacity. *)
Theorem capacity_exceeded_by_first_appliance :
  optimize_loop (default_scheduler [oven]) one_sunny_hour
    = Ok ([oven_item], {[ t10 := 15%Q ]})
  /\ appliance oven_item = oven
  /\ start_time oven_item = t10
  /\ end_time oven_item = t11
  /\ covers oven_item t10 = true
  /\ (load_at [oven_item] t10 == 15)%Q
  /\ (slot_capacity < load_at [oven_item] t10)%Q.
Proof.
  split_and!; vm_compute; reflexivity.
Qed.

(** C5 (failing inputs).  [optimize_schedule] raises [IndexError] for an
    appliance that lasts less than an hour, and [ZeroDivisionError] for an
    appliance of zero power. *)
Theorem optimize_schedule_raises :
  optimize_schedule (default_scheduler [kettle]) one_sunny_hour
    = Raise IndexError
  /\ optimize_schedule (default_scheduler [standby]) one_sunny_hour
     = Raise ZeroDivisionError.
Proof.
  split; vm_compute; reflexivity.
Qed.

(** C7 (failing input).  On an empty production schedule an appliance that
    lasts less than an hour makes [optimize_schedule] raise [IndexError]
    instead of returning the empty schedule. *)
Theorem empty_production_raises :
  optimize_schedule (default_scheduler [kettle]) [] = Raise IndexError.
Proof.
  vm_compute. reflexivity.
Qed.

(* ===================================================================== *)
(** * The scheduler: what the capacity test does guarantee *)
(* ===================================================================== *)

Section Capacity.
Local Open Scope Q_scope.

Lemma add_hours_0 (t : datetime) : add_hours t 0 = t.
Proof. unfold add_hours. lia. Qed.

Lemma add_hours_succ (t : datetime) (k : nat) :
  add_hours (add_hours t 1) (Z.of_nat k) = add_hours t (Z.of_nat (S k)).
Proof. unfold add_hours. lia. Qed.

Lemma add_hours_succ_ne (t : datetime) (k : nat) :
  add_hours t (Z.of_nat (S k)) <> t.
Proof. unfold add_hours, us_per_hour. lia. Qed.

(** The [while] loop of [_mark_slots_used] never runs out of the
    iterations it is given: more of them change nothing. *)
Lemma mark_loop_enough (p : Q) (end_time : datetime) :
  forall (n : nat) (t : datetime) (used : gmap Z Q),
    (hours_until t end_time <= n)%nat ->
    mark_loop n t end_time p used
    = mark_loop (hours_until t end_time) t end_time p used.
Proof.
  induction n as [|n IH]; intros t used Hn.
  - by replace (hours_until t end_time) with 0%nat by lia.
  - destruct (Z.ltb_spec t end_time) as [Hlt|Hge].
    + assert (Hs : hours_until t end_time
                   = S (hours_until (add_hours t 1) end_time)).
      { unfold hours_until, add_hours, us_per_hour.
        replace (end_time - t + 3600000000 - 1)%Z
          with ((end_time - (t + 1 * 3600000000) + 3600000000 - 1)
                + 1 * 3600000000)%Z by lia.
        rewrite Z.div_add by lia.
        assert (0 <= (end_time - (t + 1 * 3600000000) + 3600000000 - 1)
                     / 3600000000)%Z by (apply Z.div_pos; lia).
        lia. }
      rewrite Hs. simpl. destruct (Z.ltb_spec t end_time); [|lia].
      apply IH. lia.
    + assert (Hz : hours_until t end_time = 0%nat).
      { unfold hours_until, us_per_hour.
        assert ((end_time - t + 3600000000 - 1) / 3600000000 <= 0)%Z; [|lia].
        apply Z.lt_succ_r. apply Z.div_lt_upper_bound; lia. }
      rewrite Hz. simpl. by destruct (Z.ltb_spec t end_time); [lia|].
Qed.

Lemma hours_until_add_hours (t : datetime) (d : Z) :
  hours_until t (add_hours t d) = Z.to_nat d.
Proof.
  unfold hours_until, add_hours, us_per_hour.
  replace (t + d * 3600000000 - t + 3600000000 - 1)%Z
    with (3600000000 - 1 + d * 3600000000)%Z by lia.
  rewrite Z.div_add by lia. by rewrite Z.div_small by lia.
Qed.

(** An accepted window leaves room for the appliance in every hour that
    is already booked. *)
Lemma is_slot_available_sound (used : gmap Z Q) (p : Q) :
  forall (n : nat) (t : datetime),
    is_slot_available_loop n t used p = true ->
    forall (k : nat) (u : Q),
      (k < n)%nat ->
      used !! add_hours t (Z.of_nat k) = Some u ->
      u + p <= slot_capacity.
Proof.
  induction n as [|n IH]; intros t Hav k u Hk Hlk; [lia|].
  simpl in Hav. destruct k as [|k].
  - change (Z.of_nat 0) with 0%Z in Hlk. rewrite add_hours_0 in Hlk.
    rewrite Hlk in Hav. by destruct (Qlt_le_dec slot_capacity (u + p)).
  - rewrite <- add_hours_succ in Hlk.
    apply (IH (add_hours t 1)) with (k := k); [|lia|exact Hlk].
    destruct (used !! t); [|exact Hav].
    by destruct (Qlt_le_dec slot_capacity (q + p)).
Qed.

Lemma mark_loop_within_capacity (p : Q) (end_time : datetime) :
  p <= slot_capacity ->
  forall (n : nat) (t : datetime) (used : gmap Z Q),
    within_capacity used ->
    (forall (k : nat) (u : Q),
       (k < n)%nat -> used !! add_hours t (Z.of_nat k) = Some u ->
       u + p <= slot_capacity) ->
    within_capacity (mark_loop n t end_time p used).
Proof.
  intros Hp. induction n as [|n IH]; intros t used Hcap Hroom; [exact Hcap|].
  simpl. destruct (t <? end_time)%Z; [|exact Hcap].
  set (used1 := match used !! t with
                | Some _ => used
                | None => <[t:=0]> used
                end).
  assert (Hother : forall t', t' <> t -> used1 !! t' = used !! t').
  { intros t' Hne. unfold used1. destruct (used !! t); [done|].
    by rewrite lookup_insert_ne. }
  assert (Hhere : used_power_at used1 t + p <= slot_capacity).
  { unfold used_power_at, used1. destruct (used !! t) as [u|] eqn:Hlk.
    - rewrite Hlk. simpl. apply (Hroom 0%nat u); [lia|].
      change (Z.of_nat 0) with 0%Z. by rewrite add_hours_0.
    - rewrite lookup_insert_eq. simpl. lra. }
  apply IH.
  - intros t' u. destruct (decide (t' = t)) as [->|Hne].
    + rewrite lookup_insert_eq. by intros [= <-].
    + rewrite lookup_insert_ne by done. rewrite Hother by done. apply Hcap.
  - intros k u Hk. rewrite add_hours_succ.
    rewrite lookup_insert_ne by (symmetry; apply add_hours_succ_ne).
    rewrite Hother by apply add_hours_succ_ne.
    apply Hroom. lia.
Qed.

(** When no appliance draws more than the slot capacity, no hour is ever
    booked above it. *)
Lemma used_slots_within_capacity (s : ApplianceScheduler)
    (ps : ProductionSchedule) (items : list ScheduleItem) (used : gmap Z Q) :
  Forall (fun a => power_rating a <= slot_capacity) (appliances s) ->
  optimize_loop s ps = Ok (items, used) ->
  within_capacity used.
Proof.
  intros Hpow Hrun. unfold optimize_loop in Hrun.
  rewrite <- (sorted_appliances_perm (appliances s)) in Hpow.
  rewrite Forall_forall in Hpow.
  change used with (items, used).2.
  eapply (for_each_invariant (fun st => within_capacity st.2));
    [ | |exact Hrun].
  { intros t u. simpl. by rewrite lookup_empty. }
  intros a st st' Ha Hcap Hstep.
  apply schedule_step_spec in Hstep as [->|(item & Hplaced & ->)]; [exact Hcap|].
  destruct Hplaced as (i & t & o & _ & Hd & _ & _ & Hav & ->).
  destruct (create_item_fields s a t (py_int (duration a)) ps st.2)
    as (Happ & Hstart & Hend & _).
  simpl. unfold _mark_slots_used. rewrite Happ, Hstart, Hend.
  rewrite hours_until_add_hours.
  apply mark_loop_within_capacity; [by apply Hpow|exact Hcap|].
  intros k u Hk Hlk. by eapply is_slot_available_sound.
Qed.

End Capacity.

(* ===================================================================== *)
(** * Further properties of the scheduler *)
(* ===================================================================== *)

Section SchedulerExtras.
Local Open Scope Q_scope.

Lemma has_key_true (k : Z * Z) (a : Appliance) :
  has_key k a = true <-> sort_key a = k.
Proof.
  unfold has_key. rewrite andb_true_iff, !Z.eqb_eq.
  destruct (sort_key a), k; simpl. split; [intros [-> ->]|intros [= -> ->]]; done.
Qed.

Lemma key_ltb_irrefl (k : Z * Z) : key_ltb k k = false.
Proof.
  unfold key_ltb. rewrite !Z.ltb_irrefl, Z.eqb_refl. reflexivity.
Qed.

Lemma filter_insert_desc (k : Z * Z) (a : Appliance) (l : list Appliance) :
  List.filter (has_key k) (insert_desc a l) = List.filter (has_key k) (a :: l).
Proof.
  induction l as [|b l IH]; [reflexivity|].
  cbn [insert_desc]. destruct (key_ltb (sort_key a) (sort_key b)) eqn:Hlt;
    [|reflexivity].
  cbn [List.filter] in *. rewrite IH.
  destruct (has_key k a) eqn:Ha; destruct (has_key k b) eqn:Hb; try reflexivity.
  apply has_key_true in Ha, Hb. rewrite Ha, Hb, key_ltb_irrefl in Hlt.
  discriminate Hlt.
Qed.

End SchedulerExtras.

(** X1. When no appliance draws more than the 10 kW slot capacity, the
    power booked in [used_slots] never exceeds the capacity at any hour,
    at the end of the scheduling pass. *)
Theorem capacity_respected_below_limit (s : ApplianceScheduler)
    (ps : ProductionSchedule) (items : list ScheduleItem) (used : gmap Z Q) :
  Forall (fun a => (power_rating a <= slot_capacity)%Q) (appliances s) ->
  optimize_loop s ps = Ok (items, used) ->
  forall (t : datetime) (u : Q), used !! t = Some u -> (u <= 10)%Q.
Proof.
  intros Hpow Hrun. exact (used_slots_within_capacity s ps items used Hpow Hrun).
Qed.

Lemma capacity_respected_below_limit_witness :
  Forall (fun a => (power_rating a <= slot_capacity)%Q)
    (appliances (default_scheduler [heater; ev_charger]))
  /\ optimize_loop (default_scheduler [heater; ev_charger]) one_sunny_hour
     = Ok ([ev_charger_item], {[ t10 := 6%Q ]})
  /\ ({[ t10 := 6%Q ]} : gmap Z Q) !! t10 = Some 6%Q
  /\ (6 <= 10)%Q.
Proof.
  assert (Hpow : Forall (fun a => (power_rating a <= slot_capacity)%Q)
                   (appliances (default_scheduler [heater; ev_charger]))).
  { repeat constructor; vm_compute; discriminate. }
  assert (Hrun : optimize_loop (default_scheduler [heater; ev_charger])
                   one_sunny_hour = Ok ([ev_charger_item], {[ t10 := 6%Q ]}))
    by (vm_compute; reflexivity).
  assert (Hlk : ({[ t10 := 6%Q ]} : gmap Z Q) !! t10 = Some 6%Q)
    by apply lookup_singleton_eq.
  split_and!; try assumption.
  exact (capacity_respected_below_limit _ _ _ _ Hpow Hrun t10 6%Q Hlk).
Defined.

(** X2. As soon as one appliance of the list lasts less than one whole
    slot ([int(duration) < 1]), [optimize_schedule] raises an exception,
    whatever the production schedule and the other appliances. *)
Theorem short_duration_always_raises (s : ApplianceScheduler)
    (ps : ProductionSchedule) (a : Appliance) :
  a ∈ appliances s ->
  (py_int (duration a) < 1)%Z ->
  exists e, optimize_schedule s ps = Raise e.
Proof.
  apply optimize_schedule_short_duration_raises.
Qed.

Lemma short_duration_always_raises_witness :
  kettle ∈ appliances (default_scheduler [dishwasher; kettle])
  /\ (py_int (duration kettle) < 1)%Z
  /\ exists e,
       optimize_schedule (default_scheduler [dishwasher; kettle]) one_sunny_hour
       = Raise e.
Proof.
  assert (Hin : kettle ∈ appliances (default_scheduler [dishwasher; kettle]))
    by (simpl; apply list_elem_of_further, list_elem_of_here).
  assert (Hd : (py_int (duration kettle) < 1)%Z) by (vm_compute; reflexivity).
  split; [exact Hin|]. split; [exact Hd|].
  exact (short_duration_always_raises _ one_sunny_hour kettle Hin Hd).
Defined.

(** X3. On an empty production schedule, appliances that all last at
    least one whole slot yield the empty schedule, without exception. *)
Theorem empty_production_empty_schedule (s : ApplianceScheduler) :
  Forall (fun a => (1 <= py_int (duration a))%Z) (appliances s) ->
  optimize_schedule s [] = Ok [].
Proof.
  apply optimize_schedule_no_production.
Qed.

Lemma empty_production_empty_schedule_witness :
  Forall (fun a => (1 <= py_int (duration a))%Z)
    (appliances (default_scheduler [dishwasher; oven]))
  /\ optimize_schedule (default_scheduler [dishwasher; oven]) [] = Ok [].
Proof.
  assert (H : Forall (fun a => (1 <= py_int (duration a))%Z)
                (appliances (default_scheduler [dishwasher; oven]))).
  { repeat constructor; vm_compute; discriminate. }
  split; [exact H|]. exact (empty_production_empty_schedule _ H).
Defined.

(** X4. The sort of [optimize_schedule] is stable: appliances with the
    same priority and the same flexibility are attempted in the order in
    which they are listed. *)
Theorem sorted_appliances_stable (apps : list Appliance) (k : Z * Z) :
  List.filter (has_key k) (sorted_appliances apps)
  = List.filter (has_key k) apps.
Proof.
  induction apps as [|a apps IH]; [reflexivity|].
  cbn [sorted_appliances foldr]. fold (sorted_appliances apps).
  rewrite filter_insert_desc. cbn [List.filter]. by rewrite IH.
Qed.

(** X5. [optimize_schedule] schedules only appliances of the list, each
    one at most as often as it is listed; it never returns more items than
    there are appliances. *)
Theorem schedule_within_appliances (s : ApplianceScheduler)
    (ps : ProductionSchedule) (items : list ScheduleItem) :
  optimize_schedule s ps = Ok items ->
  map appliance items ⊆+ appliances s
  /\ (length items <= length (appliances s))%nat.
Proof.
  intros Hrun. apply optimize_schedule_order in Hrun.
  assert (Hsub : map appliance items ⊆+ appliances s).
  { rewrite <- (sorted_appliances_perm (appliances s)).
    by apply sublist_submseteq. }
  split; [exact Hsub|].
  apply submseteq_length in Hsub. by rewrite length_map in Hsub.
Qed.

Lemma schedule_within_appliances_witness :
  optimize_schedule (default_scheduler [heater; ev_charger]) one_sunny_hour
    = Ok [ev_charger_item]
  /\ map appliance [ev_charger_item]
     ⊆+ appliances (default_scheduler [heater; ev_charger])
  /\ (length [ev_charger_item]
      <= length (appliances (default_scheduler [heater; ev_charger])))%nat.
Proof.
  assert (Hrun : optimize_schedule (default_scheduler [heater; ev_charger])
                   one_sunny_hour = Ok [ev_charger_item])
    by (vm_compute; reflexivity).
  split; [exact Hrun|]. exact (schedule_within_appliances _ _ _ Hrun).
Defined.

(** X6. Every returned item starts at a timestamp of the production
    schedule, lasts [int(duration)] whole hours with [int(duration) >= 1],
    so it ends after it starts, and its slots fit in the schedule from the
    start index on. *)
Theorem item_window_geometry (s : ApplianceScheduler)
    (ps : ProductionSchedule) (items : list ScheduleItem) (item : ScheduleItem) :
  optimize_schedule s ps = Ok items ->
  item ∈ items ->
  (1 <= py_int (duration (appliance item)))%Z
  /\ end_time item
     = add_hours (start_time item) (py_int (duration (appliance item)))
  /\ (start_time item < end_time item)%Z
  /\ exists (i : nat) (o : Q),
       ps !! i = Some (start_time item, o)
       /\ (Z.of_nat i + py_int (duration (appliance item))
           <= Z.of_nat (length ps))%Z.
Proof.
  intros Hrun Hin. apply optimize_schedule_placed in Hrun.
  rewrite Forall_forall in Hrun. destruct (Hrun item Hin) as [used Hplaced].
  destruct Hplaced as (i & t & o & Hlk & Hd & Hlen & _ & _ & Hitem).
  destruct (create_item_fields s (appliance item) t
              (py_int (duration (appliance item))) ps used)
    as (_ & Hstart & Hend & _).
  rewrite <- Hitem in Hstart, Hend. rewrite Hstart, Hend.
  split_and!; [exact Hd|reflexivity| |by exists i, o].
  unfold add_hours, us_per_hour. nia.
Qed.

Lemma item_window_geometry_witness :
  optimize_schedule (default_scheduler [dishwasher]) one_sunny_hour
    = Ok [dishwasher_item]
  /\ dishwasher_item ∈ [dishwasher_item]
  /\ start_time dishwasher_item = t10
  /\ end_time dishwasher_item = t11
  /\ (1 <= py_int (duration (appliance dishwasher_item)))%Z
  /\ end_time dishwasher_item
     = add_hours (start_time dishwasher_item)
         (py_int (duration (appliance dishwasher_item))).
Proof.
  assert (Hrun : optimize_schedule (default_scheduler [dishwasher])
                   one_sunny_hour = Ok [dishwasher_item])
    by (vm_compute; reflexivity).
  assert (Hin : dishwasher_item ∈ [dishwasher_item]) by apply list_elem_of_here.
  destruct (item_window_geometry _ _ _ _ Hrun Hin) as (Hd & Hend & _).
  split_and!; try assumption; reflexivity.
Defined.

Section BestSlot.
Local Open Scope Q_scope.

Lemma for_each_app {A S : Type} (xs ys : list A) (body : A -> S -> result S)
    (s : S) :
  for_each (xs ++ ys) body s
  = match for_each xs body s with
    | Ok s' => for_each ys body s'
    | Raise e => Raise e
    end.
Proof.
  revert s. induction xs as [|x xs IH]; intros s; simpl; [reflexivity|].
  destruct (body x s); [apply IH|reflexivity].
Qed.

(** State of the scan of [_find_best_time_slot] after the start indices
    below [n]: either nothing was kept and no window scored above -1, or
    the kept window is the earliest one of maximal score. *)
Lemma find_best_scan (s : ApplianceScheduler) (a : Appliance)
    (ps : ProductionSchedule) (used : gmap Z Q) :
  let d := py_int (duration a) in
  let cand := fun (j : nat) (t : datetime) (sc : Q) =>
    (exists o, ps !! j = Some (t, o))
    /\ _is_slot_available t d used (power_rating a) = true
    /\ _calculate_slot_score s a t d ps used = Ok sc in
  forall (n : nat) (st : option ScheduleItem * Q),
    for_each (seq 0 n) (best_step s a ps used d) (None, -1) = Ok st ->
    (st = (None, -1)
     /\ forall j t sc, (j < n)%nat -> cand j t sc -> sc <= -1)
    \/ (exists i t sc,
          (i < n)%nat /\ cand i t sc
          /\ st = (Some (_create_schedule_item s a t d ps used), sc)
          /\ -1 < sc
          /\ forall j t' sc', (j < n)%nat -> cand j t' sc' ->
               sc' <= sc /\ ((j < i)%nat -> sc' < sc)).
Proof.
  intros d cand. induction n as [|n IH]; intros st Hrun.
  - simpl in Hrun. injection Hrun as <-. left. split; [done|]. intros; lia.
  - rewrite seq_S, for_each_app in Hrun. simpl in Hrun.
    destruct (for_each (seq 0 n) _ _) as [st1|e] eqn:Hprefix; [|discriminate].
    specialize (IH st1 eq_refl).
    destruct (best_step s a ps used d n st1) as [st2|e] eqn:Hstep;
      [|discriminate].
    injection Hrun as ->. unfold best_step in Hstep.
    destruct (ps !! n) as [[t o]|] eqn:Hlk; [|discriminate].
    assert (Hcand_n : forall t' sc', cand n t' sc' ->
              t' = t
              /\ _is_slot_available t d used (power_rating a) = true
              /\ _calculate_slot_score s a t d ps used = Ok sc').
    { intros t' sc' ([o' Ho'] & Hav & Hsc). rewrite Hlk in Ho'.
      injection Ho' as <- <-. done. }
    destruct (_is_slot_available t d used (power_rating a)) eqn:Hav.
    + destruct (_calculate_slot_score s a t d ps used) as [sc|e] eqn:Hsc;
        [|discriminate].
      simpl in Hstep. destruct (Qlt_le_dec st1.2 sc) as [Hlt|Hle].
      * injection Hstep as <-. right. exists n, t, sc.
        assert (Hbound : -1 <= st1.2
                  /\ forall j t' sc', (j < n)%nat -> cand j t' sc' -> sc' <= st1.2).
        { destruct IH as [[-> Hall]|(i & ti & sci & _ & _ & -> & Hpos & Hall)].
          - split; [simpl; lra|]. intros j t' sc' Hj Hc. simpl.
            by apply (Hall j t').
          - split; [simpl; lra|]. intros j t' sc' Hj Hc. simpl.
            by apply (Hall j t' sc'). }
        destruct Hbound as [Hlow Hall].
        split_and!; [lia|by split; [exists o|]|done|lra|].
        intros j t' sc' Hj Hc. destruct (decide (j = n)) as [->|Hne].
        -- destruct (Hcand_n t' sc' Hc) as (_ & _ & [= <-]).
           split; [lra|lia].
        -- pose proof (Hall j t' sc' ltac:(lia) Hc). split; [lra|intros _; lra].
      * injection Hstep as <-.
        destruct IH as [[-> Hall]|(i & ti & sci & Hi & Hci & -> & Hpos & Hall)].
        -- left. split; [done|]. intros j t' sc' Hj Hc.
           destruct (decide (j = n)) as [->|Hne].
           ++ destruct (Hcand_n t' sc' Hc) as (_ & _ & [= <-]). exact Hle.
           ++ apply (Hall j t'); [lia|exact Hc].
        -- right. exists i, ti, sci. split_and!; [lia|done|done|done|].
           intros j t' sc' Hj Hc. destruct (decide (j = n)) as [->|Hne].
           ++ destruct (Hcand_n t' sc' Hc) as (_ & _ & [= <-]).
              split; [exact Hle|lia].
           ++ apply (Hall j t' sc'); [lia|exact Hc].
    + injection Hstep as <-.
      destruct IH as [[-> Hall]|(i & ti & sci & Hi & Hci & -> & Hpos & Hall)].
      * left. split; [done|]. intros j t' sc' Hj Hc.
        destruct (decide (j = n)) as [->|Hne].
        -- destruct (Hcand_n t' sc' Hc) as (_ & Hav' & _). discriminate.
        -- apply (Hall j t'); [lia|exact Hc].
      * right. exists i, ti, sci. split_and!; [lia|done|done|done|].
        intros j t' sc' Hj Hc. destruct (decide (j = n)) as [->|Hne].
        -- destruct (Hcand_n t' sc' Hc) as (_ & Hav' & _). discriminate.
        -- apply (Hall j t' sc'); [lia|exact Hc].
Qed.

End BestSlot.

Section BestSlotResult.
Local Open Scope Q_scope.

Lemma find_best_cases (s : ApplianceScheduler) (a : Appliance)
    (ps : ProductionSchedule) (used : gmap Z Q) (r : option ScheduleItem) :
  _find_best_time_slot s a ps used = Ok r ->
  (r = None
   /\ forall j t sc, candidate s a ps used j t sc -> sc <= -1)
  \/ (exists i t sc,
        candidate s a ps used i t sc
        /\ r = Some (_create_schedule_item s a t (py_int (duration a)) ps used)
        /\ -1 < sc
        /\ forall j t' sc', candidate s a ps used j t' sc' ->
             sc' <= sc /\ ((j < i)%nat -> sc' < sc)).
Proof.
  intros Hrun. unfold _find_best_time_slot, py_range in Hrun.
  destruct (for_each _ _ _) as [st|e] eqn:Hloop; [|discriminate].
  simpl in Hrun. injection Hrun as <-.
  set (n := Z.to_nat (Z.of_nat (length ps) - py_int (duration a) + 1)) in *.
  assert (Hrange : forall j, (Z.of_nat j + py_int (duration a)
                              <= Z.of_nat (length ps))%Z <-> (j < n)%nat)
    by (intros j; lia).
  destruct (find_best_scan s a ps used n st Hloop)
    as [[-> Hall]|(i & t & sc & Hi & (Ho & Hav & Hsc) & -> & Hpos & Hall)].
  - left. split; [done|]. intros j t sc (Hj & Ho & Hav & Hsc).
    apply (Hall j t); [by apply Hrange|done].
  - right. exists i, t, sc. split_and!; [|done|done|].
    + split_and!; try done. by apply Hrange.
    + intros j t' sc' (Hj & Ho' & Hav' & Hsc').
      apply (Hall j t' sc'); [by apply Hrange|done].
Qed.

End BestSlotResult.

(** X7. The slot that [_find_best_time_slot] returns is an available
    window inside the schedule whose score is the highest of all available
    windows, and the earliest one among those of highest score: every
    window scanned before it scores strictly less. *)
Theorem best_slot_earliest_maximum (s : ApplianceScheduler) (a : Appliance)
    (ps : ProductionSchedule) (used : gmap Z Q) (item : ScheduleItem) :
  _find_best_time_slot s a ps used = Ok (Some item) ->
  exists (i : nat) (t : datetime) (sc : Q),
    candidate s a ps used i t sc
    /\ item = _create_schedule_item s a t (py_int (duration a)) ps used
    /\ forall (j : nat) (t' : datetime) (sc' : Q),
         candidate s a ps used j t' sc' ->
         (sc' <= sc)%Q /\ ((j < i)%nat -> (sc' < sc)%Q).
Proof.
  intros Hrun.
  destruct (find_best_cases s a ps used _ Hrun)
    as [[Hnone _]|(i & t & sc & Hc & Hitem & _ & Hall)]; [discriminate|].
  injection Hitem as ->. by exists i, t, sc.
Qed.

Lemma best_slot_earliest_maximum_witness :
  _find_best_time_slot (default_scheduler [dishwasher]) dishwasher
    [(t10, 10); (t11, 10); (t12, 3)]%Q ∅
  = Ok (Some (_create_schedule_item (default_scheduler [dishwasher]) dishwasher
                t10 1 [(t10, 10); (t11, 10); (t12, 3)]%Q ∅))
  /\ _calculate_slot_score (default_scheduler [dishwasher]) dishwasher t10 1
       [(t10, 10); (t11, 10); (t12, 3)]%Q ∅ = Ok 120%Q
  /\ _calculate_slot_score (default_scheduler [dishwasher]) dishwasher t11 1
       [(t10, 10); (t11, 10); (t12, 3)]%Q ∅ = Ok 120%Q
  /\ exists (i : nat) (t : datetime) (sc : Q),
       candidate (default_scheduler [dishwasher]) dishwasher
         [(t10, 10); (t11, 10); (t12, 3)]%Q ∅ i t sc
       /\ _create_schedule_item (default_scheduler [dishwasher]) dishwasher
            t10 1 [(t10, 10); (t11, 10); (t12, 3)]%Q ∅
          = _create_schedule_item (default_scheduler [dishwasher]) dishwasher t
              (py_int (duration dishwasher)) [(t10, 10); (t11, 10); (t12, 3)]%Q ∅
       /\ forall (j : nat) (t' : datetime) (sc' : Q),
            candidate (default_scheduler [dishwasher]) dishwasher
              [(t10, 10); (t11, 10); (t12, 3)]%Q ∅ j t' sc' ->
            (sc' <= sc)%Q /\ ((j < i)%nat -> (sc' < sc)%Q).
Proof.
  assert (Hrun : _find_best_time_slot (default_scheduler [dishwasher]) dishwasher
            [(t10, 10); (t11, 10); (t12, 3)]%Q ∅
          = Ok (Some (_create_schedule_item (default_scheduler [dishwasher])
                        dishwasher t10 1 [(t10, 10); (t11, 10); (t12, 3)]%Q ∅)))
    by (vm_compute; reflexivity).
  split; [exact Hrun|]. split; [vm_compute; reflexivity|].
  split; [vm_compute; reflexivity|].
  exact (best_slot_earliest_maximum _ _ _ _ _ Hrun).
Defined.

(** X8. For an appliance of positive power that lasts at least one whole
    slot, [_find_best_time_slot] never raises, and it returns no slot
    exactly when no window inside the schedule is available: such an
    appliance is only dropped for lack of capacity or of room. *)
Theorem positive_power_dropped_only_without_window (s : ApplianceScheduler)
    (a : Appliance) (ps : ProductionSchedule) (used : gmap Z Q) :
  (0 < power_rating a)%Q ->
  (1 <= py_int (duration a))%Z ->
  exists r : option ScheduleItem,
    _find_best_time_slot s a ps used = Ok r
    /\ (r = None <->
        forall (j : nat) (t : datetime) (o : Q),
          (Z.of_nat j + py_int (duration a) <= Z.of_nat (length ps))%Z ->
          ps !! j = Some (t, o) ->
          _is_slot_available t (py_int (duration a)) used (power_rating a)
          = false).
Proof.
  intros Hpow Hd.
  assert (Hok : exists r, _find_best_time_slot s a ps used = Ok r).
  { unfold _find_best_time_slot.
    destruct (for_each_progress (fun _ : option ScheduleItem * Q => True)
                (py_range (Z.of_nat (length ps) - py_int (duration a) + 1))
                (best_step s a ps used (py_int (duration a))) (None, -1)%Q I)
      as (st & -> & _); [|by eexists].
    intros i st Hi _. apply py_range_elem in Hi. unfold best_step.
    destruct (lookup_lt_is_Some_2 ps i ltac:(lia)) as [[t o] ->].
    destruct (_is_slot_available t _ used _); [|by eexists].
    destruct (calculate_slot_score_ok s a t (py_int (duration a)) ps used Hpow)
      as (sc & -> & _).
    simpl. destruct (Qlt_le_dec st.2 sc); by eexists. }
  destruct Hok as [r Hrun]. exists r. split; [exact Hrun|].
  destruct (find_best_cases s a ps used r Hrun)
    as [[-> Hall]|(i & t & sc & Hc & -> & _ & _)].
  - split; [|done]. intros _ j t o Hj Hlk.
    destruct (_is_slot_available t _ used _) eqn:Hav; [|done].
    destruct (calculate_slot_score_ok s a t (py_int (duration a)) ps used Hpow)
      as (sc & Hsc & Hpos).
    assert (Hle : (sc <= -1)%Q).
    { apply (Hall j t). split_and!; [done|by exists o|done|done]. }
    lra.
  - split; [discriminate|]. intros Hnone.
    destruct Hc as (Hi & [o Ho] & Hav & _).
    rewrite (Hnone i t o Hi Ho) in Hav. discriminate.
Qed.

Lemma positive_power_dropped_only_without_window_witness :
  (0 < power_rating heater)%Q
  /\ (1 <= py_int (duration heater))%Z
  /\ _find_best_time_slot (default_scheduler [heater; ev_charger]) heater
       one_sunny_hour {[ t10 := 6%Q ]} = Ok None
  /\ exists r : option ScheduleItem,
       _find_best_time_slot (default_scheduler [heater; ev_charger]) heater
         one_sunny_hour {[ t10 := 6%Q ]} = Ok r
       /\ (r = None <->
           forall (j : nat) (t : datetime) (o : Q),
             (Z.of_nat j + py_int (duration heater)
              <= Z.of_nat (length one_sunny_hour))%Z ->
             one_sunny_hour !! j = Some (t, o) ->
             _is_slot_available t (py_int (duration heater)) {[ t10 := 6%Q ]}
               (power_rating heater) = false).
Proof.
  assert (Hpow : (0 < power_rating heater)%Q) by reflexivity.
  assert (Hd : (1 <= py_int (duration heater))%Z) by (vm_compute; discriminate).
  split; [exact Hpow|]. split; [exact Hd|]. split; [vm_compute; reflexivity|].
  exact (positive_power_dropped_only_without_window _ heater one_sunny_hour
           {[ t10 := 6%Q ]} Hpow Hd).
Defined.

(* ===================================================================== *)
(** * Sums of energies *)
(* ===================================================================== *)

Section SummaryFacts.
Local Open Scope Q_scope.

Lemma fold_left_Qplus_acc (xs : list Q) (acc : Q) :
  fold_left Qplus xs acc == acc + py_sum xs.
Proof.
  unfold py_sum. revert acc. induction xs as [|x xs IH]; intros acc; simpl.
  - lra.
  - rewrite (IH (acc + x)), (IH (0 + x)). lra.
Qed.

Lemma py_sum_cons (x : Q) (xs : list Q) : py_sum (x :: xs) == x + py_sum xs.
Proof.
  unfold py_sum at 1. simpl. rewrite fold_left_Qplus_acc. lra.
Qed.

Lemma py_sum_map_nonneg {A : Type} (f : A -> Q) (l : list A) :
  Forall (fun x => 0 <= f x) l -> 0 <= py_sum (map f l).
Proof.
  induction 1 as [|x l Hx _ IH]; simpl; [unfold py_sum; simpl; lra|].
  rewrite py_sum_cons. lra.
Qed.

End SummaryFacts.

(* ===================================================================== *)
(** * Booked power and the load of the returned schedule *)
(* ===================================================================== *)

Section Alignment.
Local Open Scope Q_scope.

Lemma used_power_at_insert (used : gmap Z Q) (t0 t : datetime) (v : Q) :
  used_power_at (<[t0 := v]> used) t
  = if decide (t = t0) then v else used_power_at used t.
Proof.
  unfold used_power_at. destruct (decide (t = t0)) as [->|Hne].
  - by rewrite lookup_insert_eq.
  - by rewrite lookup_insert_ne.
Qed.

Lemma in_hours_0 (t0 t : datetime) : in_hours t0 0 t = false.
Proof.
  unfold in_hours, add_hours.
  destruct (Z.leb_spec t0 t); destruct (Z.ltb_spec t (t0 + 0 * us_per_hour));
    simpl; try reflexivity; lia.
Qed.

Lemma in_hours_succ (t0 t : datetime) (n : nat) :
  in_hours t0 (Z.of_nat (S n)) t
  = if decide (t = t0) then true
    else in_hours (add_hours t0 1) (Z.of_nat n) t.
Proof.
  unfold in_hours, add_hours.
  assert (Hmod : ((t - (t0 + 1 * us_per_hour)) mod us_per_hour
                  = (t - t0) mod us_per_hour)%Z).
  { replace (t - (t0 + 1 * us_per_hour))%Z
      with (t - t0 + (-1) * us_per_hour)%Z by lia.
    apply Z_mod_plus_full. }
  rewrite Hmod.
  destruct (decide (t = t0)) as [->|Hne].
  - rewrite Z.sub_diag. unfold us_per_hour.
    destruct (Z.leb_spec t0 t0); [|lia].
    destruct (Z.ltb_spec t0 (t0 + Z.of_nat (S n) * 3600000000)); [|lia].
    reflexivity.
  - destruct (Z.eqb_spec ((t - t0) mod us_per_hour) 0) as [Hz|Hnz];
      [|by rewrite !andb_false_r].
    rewrite !andb_true_r.
    assert (Hstep : (t0 < t -> t0 + 1 * us_per_hour <= t)%Z).
    { intros Hlt. apply Z.mod_divide in Hz; [|unfold us_per_hour; lia].
      destruct Hz as [k Hk]. unfold us_per_hour in *. nia. }
    unfold us_per_hour in *.
    destruct (Z.leb_spec t0 t); destruct (Z.leb_spec (t0 + 1 * 3600000000) t);
      destruct (Z.ltb_spec t (t0 + Z.of_nat (S n) * 3600000000));
      destruct (Z.ltb_spec t (t0 + 1 * 3600000000 + Z.of_nat n * 3600000000));
      simpl; try reflexivity; lia.
Qed.

(** What [_mark_slots_used] books: the power of the appliance, once, at
    each of the hourly instants of the item, and nothing elsewhere. *)
Lemma mark_loop_power (p : Q) :
  forall (n : nat) (t0 : datetime) (used : gmap Z Q) (t : datetime),
    used_power_at
      (mark_loop n t0 (add_hours t0 (Z.of_nat n)) p used) t
    == used_power_at used t
       + (if in_hours t0 (Z.of_nat n) t then p else 0).
Proof.
  induction n as [|n IH]; intros t0 used t.
  - change (Z.of_nat 0) with 0%Z. rewrite in_hours_0. simpl. lra.
  - cbn [mark_loop].
    assert (Hlt : (t0 <? add_hours t0 (Z.of_nat (S n)))%Z = true).
    { apply Z.ltb_lt. unfold add_hours, us_per_hour. lia. }
    rewrite Hlt. rewrite <- add_hours_succ.
    rewrite IH. rewrite used_power_at_insert, in_hours_succ.
    destruct (decide (t = t0)) as [->|Hne].
    + assert (Hout : in_hours (add_hours t0 1) (Z.of_nat n) t0 = false).
      { unfold in_hours, add_hours, us_per_hour.
        destruct (Z.leb_spec (t0 + 1 * 3600000000) t0); [lia|reflexivity]. }
      rewrite Hout.
      assert (Hsame : used_power_at
                        (match used !! t0 with
                         | Some _ => used
                         | None => <[t0:=0]> used
                         end) t0 = used_power_at used t0).
      { unfold used_power_at. destruct (used !! t0) eqn:Hlk; [by rewrite Hlk|].
        by rewrite lookup_insert_eq. }
      rewrite Hsame. lra.
    + assert (Hsame : used_power_at
                        (match used !! t0 with
                         | Some _ => used
                         | None => <[t0:=0]> used
                         end) t = used_power_at used t).
      { destruct (used !! t0); [done|].
        rewrite used_power_at_insert. by destruct (decide (t = t0)). }
      rewrite Hsame. reflexivity.
Qed.

Lemma load_at_snoc (items : list ScheduleItem) (item : ScheduleItem)
    (t : datetime) :
  load_at (items ++ [item]) t
  == load_at items t
     + (if covers item t then power_rating (appliance item) else 0).
Proof.
  unfold load_at, py_sum. rewrite List.filter_app, map_app, fold_left_app.
  simpl. destruct (covers item t); simpl; lra.
Qed.

Lemma covers_in_hours (item : ScheduleItem) (d : Z) (t : datetime) :
  end_time item = add_hours (start_time item) d ->
  hour_phase t = hour_phase (start_time item) ->
  covers item t = in_hours (start_time item) d t.
Proof.
  intros Hend Hphase. unfold covers, in_hours. rewrite Hend.
  assert (Hmod : ((t - start_time item) mod us_per_hour = 0)%Z).
  { unfold hour_phase in Hphase. rewrite Zminus_mod, Hphase, Z.sub_diag.
    reflexivity. }
  rewrite Hmod. simpl. by rewrite andb_true_r.
Qed.

(** On a production schedule whose timestamps all have the same offset
    within the hour, the power booked at an instant of that offset is the
    sum of the power ratings of the items that cover it. *)
Lemma used_slots_load (s : ApplianceScheduler) (ps : ProductionSchedule)
    (phase : Z) (items : list ScheduleItem) (used : gmap Z Q) :
  Forall (fun point => hour_phase point.1 = phase) ps ->
  optimize_loop s ps = Ok (items, used) ->
  forall t, hour_phase t = phase -> used_power_at used t == load_at items t.
Proof.
  intros Hps Hrun. unfold optimize_loop in Hrun.
  change used with (items, used).2. change items with (items, used).1 at 2.
  eapply (for_each_invariant
            (fun st => forall t, hour_phase t = phase ->
                         used_power_at st.2 t == load_at st.1 t));
    [ | |exact Hrun].
  { intros t _. reflexivity. }
  intros a st st' _ Hinv Hstep t Ht.
  apply schedule_step_spec in Hstep as [->|(item & Hplaced & ->)];
    [by apply Hinv|].
  destruct Hplaced as (i & t0 & o & Hlk & Hd & _ & _ & _ & Hitem).
  destruct (create_item_fields s a t0 (py_int (duration a)) ps st.2)
    as (Happ & Hstart & Hend & _).
  rewrite <- Hitem in Happ, Hstart, Hend.
  cbn [fst snd]. rewrite load_at_snoc.
  unfold _mark_slots_used. rewrite Hend, Hstart, hours_until_add_hours.
  replace (add_hours t0 (py_int (duration a)))
    with (add_hours t0 (Z.of_nat (Z.to_nat (py_int (duration a)))))
    by (rewrite Z2Nat.id by lia; reflexivity).
  rewrite mark_loop_power. rewrite Z2Nat.id by lia.
  rewrite (covers_in_hours item (py_int (duration a)) t).
  - rewrite Hstart, Happ, (Hinv t Ht). reflexivity.
  - rewrite Hend, Hstart. reflexivity.
  - rewrite Hstart, Ht. symmetry.
    rewrite Forall_forall in Hps.
    apply (Hps (t0, o)). by eapply list_elem_of_lookup_2.
Qed.

End Alignment.

(** X10. On a production schedule whose timestamps all have the same
    offset within the hour (hourly data), the power that the scheduler has
    booked at any instant of that offset is the load of the returned
    schedule at that instant: the sum of [power_rating] over the items
    with [start_time <= t < end_time]. *)
Theorem booked_power_is_schedule_load (s : ApplianceScheduler)
    (ps : ProductionSchedule) (phase : Z) (items : list ScheduleItem)
    (used : gmap Z Q) (t : datetime) :
  Forall (fun point => hour_phase point.1 = phase) ps ->
  optimize_loop s ps = Ok (items, used) ->
  hour_phase t = phase ->
  (used_power_at used t == load_at items t)%Q.
Proof.
  intros Hps Hrun Ht. by apply (used_slots_load s ps phase items used).
Qed.

Lemma booked_power_is_schedule_load_witness :
  Forall (fun point => hour_phase point.1 = 0%Z) one_sunny_hour
  /\ optimize_loop (default_scheduler [heater; ev_charger]) one_sunny_hour
     = Ok ([ev_charger_item], {[ t10 := 6%Q ]})
  /\ hour_phase t10 = 0%Z
  /\ (used_power_at {[ t10 := 6%Q ]} t10 == load_at [ev_charger_item] t10)%Q.
Proof.
  assert (Hps : Forall (fun point => hour_phase point.1 = 0%Z) one_sunny_hour)
    by (repeat constructor).
  assert (Hrun : optimize_loop (default_scheduler [heater; ev_charger])
                   one_sunny_hour = Ok ([ev_charger_item], {[ t10 := 6%Q ]}))
    by (vm_compute; reflexivity).
  assert (Ht : hour_phase t10 = 0%Z) by reflexivity.
  split_and!; try assumption.
  exact (booked_power_is_schedule_load _ _ _ _ _ t10 Hps Hrun Ht).
Defined.

(** X11. On hourly production data and with no appliance above the 10 kW
    slot capacity, the load of the returned schedule (the sum of
    [power_rating] over the items that cover an instant) never exceeds
    10 kW at any instant with the offset of the data, in particular at
    every timestamp of the production schedule. *)
Theorem schedule_load_within_capacity (s : ApplianceScheduler)
    (ps : ProductionSchedule) (phase : Z) (items : list ScheduleItem)
    (t : datetime) :
  Forall (fun point => hour_phase point.1 = phase) ps ->
  Forall (fun a => (power_rating a <= slot_capacity)%Q) (appliances s) ->
  optimize_schedule s ps = Ok items ->
  hour_phase t = phase ->
  (load_at items t <= 10)%Q.
Proof.
  intros Hps Hpow Hrun Ht. unfold optimize_schedule in Hrun.
  destruct (optimize_loop s ps) as [[items' used]|e] eqn:Hloop; [|discriminate].
  simpl in Hrun. injection Hrun as ->.
  rewrite <- (used_slots_load s ps phase items used Hps Hloop t Ht).
  pose proof (used_slots_within_capacity s ps items used Hpow Hloop) as Hcap.
  unfold used_power_at. destruct (used !! t) as [u|] eqn:Hlk; simpl.
  - exact (Hcap t u Hlk).
  - discriminate.
Qed.

Lemma schedule_load_within_capacity_witness :
  Forall (fun point => hour_phase point.1 = 0%Z) one_sunny_hour
  /\ Forall (fun a => (power_rating a <= slot_capacity)%Q)
       (appliances (default_scheduler [heater; ev_charger]))
  /\ optimize_schedule (default_scheduler [heater; ev_charger]) one_sunny_hour
     = Ok [ev_charger_item]
  /\ hour_phase t10 = 0%Z
  /\ (load_at [ev_charger_item] t10 <= 10)%Q.
Proof.
  assert (Hps : Forall (fun point => hour_phase point.1 = 0%Z) one_sunny_hour)
    by (repeat constructor).
  assert (Hpow : Forall (fun a => (power_rating a <= slot_capacity)%Q)
                   (appliances (default_scheduler [heater; ev_charger]))).
  { repeat constructor; vm_compute; discriminate. }
  assert (Hrun : optimize_schedule (default_scheduler [heater; ev_charger])
                   one_sunny_hour = Ok [ev_charger_item])
    by (vm_compute; reflexivity).
  assert (Ht : hour_phase t10 = 0%Z) by reflexivity.
  split_and!; try assumption.
  exact (schedule_load_within_capacity _ _ _ _ t10 Hps Hpow Hrun Ht).
Defined.

(* ===================================================================== *)
(** * Deferral advice *)
(* ===================================================================== *)

Section DeferralFacts.
Local Open Scope Q_scope.

(** State of the scan of [_find_better_slots] after the start indices
    below [n]. *)
Lemma find_better_scan (s : ApplianceScheduler) (item : ScheduleItem)
    (ps : ProductionSchedule) :
  let d := py_int (duration (appliance item)) in
  let alt := fun (j : nat) (t : datetime) (c : Q) =>
    (exists o, ps !! j = Some (t, o))
    /\ t <> start_time item
    /\ c = _calculate_potential_coverage s (appliance item) t d ps in
  forall (n : nat) (st : option Z * Q),
    for_each (seq 0 n) (better_step s item ps d) (None, solar_coverage item)
    = Ok st ->
    (st = (None, solar_coverage item)
     /\ forall j t c, (j < n)%nat -> alt j t c -> c <= solar_coverage item)
    \/ (exists i t c,
          (i < n)%nat /\ alt i t c /\ st = (Some t, c)
          /\ solar_coverage item < c
          /\ forall j t' c', (j < n)%nat -> alt j t' c' -> c' <= c).
Proof.
  intros d alt. induction n as [|n IH]; intros st Hrun.
  - simpl in Hrun. injection Hrun as <-. left. split; [done|]. intros; lia.
  - rewrite seq_S, for_each_app in Hrun. simpl in Hrun.
    destruct (for_each (seq 0 n) _ _) as [st1|e] eqn:Hprefix; [|discriminate].
    specialize (IH st1 eq_refl).
    destruct (better_step s item ps d n st1) as [st2|e] eqn:Hstep;
      [|discriminate].
    injection Hrun as ->. unfold better_step in Hstep.
    destruct (ps !! n) as [[t o]|] eqn:Hlk; [|discriminate].
    assert (Halt_n : forall t' c', alt n t' c' ->
              t' = t /\ t <> start_time item
              /\ c' = _calculate_potential_coverage s (appliance item) t d ps).
    { intros t' c' ([o' Ho'] & Hne & Hc). rewrite Hlk in Ho'.
      injection Ho' as <- <-. done. }
    destruct (Z.eqb_spec t (start_time item)) as [Heq|Hne].
    + injection Hstep as <-.
      destruct IH as [[-> Hall]|(i & ti & ci & Hi & Hai & -> & Hpos & Hall)].
      * left. split; [done|]. intros j t' c' Hj Ha.
        destruct (decide (j = n)) as [->|Hjn].
        -- destruct (Halt_n t' c' Ha) as (_ & Hcontra & _). done.
        -- apply (Hall j t' c'); [lia|exact Ha].
      * right. exists i, ti, ci. split_and!; [lia|done|done|done|].
        intros j t' c' Hj Ha. destruct (decide (j = n)) as [->|Hjn].
        -- destruct (Halt_n t' c' Ha) as (_ & Hcontra & _). done.
        -- apply (Hall j t' c'); [lia|exact Ha].
    + set (cn := _calculate_potential_coverage s (appliance item) t d ps) in *.
      destruct (Qlt_le_dec st1.2 cn) as [Hlt|Hle].
      * injection Hstep as <-. right. exists n, t, cn.
        assert (Hbound : solar_coverage item <= st1.2
                  /\ forall j t' c', (j < n)%nat -> alt j t' c' -> c' <= st1.2).
        { destruct IH as [[-> Hall]|(i & ti & ci & _ & _ & -> & Hpos & Hall)].
          - split; [simpl; lra|exact Hall].
          - split; [simpl; lra|exact Hall]. }
        destruct Hbound as [Hlow Hall].
        split_and!; [lia|by split; [exists o|]|done|lra|].
        intros j t' c' Hj Ha. destruct (decide (j = n)) as [->|Hjn].
        -- destruct (Halt_n t' c' Ha) as (_ & _ & ->). lra.
        -- pose proof (Hall j t' c' ltac:(lia) Ha). lra.
      * injection Hstep as <-.
        destruct IH as [[-> Hall]|(i & ti & ci & Hi & Hai & -> & Hpos & Hall)].
        -- left. split; [done|]. intros j t' c' Hj Ha.
           destruct (decide (j = n)) as [->|Hjn].
           ++ destruct (Halt_n t' c' Ha) as (_ & _ & ->). exact Hle.
           ++ apply (Hall j t' c'); [lia|exact Ha].
        -- right. exists i, ti, ci. split_and!; [lia|done|done|done|].
           intros j t' c' Hj Ha. destruct (decide (j = n)) as [->|Hjn].
           ++ destruct (Halt_n t' c' Ha) as (_ & _ & ->). exact Hle.
           ++ apply (Hall j t' c'); [lia|exact Ha].
Qed.

(** For an item of at least one whole slot the scan of
    [_find_better_slots] stays inside the schedule. *)
Lemma find_better_ok (s : ApplianceScheduler) (item : ScheduleItem)
    (ps : ProductionSchedule) :
  (1 <= py_int (duration (appliance item)))%Z ->
  exists r, _find_better_slots s item ps = Ok r.
Proof.
  intros Hd. unfold _find_better_slots.
  destruct (for_each_progress (fun _ : option Z * Q => True)
              (py_range (Z.of_nat (length ps)
                         - py_int (duration (appliance item)) + 1))
              (better_step s item ps (py_int (duration (appliance item))))
              (None, solar_coverage item) I)
    as (st & -> & _); [|by eexists].
  intros i st Hi _. apply py_range_elem in Hi. unfold better_step.
  destruct (lookup_lt_is_Some_2 ps i ltac:(lia)) as [[t o] ->].
  destruct (t =? start_time item)%Z; [by eexists|].
  destruct (Qlt_le_dec st.2 _); by eexists.
Qed.

Lemma deferral_loop_ok (s : ApplianceScheduler) (ps : ProductionSchedule) :
  forall (l : list ScheduleItem) (recs : list string),
    Forall (fun item => (1 <= py_int (duration (appliance item)))%Z) l ->
    exists recs',
      for_each l (deferral_step s ps) recs = Ok recs'
      /\ (length recs <= length recs' <= length recs + length l)%nat.
Proof.
  induction l as [|item l IH]; intros recs Hall; simpl.
  - exists recs. split; [done|lia].
  - inversion Hall as [|? ? Hd Hl]; subst.
    assert (Hstep : exists recs1,
              deferral_step s ps item recs = Ok recs1
              /\ (length recs <= length recs1 <= length recs + 1)%nat).
    { unfold deferral_step. destruct (5 <? flexibility (appliance item))%Z;
        [|exists recs; split; [done|lia]].
      destruct (find_better_ok s item ps Hd) as [[better|] ->]; simpl.
      - eexists. split; [done|]. rewrite length_app. simpl. lia.
      - exists recs. split; [done|lia]. }
    destruct Hstep as (recs1 & -> & Hlen1).
    destruct (IH recs1 Hl) as (recs' & Hrun & Hlen).
    exists recs'. split; [exact Hrun|lia].
Qed.

End DeferralFacts.

(** X13. What [_find_better_slots] returns is a start time of the
    production schedule, other than the start of the item, whose potential
    coverage is strictly above the solar coverage of the item and is the
    highest of all alternative starts. *)
Theorem better_slot_is_best_alternative (s : ApplianceScheduler)
    (item : ScheduleItem) (ps : ProductionSchedule) (t : datetime) (c : Q) :
  _find_better_slots s item ps = Ok (Some (t, c)) ->
  (solar_coverage item < c)%Q
  /\ (exists i : nat, alternative s item ps i t c)
  /\ forall (j : nat) (t' : datetime) (c' : Q),
       alternative s item ps j t' c' -> (c' <= c)%Q.
Proof.
  intros Hrun. unfold _find_better_slots, py_range in Hrun.
  destruct (for_each _ _ _) as [st|e] eqn:Hloop; [|discriminate].
  simpl in Hrun.
  set (n := Z.to_nat (Z.of_nat (length ps)
                      - py_int (duration (appliance item)) + 1)) in *.
  assert (Hrange : forall j,
            (Z.of_nat j + py_int (duration (appliance item))
             <= Z.of_nat (length ps))%Z <-> (j < n)%nat) by (intros j; lia).
  destruct (find_better_scan s item ps n st Hloop)
    as [[-> _]|(i & ti & ci & Hi & (Ho & Hne & Hc) & -> & Hpos & Hall)];
    [discriminate|].
  simpl in Hrun. injection Hrun as <- <-.
  split; [exact Hpos|]. split.
  - exists i. split_and!; try done. by apply Hrange.
  - intros j t' c' (Hj & Ho' & Hne' & Hc').
    apply (Hall j t' c'); [by apply Hrange|done].
Qed.

Lemma better_slot_is_best_alternative_witness :
  _find_better_slots (default_scheduler [dishwasher]) dishwasher_early_item
    cloudy_then_sunny
  = Ok (Some (t11, _calculate_potential_coverage
                     (default_scheduler [dishwasher]) dishwasher t11 1
                     cloudy_then_sunny))
  /\ (solar_coverage dishwasher_early_item == 4 # 9)%Q
  /\ (_calculate_potential_coverage (default_scheduler [dishwasher]) dishwasher
        t11 1 cloudy_then_sunny == 2 # 3)%Q
  /\ (solar_coverage dishwasher_early_item
      < _calculate_potential_coverage (default_scheduler [dishwasher])
          dishwasher t11 1 cloudy_then_sunny)%Q.
Proof.
  assert (Hrun : _find_better_slots (default_scheduler [dishwasher])
            dishwasher_early_item cloudy_then_sunny
          = Ok (Some (t11, _calculate_potential_coverage
                             (default_scheduler [dishwasher]) dishwasher t11 1
                             cloudy_then_sunny)))
    by (vm_compute; reflexivity).
  split; [exact Hrun|]. split; [vm_compute; reflexivity|].
  split; [vm_compute; reflexivity|].
  exact (proj1 (better_slot_is_best_alternative _ _ _ _ _ Hrun)).
Defined.

(** X14. Deferral advice computed for the schedule that [optimize_schedule]
    returned, on the same production schedule, never raises, and it
    contains at most one recommendation per item of low solar coverage. *)
Theorem deferrals_of_returned_schedule (s : ApplianceScheduler)
    (ps : ProductionSchedule) (items : list ScheduleItem) :
  optimize_schedule s ps = Ok items ->
  exists recommendations : list string,
    recommend_deferrals s items ps = Ok recommendations
    /\ (length recommendations <= length (List.filter low_solar items))%nat
    /\ (length recommendations <= length items)%nat.
Proof.
  intros Hrun. apply optimize_schedule_placed in Hrun.
  assert (Hd : Forall (fun item => (1 <= py_int (duration (appliance item)))%Z)
                 (List.filter low_solar items)).
  { apply List.Forall_forall. intros item Hin.
    apply List.filter_In in Hin as [Hin _].
    rewrite Forall_forall in Hrun.
    destruct (Hrun item ltac:(by apply list_elem_of_In))
      as (used & i & t & o & _ & Hd & _). exact Hd. }
  destruct (deferral_loop_ok s ps _ [] Hd) as (recs & Hok & Hlen).
  exists recs. split; [exact Hok|]. simpl in Hlen.
  pose proof (List.filter_length_le low_solar items). split; lia.
Qed.

Lemma deferrals_of_returned_schedule_witness :
  optimize_schedule (default_scheduler [dishwasher; big_charger])
    cloudy_then_sunny
  = Ok [big_charger_item; dishwasher_early_item]
  /\ recommend_deferrals (default_scheduler [dishwasher; big_charger])
       [big_charger_item; dishwasher_early_item] cloudy_then_sunny
     = Ok ["Consider running Dishwasher at 11:00 for 66% solar coverage"]
  /\ exists recommendations : list string,
       recommend_deferrals (default_scheduler [dishwasher; big_charger])
         [big_charger_item; dishwasher_early_item] cloudy_then_sunny
       = Ok recommendations
       /\ (length recommendations
           <= length (List.filter low_solar
                        [big_charger_item; dishwasher_early_item]))%nat
       /\ (length recommendations
           <= length [big_charger_item; dishwasher_early_item])%nat.
Proof.
  assert (Hrun : optimize_schedule (default_scheduler [dishwasher; big_charger])
                   cloudy_then_sunny
                 = Ok [big_charger_item; dishwasher_early_item])
    by (vm_compute; reflexivity).
  split; [exact Hrun|]. split; [vm_compute; reflexivity|].
  exact (deferrals_of_returned_schedule _ _ _ Hrun).
Defined.

(* ===================================================================== *)
(** * Further properties of the solar calculator *)
(* ===================================================================== *)

Section DailyProduction.
Local Open Scope float_scope.

Lemma f64_solar_output_nonneg (m : F64.Libm) (self : F64.SolarCalculator)
    (w : F64.WeatherData) (out : float) :
  F64.calculate_solar_output m self w = Ok out -> (0 <=? out) = true.
Proof.
  unfold F64.calculate_solar_output. intros Hrun.
  destruct (F64._calculate_angle_factor m self (F64.timestamp w)) as [af|e];
    [|discriminate Hrun].
  simpl in Hrun. injection Hrun as <-. apply f64_py_max_nonneg.
Qed.

Lemma f64_daily_production_loop (m : F64.Libm) (self : F64.SolarCalculator)
    (ws : list F64.WeatherData) :
  forall (acc ps : list (Z * float)),
    for_each ws
      (fun weather production_schedule =>
         output ← F64.calculate_solar_output m self weather;
         Ok (production_schedule ++ [(F64.timestamp weather, output)]))
      acc = Ok ps ->
    map fst ps = map fst acc ++ map F64.timestamp ws
    /\ (Forall (fun point => (0 <=? point.2) = true) acc ->
        Forall (fun point => (0 <=? point.2) = true) ps).
Proof.
  induction ws as [|w ws IH]; intros acc ps Hrun; simpl in Hrun.
  - injection Hrun as <-. by rewrite app_nil_r.
  - destruct (F64.calculate_solar_output m self w) as [out|e] eqn:Hout;
      [|discriminate Hrun].
    simpl in Hrun. destruct (IH _ _ Hrun) as [Hts Hall]. split.
    + rewrite Hts, map_app. simpl. by rewrite <- app_assoc.
    + intros Hacc. apply Hall. apply Forall_app. split; [done|].
      constructor; [|done]. simpl. by eapply f64_solar_output_nonneg.
Qed.

End DailyProduction.

(** X16. Whenever [calculate_daily_production] returns, in the arithmetic
    of the code and whatever the C library computes, the production
    schedule has one point per weather sample, in order and with the
    timestamp of the sample, and every output is at least 0 (so it is not
    a NaN either): [max(0, output)] is the last operation of
    [calculate_solar_output]. *)
Theorem daily_production_nonnegative (m : F64.Libm)
    (self : F64.SolarCalculator) (weather_forecast : list F64.WeatherData)
    (production_schedule : list (Z * float)) :
  F64.calculate_daily_production m self weather_forecast
    = Ok production_schedule ->
  map fst production_schedule = map F64.timestamp weather_forecast
  /\ Forall (fun point => (0 <=? point.2)%float = true) production_schedule.
Proof.
  unfold F64.calculate_daily_production. intros Hrun.
  destruct (f64_daily_production_loop _ _ _ _ _ Hrun) as [Hts Hall].
  split; [exact Hts|]. by apply Hall.
Qed.

Lemma daily_production_nonnegative_witness :
  F64.calculate_daily_production libm_sample
    (F64.new_calculator tropical_config) [tropical_noon]
    = Ok [(mk_datetime 739178 12 0, 5.6003654664083271%float)]
  /\ map fst [(mk_datetime 739178 12 0, 5.6003654664083271%float)]
     = map F64.timestamp [tropical_noon]
  /\ Forall (fun point => (0 <=? point.2)%float = true)
       [(mk_datetime 739178 12 0, 5.6003654664083271%float)].
Proof.
  assert (Hrun : F64.calculate_daily_production libm_sample
                   (F64.new_calculator tropical_config) [tropical_noon]
                 = Ok [(mk_datetime 739178 12 0, 5.6003654664083271%float)])
    by (vm_compute; reflexivity).
  split; [exact Hrun|].
  exact (daily_production_nonnegative libm_sample
           (F64.new_calculator tropical_config) [tropical_noon] _ Hrun).
Defined.

(** X17. The category of [get_production_categories] is monotone in the
    output: a higher output never gets a lower category, red below yellow
    below green, whatever the system configuration. *)
Theorem production_category_monotone (self : SolarCalculator)
    (output1 output2 : R) :
  (output1 <= output2)%R ->
  (category_rank (production_category self output1)
   <= category_rank (production_category self output2))%nat.
Proof.
  intros Hle. unfold production_category. cbv zeta.
  set (cap := (IZR (panel_count (config self)) * panel_wattage (config self)
               / 1000)%R).
  destruct (Rle_dec (cap * 0.7) output1), (Rle_dec (cap * 0.7) output2),
    (Rle_dec (cap * 0.3) output1), (Rle_dec (cap * 0.3) output2);
    try (vm_compute; lia); exfalso; Lra.lra.
Qed.

Lemma production_category_monotone_witness :
  (1 <= 5)%R
  /\ (category_rank (production_category (new_calculator demo_config) 1)
      <= category_rank (production_category (new_calculator demo_config) 5))%nat.
Proof.
  assert (H : (1 <= 5)%R) by Lra.lra.
  split; [exact H|].
  exact (production_category_monotone (new_calculator demo_config) 1 5 H).
Defined.

(* ===================================================================== *)
(** * Excess energy and window counts *)
(* ===================================================================== *)

Section ExcessFacts.
Local Open Scope Q_scope.

(** Number of points of the schedule that reach [min_power]. *)
Lemma window_count_scan (min_power duration_hours : Q) :
  forall (ps : ProductionSchedule) (st : list (Z * Z) * option Z * Z) (cnt : Z),
    (0 <= st.2)%Z ->
    (st.1.2 = None -> st.2 = 0%Z) ->
    inject_Z st.2 + inject_Z (Z.of_nat (length st.1.1)) * duration_hours
      <= inject_Z cnt ->
    let st' := window_scan min_power duration_hours ps st in
    inject_Z (Z.of_nat (length st'.1.1)) * duration_hours
    <= inject_Z (cnt + Z.of_nat (length (List.filter (qualifying min_power) ps))).
Proof.
  induction ps as [|[t o] ps IH]; intros [[ws cur] dur] cnt Hdur Hnone Hinv;
    simpl in Hdur, Hnone, Hinv.
  - cbv zeta. simpl. rewrite Z.add_0_r.
    assert (0 <= inject_Z dur) by (change 0 with (inject_Z 0); by apply inject_Z_le).
    lra.
  - cbv zeta. unfold window_scan. cbn [fold_left List.filter].
    unfold qualifying at 1. unfold window_step at 2. cbn [fst snd].
    assert (Hd0 : 0 <= inject_Z dur)
      by (change 0 with (inject_Z 0); by apply inject_Z_le).
    destruct (Qlt_le_dec o min_power) as [_|_].
    + apply (IH (ws, None, 0%Z) cnt); simpl; [lia|done|].
      change (inject_Z 0) with 0. lra.
    + assert (Hwd : exists s,
                (match cur with
                 | Some t' => (t', (dur + 1)%Z)
                 | None => (t, 1%Z)
                 end) = (s, (dur + 1)%Z)).
      { destruct cur as [s|]; [by exists s|]. rewrite Hnone by done. by exists t. }
      destruct Hwd as [s ->].
      replace (cnt + Z.of_nat (length ((t, o) :: List.filter (qualifying min_power) ps)))%Z
        with (cnt + 1 + Z.of_nat (length (List.filter (qualifying min_power) ps)))%Z
        by (simpl; lia).
      assert (Hplus : inject_Z (dur + 1) == inject_Z dur + 1)
        by (rewrite inject_Z_plus; reflexivity).
      assert (Hcnt : inject_Z (cnt + 1) == inject_Z cnt + 1)
        by (rewrite inject_Z_plus; reflexivity).
      destruct (Qlt_le_dec (inject_Z (dur + 1)) duration_hours) as [Hlt|Hge].
      * apply (IH (ws, Some s, (dur + 1)%Z) (cnt + 1)%Z); simpl;
          [lia|done|]. rewrite Hplus, Hcnt. lra.
      * apply (IH (ws ++ [(s, t)], None, 0%Z) (cnt + 1)%Z); simpl; [lia|done|].
        rewrite length_app. simpl.
        replace (Z.of_nat (length ws + 1)) with (Z.of_nat (length ws) + 1)%Z
          by lia.
        rewrite inject_Z_plus, Hcnt. change (inject_Z 0) with 0.
        change (inject_Z 1) with 1. lra.
Qed.

End ExcessFacts.

(** X18. [estimate_battery_charging] keeps every point with its
    timestamp; every excess is non-negative, is at most the output when
    the base load is non-negative, and is the solar power that the
    scheduler with that base load counts as available at a point where
    nothing is booked. *)
Theorem battery_excess_shape (s : ApplianceScheduler) (ps : ProductionSchedule) :
  map fst (estimate_battery_charging ps (base_load s)) = map fst ps
  /\ Forall (fun point => (0 <= point.2)%Q)
       (estimate_battery_charging ps (base_load s))
  /\ ((0 <= base_load s)%Q ->
      Forall2 (fun excess point => (excess.2 <= Qmax 0 point.2)%Q)
        (estimate_battery_charging ps (base_load s)) ps)
  /\ Forall2 (fun excess point =>
                (excess.2
                 == available_solar s point.2 (used_power_at ∅ point.1))%Q)
       (estimate_battery_charging ps (base_load s)) ps.
Proof.
  unfold estimate_battery_charging. split_and!.
  - rewrite map_map. reflexivity.
  - apply List.Forall_map. apply List.Forall_forall. intros p _. simpl.
    apply Q.le_max_l.
  - intros Hload. induction ps as [|p ps IH]; simpl; constructor; [|exact IH].
    simpl. apply Q.max_le_compat_l. lra.
  - induction ps as [|p ps IH]; simpl; constructor; [|exact IH].
    simpl. unfold available_solar, used_power_at. rewrite lookup_empty. simpl.
    apply Q.max_compat; [reflexivity|]. lra.
Qed.

(** X19. [get_optimal_time_windows] never emits more windows than the
    points above [min_power] can pay for: the number of windows times
    [duration_hours] is at most the number of such points. *)
Theorem optimal_windows_count (ps : ProductionSchedule)
    (min_power duration_hours : Q) :
  (inject_Z (Z.of_nat (length
               (get_optimal_time_windows ps min_power duration_hours)))
   * duration_hours
   <= inject_Z (Z.of_nat (length (List.filter (qualifying min_power) ps))))%Q.
Proof.
  pose proof (window_count_scan min_power duration_hours ps ([], None, 0%Z) 0%Z)
    as H.
  apply H; [simpl; lia|done|].
  cbn [fst snd length].
  change (inject_Z (Z.of_nat 0)) with 0%Q. change (inject_Z 0) with 0%Q. lra.
Qed.

Lemma battery_excess_shape_witness :
  (0 <= base_load (default_scheduler []))%Q
  /\ estimate_battery_charging cloudy_then_sunny (base_load (default_scheduler []))
     = [(t10, Qmax 0 (3 - 2)); (t11, Qmax 0 (13 - 2))]%Q
  /\ Forall2 (fun excess point => (excess.2 <= Qmax 0 point.2)%Q)
       (estimate_battery_charging cloudy_then_sunny
          (base_load (default_scheduler []))) cloudy_then_sunny.
Proof.
  assert (H : (0 <= base_load (default_scheduler []))%Q)
    by (vm_compute; discriminate).
  split; [exact H|]. split; [reflexivity|].
  destruct (battery_excess_shape (default_scheduler []) cloudy_then_sunny)
    as (_ & _ & Hle & _).
  exact (Hle H).
Defined.

(* ===================================================================== *)
(** * The irradiance estimate of the weather module *)
(* ===================================================================== *)

(** X21. For a cloud cover between 0 and 100 percent the irradiance
    estimate lies between 0 and 1000 W/m2, at every time of day. *)
Theorem irradiance_estimate_bounds (cloud_cover : R) (t : datetime) :
  (0 <= cloud_cover)%R ->
  (cloud_cover <= 100)%R ->
  (0 <= _estimate_solar_irradiance cloud_cover t)%R
  /\ (_estimate_solar_irradiance cloud_cover t <= 1000)%R.
Proof.
  intros Hlo Hhi. unfold _estimate_solar_irradiance. cbv zeta.
  split; [apply Rmax_l|].
  set (f := (1 - cloud_cover / 100 * 0.8)%R).
  assert (Hf : (0 <= f <= 1)%R) by (unfold f; split; Lra.lra).
  apply Rmax_lub; [Lra.lra|].
  destruct ((dt_hour t <? 6) || (18 <? dt_hour t))%Z.
  - rewrite Rmult_0_r, Rmult_0_l. Lra.lra.
  - set (e := Rabs (sin (PI * IZR (dt_hour t - 6) / 12))).
    assert (He : (0 <= e <= 1)%R).
    { unfold e. split; [apply Rabs_pos|].
      apply Rabs_le. apply SIN_bound. }
    Lra.nra.
Qed.

Lemma irradiance_estimate_bounds_witness :
  (0 <= 30)%R
  /\ (30 <= 100)%R
  /\ (0 <= _estimate_solar_irradiance 30 t12)%R
  /\ (_estimate_solar_irradiance 30 t12 <= 1000)%R.
Proof.
  assert (Hlo : (0 <= 30)%R) by Lra.lra.
  assert (Hhi : (30 <= 100)%R) by Lra.lra.
  split; [exact Hlo|]. split; [exact Hhi|].
  exact (irradiance_estimate_bounds 30 t12 Hlo Hhi).
Defined.

(* ===================================================================== *)
(** * Consumption and energy statistics of the visualizer *)
(* ===================================================================== *)

Section VisualizerFacts.
Local Open Scope Q_scope.

Lemma load_at_time_fold (t : datetime) (items : list ScheduleItem) (acc : Q) :
  fold_left
    (fun total_load item =>
       if (start_time item <=? t)%Z && (t <? end_time item)%Z
       then total_load + power_rating (appliance item)
       else total_load) items acc
  = fold_left Qplus
      (map (fun item => power_rating (appliance item))
         (List.filter (fun item => covers item t) items)) acc.
Proof.
  revert acc. induction items as [|item items IH]; intros acc; [reflexivity|].
  cbn [fold_left List.filter]. unfold covers at 1.
  destruct ((start_time item <=? t)%Z && (t <? end_time item)%Z); simpl;
    apply IH.
Qed.

(** The load that the visualizer computes is the load of the schedule. *)
Lemma get_appliance_load_is_load_at (t : datetime) (items : list ScheduleItem) :
  _get_appliance_load_at_time t items = load_at items t.
Proof. apply load_at_time_fold. Qed.

Lemma min_max_split (p c : Q) : Qmin p c + Qmax 0 (c - p) == c.
Proof.
  destruct (Q.min_spec p c) as [[Hlt ->]|[Hle ->]];
    destruct (Q.max_spec 0 (c - p)) as [[Hlt' ->]|[Hle' ->]]; lra.
Qed.

Lemma statistics_fold (items : list ScheduleItem) (base_load : Q) :
  forall (ps : ProductionSchedule) (st : Q * Q),
    let r := fold_left (statistics_step items base_load) ps st in
    r.1 + r.2
    == st.1 + st.2
       + py_sum (_calculate_hourly_consumption (map fst ps) items base_load)
    /\ r.1 <= st.1 + py_sum (map snd ps)
    /\ st.2 <= r.2
    /\ (Forall (fun point => 0 <= point.2) ps ->
        Forall (fun c => 0 <= c)
          (_calculate_hourly_consumption (map fst ps) items base_load) ->
        st.1 <= r.1).
Proof.
  induction ps as [|[t o] ps IH]; intros [su gr].
  - cbv zeta. simpl. unfold py_sum. simpl. split_and!; intros; lra.
  - cbv zeta. cbn [fold_left].
    set (c := base_load + _get_appliance_load_at_time t items).
    assert (Hstep : statistics_step items base_load (su, gr) (t, o)
                    = (su + Qmin o c, gr + Qmax 0 (c - o))) by reflexivity.
    rewrite Hstep. clear Hstep.
    assert (Hcons : _calculate_hourly_consumption (map fst ((t, o) :: ps))
                      items base_load
                    = c :: _calculate_hourly_consumption (map fst ps) items
                             base_load) by reflexivity.
    rewrite Hcons. clear Hcons.
    destruct (IH (su + Qmin o c, gr + Qmax 0 (c - o)))
      as (Hsum & Hsolar & Hgrid & Hpos).
    cbv zeta in Hsum, Hsolar, Hgrid, Hpos.
    cbn [fst snd] in Hsum, Hsolar, Hgrid, Hpos |- *.
    pose proof (min_max_split o c) as Hsplit.
    pose proof (Q.le_min_l o c) as Hmin.
    pose proof (Q.le_max_l 0 (c - o)) as Hmax.
    cbn [map snd]. rewrite !py_sum_cons.
    split_and!.
    + rewrite Hsum. lra.
    + lra.
    + lra.
    + intros Hprod Hcons. inversion Hprod as [|? ? Ho Hprod']; subst.
      inversion Hcons as [|? ? Hc Hcons']; subst. simpl in Ho.
      specialize (Hpos Hprod' Hcons').
      assert (0 <= Qmin o c) by (by apply Q.min_glb). lra.
Qed.

End VisualizerFacts.

(** X22. On hourly production data and with no appliance above the 10 kW
    slot capacity, the consumption that the visualizer computes for the
    returned schedule at the timestamps of the production schedule never
    exceeds the base load plus 10 kW. *)
Theorem hourly_consumption_within_capacity (s : ApplianceScheduler)
    (ps : ProductionSchedule) (phase : Z) (items : list ScheduleItem)
    (base : Q) :
  Forall (fun point => hour_phase point.1 = phase) ps ->
  Forall (fun a => (power_rating a <= slot_capacity)%Q) (appliances s) ->
  optimize_schedule s ps = Ok items ->
  Forall (fun consumption => (consumption <= base + 10)%Q)
    (_calculate_hourly_consumption (map fst ps) items base).
Proof.
  intros Hps Hpow Hrun. unfold optimize_schedule in Hrun.
  destruct (optimize_loop s ps) as [[items' used]|e] eqn:Hloop; [|discriminate].
  simpl in Hrun. injection Hrun as ->.
  unfold _calculate_hourly_consumption. rewrite map_map.
  apply List.Forall_map. eapply Forall_impl; [exact Hps|].
  intros [t o] Ht. simpl in *.
  rewrite get_appliance_load_is_load_at.
  rewrite <- (used_slots_load s ps phase items used Hps Hloop t Ht).
  pose proof (used_slots_within_capacity s ps items used Hpow Hloop) as Hcap.
  unfold used_power_at. destruct (used !! t) as [u|] eqn:Hlk; simpl.
  - pose proof (Hcap t u Hlk) as Hu. unfold slot_capacity in Hu. lra.
  - lra.
Qed.

Lemma hourly_consumption_within_capacity_witness :
  Forall (fun point => hour_phase point.1 = 0%Z) cloudy_then_sunny
  /\ Forall (fun a => (power_rating a <= slot_capacity)%Q)
       (appliances (default_scheduler [dishwasher; big_charger]))
  /\ optimize_schedule (default_scheduler [dishwasher; big_charger])
       cloudy_then_sunny
     = Ok [big_charger_item; dishwasher_early_item]
  /\ _calculate_hourly_consumption (map fst cloudy_then_sunny)
       [big_charger_item; dishwasher_early_item] 2
     = [2 + (0 + 1.5); 2 + (0 + 9)]%Q
  /\ Forall (fun consumption => (consumption <= 2 + 10)%Q)
       (_calculate_hourly_consumption (map fst cloudy_then_sunny)
          [big_charger_item; dishwasher_early_item] 2).
Proof.
  assert (Hps : Forall (fun point => hour_phase point.1 = 0%Z) cloudy_then_sunny)
    by (repeat constructor).
  assert (Hpow : Forall (fun a => (power_rating a <= slot_capacity)%Q)
                   (appliances (default_scheduler [dishwasher; big_charger]))).
  { repeat constructor; vm_compute; discriminate. }
  assert (Hrun : optimize_schedule (default_scheduler [dishwasher; big_charger])
                   cloudy_then_sunny
                 = Ok [big_charger_item; dishwasher_early_item])
    by (vm_compute; reflexivity).
  split; [exact Hps|]. split; [exact Hpow|]. split; [exact Hrun|].
  split; [reflexivity|].
  exact (hourly_consumption_within_capacity _ _ _ _ 2%Q Hps Hpow Hrun).
Defined.

(** X24. When the production, the base load and the power ratings are
    non-negative, the solar efficiency of the energy statistics lies
    between 0 and 100 percent. *)
Theorem solar_efficiency_bounds (ps : ProductionSchedule)
    (items : list ScheduleItem) (base : Q) :
  Forall (fun point => (0 <= point.2)%Q) ps ->
  (0 <= base)%Q ->
  Forall (fun item => (0 <= power_rating (appliance item))%Q) items ->
  (0 <= solar_efficiency (_calculate_energy_statistics ps items base))%Q
  /\ (solar_efficiency (_calculate_energy_statistics ps items base) <= 100)%Q.
Proof.
  intros Hprod Hbase Hpow.
  assert (Hload : forall t, (0 <= _get_appliance_load_at_time t items)%Q).
  { intros t. rewrite get_appliance_load_is_load_at. unfold load_at.
    apply py_sum_map_nonneg. apply List.Forall_forall. intros item Hin.
    apply List.filter_In in Hin as [Hin _].
    rewrite Forall_forall in Hpow. apply Hpow. by apply list_elem_of_In. }
  assert (Hcons : Forall (fun c => (0 <= c)%Q)
                    (_calculate_hourly_consumption (map fst ps) items base)).
  { unfold _calculate_hourly_consumption. apply List.Forall_map.
    apply List.Forall_forall. intros t _. pose proof (Hload t). lra. }
  unfold _calculate_energy_statistics. cbv zeta. cbn [solar_efficiency].
  destruct (statistics_fold items base ps (0, 0)%Q) as (_ & _ & Hgrid & Hsolar).
  cbv zeta in Hgrid, Hsolar. cbn [fst snd] in Hgrid, Hsolar.
  specialize (Hsolar Hprod Hcons).
  set (st := fold_left (statistics_step items base) ps (0, 0)%Q) in *.
  destruct (Qlt_le_dec 0 (st.1 + st.2)) as [Hpos|_]; [|split; lra].
  assert (0 <= st.1 / (st.1 + st.2))%Q by (apply Qle_shift_div_l; lra).
  assert (st.1 / (st.1 + st.2) <= 1)%Q by (apply Qle_shift_div_r; lra).
  split; lra.
Qed.

Lemma solar_efficiency_bounds_witness :
  Forall (fun point => (0 <= point.2)%Q) cloudy_then_sunny
  /\ (0 <= 2)%Q
  /\ Forall (fun item => (0 <= power_rating (appliance item))%Q)
       [big_charger_item; dishwasher_early_item]
  /\ (solar_efficiency
        (_calculate_energy_statistics cloudy_then_sunny
           [big_charger_item; dishwasher_early_item] 2) == 2800 # 29)%Q
  /\ (0 <= solar_efficiency
             (_calculate_energy_statistics cloudy_then_sunny
                [big_charger_item; dishwasher_early_item] 2))%Q
  /\ (solar_efficiency
        (_calculate_energy_statistics cloudy_then_sunny
           [big_charger_item; dishwasher_early_item] 2) <= 100)%Q.
Proof.
  assert (Hprod : Forall (fun point => (0 <= point.2)%Q) cloudy_then_sunny)
    by (repeat constructor; vm_compute; discriminate).
  assert (Hbase : (0 <= 2)%Q) by (vm_compute; discriminate).
  assert (Hpow : Forall (fun item => (0 <= power_rating (appliance item))%Q)
                   [big_charger_item; dishwasher_early_item])
    by (repeat constructor; vm_compute; discriminate).
  destruct (solar_efficiency_bounds cloudy_then_sunny
              [big_charger_item; dishwasher_early_item] 2 Hprod Hbase Hpow)
    as [Hlo Hhi].
  split_and!; try assumption. vm_compute. reflexivity.
Defined.

(* ===================================================================== *)
(** * Availability, bookkeeping and the zero power rating *)
(* ===================================================================== *)

Section BookkeepingFacts.
Local Open Scope Q_scope.

Lemma is_slot_available_complete (used : gmap Z Q) (p : Q) :
  forall (n : nat) (t : datetime),
    (forall (k : nat) (u : Q),
       (k < n)%nat -> used !! add_hours t (Z.of_nat k) = Some u ->
       u + p <= slot_capacity) ->
    is_slot_available_loop n t used p = true.
Proof.
  induction n as [|n IH]; intros t Hroom; [reflexivity|].
  simpl.
  assert (Hrest : is_slot_available_loop n (add_hours t 1) used p = true).
  { apply IH. intros k u Hk Hlk. rewrite add_hours_succ in Hlk.
    apply (Hroom (S k) u); [lia|exact Hlk]. }
  destruct (used !! t) as [u|] eqn:Hlk; [|exact Hrest].
  destruct (Qlt_le_dec slot_capacity (u + p)) as [Hlt|_]; [|exact Hrest].
  assert (u + p <= slot_capacity); [|lra].
  apply (Hroom 0%nat u); [lia|].
  change (Z.of_nat 0) with 0%Z. by rewrite add_hours_0.
Qed.

Lemma schedule_step_within_capacity (s : ApplianceScheduler)
    (ps : ProductionSchedule) (a : Appliance)
    (st st' : list ScheduleItem * gmap Z Q) :
  power_rating a <= slot_capacity ->
  within_capacity st.2 ->
  schedule_step s ps a st = Ok st' ->
  within_capacity st'.2.
Proof.
  intros Hpow Hcap Hstep.
  apply schedule_step_spec in Hstep as [->|(item & Hplaced & ->)]; [exact Hcap|].
  destruct Hplaced as (i & t & o & _ & Hd & _ & _ & Hav & ->).
  destruct (create_item_fields s a t (py_int (duration a)) ps st.2)
    as (Happ & Hstart & Hend & _).
  simpl. unfold _mark_slots_used. rewrite Happ, Hstart, Hend.
  rewrite hours_until_add_hours.
  apply mark_loop_within_capacity; [exact Hpow|exact Hcap|].
  intros k u Hk Hlk. by eapply is_slot_available_sound.
Qed.

(** With every hour within capacity, a zero power rating finds its first
    window available and then divides by zero in the score. *)
Lemma find_best_zero_power_raises (s : ApplianceScheduler) (a : Appliance)
    (ps : ProductionSchedule) (used : gmap Z Q) :
  within_capacity used ->
  power_rating a == 0 ->
  (1 <= py_int (duration a))%Z ->
  (py_int (duration a) <= Z.of_nat (length ps))%Z ->
  exists e, _find_best_time_slot s a ps used = Raise e.
Proof.
  intros Hcap Hzero Hd Hlen. unfold _find_best_time_slot.
  destruct (for_each_raises
              (py_range (Z.of_nat (length ps) - py_int (duration a) + 1))
              (best_step s a ps used (py_int (duration a))) 0%nat (None, -1))
    as [e He].
  - apply py_range_elem. lia.
  - intros st. unfold best_step.
    destruct (lookup_lt_is_Some_2 ps 0 ltac:(lia)) as [[t o] Hlk].
    rewrite Hlk.
    assert (Hav : _is_slot_available t (py_int (duration a)) used
                    (power_rating a) = true).
    { apply is_slot_available_complete. intros k u _ Hu.
      pose proof (Hcap _ u Hu). lra. }
    rewrite Hav.
    destruct (_calculate_slot_score s a t (py_int (duration a)) ps used)
      as [sc|e] eqn:Hsc; [|by exists e].
    exfalso. by apply (score_ok_power s a ps used 0 t o sc _ Hlk Hd Hsc).
  - exists e. by rewrite He.
Qed.

End BookkeepingFacts.

(** X25. [_is_slot_available] accepts a window exactly when, in each of
    its hours that is already booked, the booked power plus the power
    needed stays within 10 kW; hours that are not booked never refuse. *)
Theorem slot_available_iff_room (start : datetime) (d : Z)
    (used : gmap Z Q) (power_needed : Q) :
  _is_slot_available start d used power_needed = true
  <-> forall (k : nat) (u : Q),
        (Z.of_nat k < d)%Z ->
        used !! add_hours start (Z.of_nat k) = Some u ->
        (u + power_needed <= 10)%Q.
Proof.
  unfold _is_slot_available. split.
  - intros Hav k u Hk Hlk.
    apply (is_slot_available_sound used power_needed (Z.to_nat d) start Hav k u);
      [lia|exact Hlk].
  - intros Hroom. apply is_slot_available_complete.
    intros k u Hk Hlk. apply (Hroom k u); [lia|exact Hlk].
Qed.

(** X26. [_mark_slots_used] adds the power rating of the item, once, to
    the power booked at each whole hour from its start up to its end, and
    leaves every other instant as it was. *)
Theorem mark_slots_used_books_item (item : ScheduleItem) (d : Z)
    (used : gmap Z Q) (t : datetime) :
  (0 <= d)%Z ->
  end_time item = add_hours (start_time item) d ->
  (used_power_at (_mark_slots_used item used) t
   == used_power_at used t
      + (if in_hours (start_time item) d t
         then power_rating (appliance item) else 0))%Q.
Proof.
  intros Hd Hend. unfold _mark_slots_used. rewrite Hend.
  rewrite hours_until_add_hours.
  replace (add_hours (start_time item) d)
    with (add_hours (start_time item) (Z.of_nat (Z.to_nat d)))
    by (rewrite Z2Nat.id by lia; reflexivity).
  rewrite mark_loop_power. rewrite Z2Nat.id by lia. reflexivity.
Qed.

Lemma mark_slots_used_books_item_witness :
  (0 <= 1)%Z
  /\ end_time oven_item = add_hours (start_time oven_item) 1
  /\ _mark_slots_used oven_item {[ t10 := 3%Q ]} = {[ t10 := (3 + 15)%Q ]}
  /\ (used_power_at (_mark_slots_used oven_item {[ t10 := 3%Q ]}) t10
      == used_power_at {[ t10 := 3%Q ]} t10
         + (if in_hours (start_time oven_item) 1 t10
            then power_rating (appliance oven_item) else 0))%Q.
Proof.
  assert (Hd : (0 <= 1)%Z) by lia.
  assert (Hend : end_time oven_item = add_hours (start_time oven_item) 1)
    by reflexivity.
  split; [exact Hd|]. split; [exact Hend|]. split; [vm_compute; reflexivity|].
  exact (mark_slots_used_books_item oven_item 1 {[ t10 := 3%Q ]} t10 Hd Hend).
Defined.

(** X27. When no appliance draws more than 10 kW, an appliance of zero
    power rating that lasts at least one whole slot and fits in the
    production schedule makes [optimize_schedule] raise an exception: its
    first window is always available and its score divides by the power
    rating. *)
Theorem zero_power_always_raises (s : ApplianceScheduler)
    (ps : ProductionSchedule) (a : Appliance) :
  Forall (fun b => (power_rating b <= slot_capacity)%Q) (appliances s) ->
  a ∈ appliances s ->
  (power_rating a == 0)%Q ->
  (1 <= py_int (duration a))%Z ->
  (py_int (duration a) <= Z.of_nat (length ps))%Z ->
  exists e, optimize_schedule s ps = Raise e.
Proof.
  intros Hpow Hin Hzero Hd Hlen. unfold optimize_schedule.
  destruct (optimize_loop s ps) as [st|e] eqn:Hloop; [|by exists e].
  exfalso. unfold optimize_loop in Hloop.
  rewrite <- (sorted_appliances_perm (appliances s)) in Hpow, Hin.
  rewrite Forall_forall in Hpow.
  assert (Hinv : forall xs s0 s1,
            (forall b, b ∈ xs -> (power_rating b <= slot_capacity)%Q) ->
            within_capacity s0.2 ->
            for_each xs (schedule_step s ps) s0 = Ok s1 ->
            a ∈ xs -> False).
  { induction xs as [|b xs IH]; intros s0 s1 Hxs Hcap Hrun Ha;
      [by apply elem_of_nil in Ha|].
    simpl in Hrun.
    destruct (schedule_step s ps b s0) as [t|e] eqn:Hstep; [|discriminate].
    apply elem_of_cons in Ha as [<-|Ha].
    - unfold schedule_step in Hstep.
      destruct (find_best_zero_power_raises s a ps s0.2 Hcap Hzero Hd Hlen)
        as [e He].
      rewrite He in Hstep. discriminate.
    - apply (IH t s1); [| |exact Hrun|exact Ha].
      + intros c Hc. apply Hxs. by right.
      + eapply schedule_step_within_capacity; [|exact Hcap|exact Hstep].
        apply Hxs. by left. }
  eapply Hinv; [exact Hpow| |exact Hloop|exact Hin].
  intros t u. simpl. by rewrite lookup_empty.
Qed.

Lemma zero_power_always_raises_witness :
  Forall (fun b => (power_rating b <= slot_capacity)%Q)
    (appliances (default_scheduler [dishwasher; standby]))
  /\ standby ∈ appliances (default_scheduler [dishwasher; standby])
  /\ (power_rating standby == 0)%Q
  /\ (1 <= py_int (duration standby))%Z
  /\ (py_int (duration standby) <= Z.of_nat (length one_sunny_hour))%Z
  /\ optimize_schedule (default_scheduler [dishwasher; standby]) one_sunny_hour
     = Raise ZeroDivisionError
  /\ exists e,
       optimize_schedule (default_scheduler [dishwasher; standby])
         one_sunny_hour = Raise e.
Proof.
  assert (Hpow : Forall (fun b => (power_rating b <= slot_capacity)%Q)
                   (appliances (default_scheduler [dishwasher; standby]))).
  { repeat constructor; vm_compute; discriminate. }
  assert (Hin : standby ∈ appliances (default_scheduler [dishwasher; standby]))
    by (simpl; apply list_elem_of_further, list_elem_of_here).
  assert (Hzero : (power_rating standby == 0)%Q) by reflexivity.
  assert (Hd : (1 <= py_int (duration standby))%Z) by (vm_compute; discriminate).
  assert (Hlen : (py_int (duration standby)
                  <= Z.of_nat (length one_sunny_hour))%Z)
    by (vm_compute; discriminate).
  split_and!; try assumption; [vm_compute; reflexivity|].
  exact (zero_power_always_raises _ one_sunny_hour standby Hpow Hin Hzero Hd Hlen).
Defined.
